(** * chess-elo-api: the FSRS spaced-repetition scheduler

    A shallow embedding of the scheduler core of [chess_client/models.py]
    and [chess_client/views.py], and the properties of it that the
    specification states.

    Number model.  Python [float] values are embedded as real numbers [R]:
    the arithmetic is the exact one, rounding, overflow and NaN are outside
    the model.  The Python operations that raise are written out as such:
    [/] raises [ZeroDivisionError] on a zero divisor, [math.sqrt] raises
    [ValueError] on a negative argument and [math.log] on a non-positive one.
    Python [int] values are embedded as [Z].

    Time model.  A [datetime] is a real number of seconds since the epoch and
    a [timedelta] a real number of seconds; the microsecond granularity of
    both is outside the model.  [timezone.now()] is an explicit argument
    [now] of every operation that reads the clock; a view reads one instant
    during one request.

    Database model.  A table is the list of its rows in the order in which
    a query without [order_by] scans them; a view takes the database and
    returns its response and the database it leaves.

    The module [binary64] repeats the arithmetic of the update and the two
    formulas of the interval and the retrievability on the primitive floats,
    to run single inputs with the rounding of Python.  The module [rounded]
    states the two formulas over an arithmetic whose operations are
    arguments, to bound what rounding does to their composition. *)

From Stdlib Require Import Reals Lra Lia ZArith List String Bool Permutation.
From Stdlib Require Floats.
Import ListNotations.

Set Implicit Arguments.

(** ** Python primitives *)

Module Py.

Inductive exn : Type :=
| ZeroDivisionError
| ValueError
| KeyError
| DoesNotExist
| IntegrityError
| UnboundLocalError.

(** The outcome of evaluating Python code: a value, or a raised exception. *)
Inductive result (A : Type) : Type :=
| Ok (a : A)
| Raise (e : exn).
Arguments Ok {A} a.
Arguments Raise {A} e.

Definition bind {A B : Type} (c : result A) (k : A -> result B) : result B :=
  match c with
  | Ok a => k a
  | Raise e => Raise e
  end.

(** [x / y] on floats. *)
Definition truediv (x y : R) : result R :=
  if Req_dec_T y 0 then Raise ZeroDivisionError else Ok (x / y)%R.

(** [math.sqrt(x)]. *)
Definition math_sqrt (x : R) : result R :=
  if Rlt_dec x 0 then Raise ValueError else Ok (sqrt x).

(** [math.log(x)]. *)
Definition math_log (x : R) : result R :=
  if Rle_dec x 0 then Raise ValueError else Ok (ln x).

(** [math.exp(x)]. *)
Definition math_exp (x : R) : R := exp x.

(** A [dict] with integer keys, as the literal lists its items. *)
Definition dict (V : Type) : Type := list (Z * V).

Fixpoint lookup {V : Type} (d : dict V) (k : Z) : option V :=
  match d with
  | [] => None
  | (k', v) :: d' => if Z.eqb k' k then Some v else lookup d' k
  end.

(** [d.get(k, default)]. *)
Definition get {V : Type} (d : dict V) (k : Z) (default : V) : V :=
  match lookup d k with
  | Some v => v
  | None => default
  end.

(** [d[k]]. *)
Definition getitem {V : Type} (d : dict V) (k : Z) : result V :=
  match lookup d k with
  | Some v => Ok v
  | None => Raise KeyError
  end.

(** [datetime] and [timedelta], in seconds. *)
Definition datetime : Type := R.
Definition timedelta : Type := R.

(** [timedelta(days=d)]. *)
Definition timedelta_days (d : R) : timedelta := (d * 86400)%R.

(** [td.total_seconds()]. *)
Definition total_seconds (td : timedelta) : R := td.

End Py.

Export Py.

Declare Scope py_scope.
Delimit Scope py_scope with py.
Notation "x <- c ;; k" := (Py.bind c (fun x => k))
  (at level 61, c at next level, right associativity) : py_scope.
Notation "' pat <- c ;; k" := (Py.bind c (fun x => match x with pat => k end))
  (at level 61, pat pattern, c at next level, right associativity) : py_scope.
Open Scope py_scope.

(** ** [chess_client/models.py] *)

Module models.

Record Puzzle : Type := mkPuzzle {
  puzzle_pk : string;                  (* id *)
  puzzle_player_username : string;     (* player_username *)
  puzzle_rating : Z                    (* rating *)
}.

Record PuzzleAttempt : Type := mkPuzzleAttempt {
  attempt_pk : string;                 (* id *)
  attempt_puzzle : string;             (* puzzle *)
  attempt_player : string;             (* player *)
  attempt_number : Z;
  tries_count : Z;
  hint_used : bool;
  solved : bool;
  rating : option Z;
  created_at : datetime;
  completed_at : option datetime
}.

(** [PuzzleAttempt.determine_rating] *)
Definition determine_rating (self : PuzzleAttempt) : Z :=
  if negb (solved self) then 1
  else if (tries_count self >? 2)%Z || hint_used self then 2
  else if (tries_count self >? 0)%Z then 3
  else 4.

Record FSRSMemory : Type := mkFSRSMemory {
  memory_pk : string;                  (* id *)
  player_username : string;
  puzzle_id : string;
  difficulty : R;
  stability : R;
  last_review_date : option datetime;
  next_review_date : option datetime;
  memory_created_at : datetime;        (* created_at *)
  updated_at : datetime
}.

Definition set_difficulty (m : FSRSMemory) (d : R) : FSRSMemory :=
  mkFSRSMemory (memory_pk m) (player_username m) (puzzle_id m) d (stability m)
    (last_review_date m) (next_review_date m) (memory_created_at m) (updated_at m).

Definition set_stability (m : FSRSMemory) (s : R) : FSRSMemory :=
  mkFSRSMemory (memory_pk m) (player_username m) (puzzle_id m) (difficulty m) s
    (last_review_date m) (next_review_date m) (memory_created_at m) (updated_at m).

Definition set_next_review_date (m : FSRSMemory) (t : option datetime) : FSRSMemory :=
  mkFSRSMemory (memory_pk m) (player_username m) (puzzle_id m) (difficulty m) (stability m)
    (last_review_date m) t (memory_created_at m) (updated_at m).

Definition set_last_review_date (m : FSRSMemory) (t : option datetime) : FSRSMemory :=
  mkFSRSMemory (memory_pk m) (player_username m) (puzzle_id m) (difficulty m) (stability m)
    t (next_review_date m) (memory_created_at m) (updated_at m).

Definition set_updated_at (m : FSRSMemory) (t : datetime) : FSRSMemory :=
  mkFSRSMemory (memory_pk m) (player_username m) (puzzle_id m) (difficulty m) (stability m)
    (last_review_date m) (next_review_date m) (memory_created_at m) t.

(** [FSRSMemory.calculate_retrievability]; [now] is the clock it reads. *)
Definition calculate_retrievability (now : datetime) (self : FSRSMemory) : result R :=
  match last_review_date self with
  | None => Ok 1.0%R
  | Some last =>
      let elapsed_days := (total_seconds (now - last) / (24 * 3600))%R in
      q <- truediv (- elapsed_days) (stability self) ;;
      Ok (math_exp q)
  end.

(** [FSRSMemory.calculate_next_interval] *)
Definition calculate_next_interval (self : FSRSMemory) (desired_retention : R) : result R :=
  l <- math_log desired_retention ;;
  Ok (- stability self * l)%R.

Definition stability_multipliers : dict R :=
  [(1%Z, 0.2%R); (2%Z, 1.1%R); (3%Z, 1.5%R); (4%Z, 2.0%R)].

Definition difficulty_adjustments : dict R :=
  [(1%Z, 0.1%R); (2%Z, 0.05%R); (3%Z, (-0.05)%R); (4%Z, (-0.1)%R)].

Definition initial_stability : dict R :=
  [(1%Z, 0.5%R); (2%Z, 1.2%R); (3%Z, 3.0%R); (4%Z, 7.0%R)].

(** [FSRSMemory.update_memory]; the result is the record that [self.save()]
    stores, whose [next_review_date] the method returns.  [now] is the
    clock reading of the method, [now'] the one of the nested call of
    [calculate_retrievability]. *)
Definition update_memory (now now' : datetime) (self : FSRSMemory)
    (rating : Z) (solved : bool) (tries_count : Z) (hint_used : bool)
    : result FSRSMemory :=
  '(elapsed_days, self) <-
    match last_review_date self with
    | Some last =>
        let elapsed_days := (total_seconds (now - last) / (24 * 3600))%R in
        _retrievability <- calculate_retrievability now' self ;;
        Ok (elapsed_days, self)
    | None =>
        Ok (0%R, set_stability self (get initial_stability rating 1.0%R))
    end ;;
  let self := set_difficulty self
                (difficulty self + get difficulty_adjustments rating 0)%R in
  let self := if (tries_count >? 0)%Z
              then set_difficulty self
                     (difficulty self + 0.1 * IZR (Z.min tries_count 3))%R
              else self in
  let self := if hint_used
              then set_difficulty self (difficulty self + 0.2)%R
              else self in
  let self := set_difficulty self (Rmax 1.0 (Rmin 3.0 (difficulty self))) in
  self <-
    match last_review_date self with
    | Some _ =>
        if (rating =? 1)%Z then
          m <- getitem stability_multipliers 1 ;;
          Ok (set_stability self (stability self * m)%R)
        else
          let stability_multiplier := get stability_multipliers rating 1.5%R in
          q <- truediv elapsed_days (Rmax (stability self) 0.1) ;;
          r <- math_sqrt q ;;
          let spacing_multiplier := Rmin 2.0 r in
          Ok (set_stability self
                (stability self * (stability_multiplier * spacing_multiplier))%R)
    | None => Ok self
    end ;;
  next_interval <- calculate_next_interval self 0.9%R ;;
  let self := set_next_review_date self (Some (now + timedelta_days next_interval)%R) in
  let self := set_last_review_date self (Some now) in
  let self := set_updated_at self now in
  Ok self.

Record UserDailyProgress : Type := mkUserDailyProgress {
  progress_player : string;            (* player *)
  date : Z;
  new_puzzles_seen : Z;
  reviews_done : Z
}.

(** [UserDailyProgress.total_puzzles_done] *)
Definition total_puzzles_done (self : UserDailyProgress) : Z :=
  (new_puzzles_seen self + reviews_done self)%Z.

(** [UserDailyProgress.is_new_limit_reached] *)
Definition is_new_limit_reached (self : UserDailyProgress) (new_limit : Z) : bool :=
  (new_puzzles_seen self >=? new_limit)%Z.

(** [UserDailyProgress.is_total_limit_reached] *)
Definition is_total_limit_reached (self : UserDailyProgress) (total_limit : Z) : bool :=
  (total_puzzles_done self >=? total_limit)%Z.

(** Assignments to the fields of an attempt. *)
Definition set_tries_count (a : PuzzleAttempt) (n : Z) : PuzzleAttempt :=
  mkPuzzleAttempt (attempt_pk a) (attempt_puzzle a) (attempt_player a) (attempt_number a)
    n (hint_used a) (solved a) (rating a) (created_at a) (completed_at a).

Definition set_hint_used (a : PuzzleAttempt) (b : bool) : PuzzleAttempt :=
  mkPuzzleAttempt (attempt_pk a) (attempt_puzzle a) (attempt_player a) (attempt_number a)
    (tries_count a) b (solved a) (rating a) (created_at a) (completed_at a).

Definition set_solved (a : PuzzleAttempt) (b : bool) : PuzzleAttempt :=
  mkPuzzleAttempt (attempt_pk a) (attempt_puzzle a) (attempt_player a) (attempt_number a)
    (tries_count a) (hint_used a) b (rating a) (created_at a) (completed_at a).

Definition set_completed_at (a : PuzzleAttempt) (t : option datetime) : PuzzleAttempt :=
  mkPuzzleAttempt (attempt_pk a) (attempt_puzzle a) (attempt_player a) (attempt_number a)
    (tries_count a) (hint_used a) (solved a) (rating a) (created_at a) t.

End models.

Export models.

(** ** The tables of the database, as the views query them *)

Module orm.

(** The rows of a table are listed in the order in which a query without
    [order_by] scans them. *)
Record Database : Type := mkDatabase {
  Player_objects : list string;                  (* primary key: username *)
  Puzzle_objects : list Puzzle;
  PuzzleAttempt_objects : list PuzzleAttempt;
  FSRSMemory_objects : list FSRSMemory;
  UserDailyProgress_objects : list UserDailyProgress
}.

Definition set_PuzzleAttempt_objects (db : Database) (t : list PuzzleAttempt) : Database :=
  mkDatabase (Player_objects db) (Puzzle_objects db) t
    (FSRSMemory_objects db) (UserDailyProgress_objects db).

Definition set_FSRSMemory_objects (db : Database) (t : list FSRSMemory) : Database :=
  mkDatabase (Player_objects db) (Puzzle_objects db) (PuzzleAttempt_objects db)
    t (UserDailyProgress_objects db).

Definition set_UserDailyProgress_objects (db : Database) (t : list UserDailyProgress) : Database :=
  mkDatabase (Player_objects db) (Puzzle_objects db) (PuzzleAttempt_objects db)
    (FSRSMemory_objects db) t.

(** [row.save()]: the row that [same] identifies is replaced, a row that
    is not in the table yet is added at its end. *)
Fixpoint save {A : Type} (same : A -> bool) (row : A) (table : list A) : list A :=
  match table with
  | [] => [row]
  | r :: table' => if same r then row :: table' else r :: save same row table'
  end.

(** [Player.objects.get(username=...)] *)
Definition get_player (db : Database) (username : string) : option string :=
  find (String.eqb username) (Player_objects db).

(** [Puzzle.objects.get(id=...)] *)
Definition get_puzzle (db : Database) (id : string) : option Puzzle :=
  find (fun p => String.eqb (puzzle_pk p) id) (Puzzle_objects db).

(** [PuzzleAttempt.objects.filter(puzzle=..., player=...)
      .aggregate(models.Max('attempt_number'))['attempt_number__max']] *)
Definition max_attempt_number (db : Database) (puzzle player : string) : option Z :=
  fold_left
    (fun acc a =>
       if String.eqb (attempt_puzzle a) puzzle && String.eqb (attempt_player a) player
       then match acc with
            | None => Some (attempt_number a)
            | Some n => Some (Z.max n (attempt_number a))
            end
       else acc)
    (PuzzleAttempt_objects db) None.

(** [UserDailyProgress.objects.get_or_create(player=..., date=...)] *)
Definition same_progress (player : string) (day : Z) (p : UserDailyProgress) : bool :=
  String.eqb (progress_player p) player && Z.eqb (date p) day.

Definition get_or_create_progress (db : Database) (player : string) (day : Z)
    : UserDailyProgress * Database :=
  match find (same_progress player day) (UserDailyProgress_objects db) with
  | Some p => (p, db)
  | None =>
      let p := mkUserDailyProgress player day 0 0 in
      (p, set_UserDailyProgress_objects db (UserDailyProgress_objects db ++ [p]))
  end.

Definition save_progress (db : Database) (p : UserDailyProgress) : Database :=
  set_UserDailyProgress_objects db
    (save (same_progress (progress_player p) (date p)) p (UserDailyProgress_objects db)).

Definition save_memory (db : Database) (m : FSRSMemory) : Database :=
  set_FSRSMemory_objects db
    (save (fun r => String.eqb (memory_pk r) (memory_pk m)) m (FSRSMemory_objects db)).

(** [timezone.now().date()]: the day the instant falls in. *)
Definition date_of (now : datetime) : Z := Int_part (now / 86400).

(** [x <= y] on floats and datetimes, as a condition. *)
Definition Rleb (x y : R) : bool := if Rle_dec x y then true else false.

(** Sorting by a float key, ascending and stable: [list.sort(key=...)]
    and [order_by]. *)
Fixpoint insert_by {A : Type} (key : A -> R) (x : A) (l : list A) : list A :=
  match l with
  | [] => [x]
  | y :: l' => if Rleb (key x) (key y) then x :: l else y :: insert_by key x l'
  end.

Definition sort_by {A : Type} (key : A -> R) (l : list A) : list A :=
  fold_right (insert_by key) [] l.

(** [l[:n]] *)
Definition slice_to {A : Type} (l : list A) (n : Z) : list A :=
  if (0 <=? n)%Z then firstn (Z.to_nat n) l
  else firstn (Z.to_nat (Z.of_nat (List.length l) + n)) l.

(** [len(l)] *)
Definition len {A : Type} (l : list A) : Z := Z.of_nat (List.length l).

(** [PuzzleAttempt.objects.get(id=...)] *)
Definition get_attempt (db : Database) (id : string) : option PuzzleAttempt :=
  find (fun a => String.eqb (attempt_pk a) id) (PuzzleAttempt_objects db).

(** [UserDailyProgress.objects.filter(player=..., date=...).delete()] *)
Definition delete_progress (db : Database) (player : string) (day : Z) : Database :=
  set_UserDailyProgress_objects db
    (filter (fun p => negb (same_progress player day p)) (UserDailyProgress_objects db)).

End orm.

Export orm.

(** ** [chess_client/views.py] *)

Module views.

(** A [Response]: its status and its data, or the error it reports. *)
Inductive ErrorBody : Type :=
| Message (text : string)
| ServerError (e : exn)       (* "Server error: ..." *)
| DatabaseError (e : exn).    (* "Database error: ..." *)

Inductive Response (B : Type) : Type :=
| Data (status : Z) (data : B)
| Error (status : Z) (error : ErrorBody).
Arguments Data {B} status data.
Arguments Error {B} status error.

Definition status_code {B : Type} (r : Response B) : Z :=
  match r with
  | Data status _ => status
  | Error status _ => status
  end.

Definition HTTP_200_OK : Z := 200.
Definition HTTP_201_CREATED : Z := 201.
Definition HTTP_400_BAD_REQUEST : Z := 400.
Definition HTTP_404_NOT_FOUND : Z := 404.
Definition HTTP_500_INTERNAL_SERVER_ERROR : Z := 500.

(** *** [FSRSMemoryService] *)

Module FSRSMemoryService.

Record PerformanceAdjustment : Type := mkPerformanceAdjustment {
  tries_penalty : R;
  hint_penalty : R
}.

Record Params : Type := mkParams {
  initial_stability : dict R;
  stability_multiplier : dict R;
  difficulty_adjustment : dict R;
  desired_retention : R;
  performance_adjustment : PerformanceAdjustment
}.

Definition FSRS_PARAMS : Params :=
  {| initial_stability := [(1%Z, 0.5%R); (2%Z, 1.2%R); (3%Z, 3.0%R); (4%Z, 7.0%R)];
     stability_multiplier := [(1%Z, 0.2%R); (2%Z, 1.1%R); (3%Z, 1.5%R); (4%Z, 2.0%R)];
     difficulty_adjustment :=
       [(1%Z, 0.1%R); (2%Z, 0.05%R); (3%Z, (-0.05)%R); (4%Z, (-0.1)%R)];
     desired_retention := 0.9%R;
     performance_adjustment :=
       {| tries_penalty := 0.1%R; hint_penalty := 0.2%R |} |}.

(** [FSRSMemoryService.calculate_retrievability] *)
Definition calculate_retrievability (stability elapsed_days : R) : result R :=
  q <- truediv (- elapsed_days) stability ;;
  Ok (math_exp q).

(** [FSRSMemoryService.calculate_next_interval] *)
Definition calculate_next_interval (stability desired_retention : R) : result R :=
  l <- math_log desired_retention ;;
  Ok (- stability * l)%R.

(** [FSRSMemoryService.update_memory]; the result is the record that
    [memory.save()] stores, whose [next_review_date] the method returns. *)
Definition update_memory (now : datetime) (memory : FSRSMemory)
    (rating : Z) (solved : bool) (tries_count : Z) (hint_used : bool)
    : result FSRSMemory :=
  let params := FSRS_PARAMS in
  '(elapsed_days, memory) <-
    match last_review_date memory with
    | Some last =>
        let elapsed_days := (total_seconds (now - last) / (24 * 3600))%R in
        _retrievability <- calculate_retrievability (stability memory) elapsed_days ;;
        Ok (elapsed_days, memory)
    | None =>
        Ok (0%R, set_stability memory (get (initial_stability params) rating 1.0%R))
    end ;;
  let memory := set_difficulty memory
                  (difficulty memory + get (difficulty_adjustment params) rating 0)%R in
  let memory := if (tries_count >? 0)%Z
                then set_difficulty memory
                       (difficulty memory
                        + tries_penalty (performance_adjustment params)
                          * IZR (Z.min tries_count 3))%R
                else memory in
  let memory := if hint_used
                then set_difficulty memory
                       (difficulty memory
                        + hint_penalty (performance_adjustment params))%R
                else memory in
  let memory := set_difficulty memory (Rmax 1.0 (Rmin 3.0 (difficulty memory))) in
  memory <-
    match last_review_date memory with
    | Some _ =>
        if (rating =? 1)%Z then
          m <- getitem (stability_multiplier params) 1 ;;
          Ok (set_stability memory (stability memory * m)%R)
        else
          let stability_multiplier := get (stability_multiplier params) rating 1.5%R in
          q <- truediv elapsed_days (Rmax (stability memory) 0.1) ;;
          r <- math_sqrt q ;;
          let spacing_multiplier := Rmin 2.0 r in
          Ok (set_stability memory
                (stability memory * (stability_multiplier * spacing_multiplier))%R)
    | None => Ok memory
    end ;;
  next_interval <- calculate_next_interval (stability memory) (desired_retention params) ;;
  let memory := set_next_review_date memory
                  (Some (now + timedelta_days next_interval)%R) in
  let memory := set_last_review_date memory (Some now) in
  let memory := set_updated_at memory now in
  Ok memory.

End FSRSMemoryService.

(** *** [FSRSDuePuzzlesView] *)

Record DuePuzzle : Type := mkDuePuzzle {
  due_memory_id : string;
  due_puzzle_id : string;
  retrievability : R;
  due_difficulty : R;
  due_stability : R;
  due_last_review_date : option datetime;
  due_puzzle_rating : Z                        (* puzzle_details.rating *)
}.

Record DuePuzzlesBody : Type := mkDuePuzzlesBody {
  due_puzzles_count : Z;
  due_puzzles : list DuePuzzle
}.

(** [memory.next_review_date and memory.next_review_date <= now] *)
Definition is_due (now : datetime) (memory : FSRSMemory) : bool :=
  match next_review_date memory with
  | Some t => Rleb t now
  | None => false
  end.

(** The body of the [for memory in memories] loop of
    [FSRSDuePuzzlesView.get]. *)
Fixpoint collect_due (db : Database) (now : datetime) (memories : list FSRSMemory)
    : result (list DuePuzzle) :=
  match memories with
  | [] => Ok []
  | memory :: memories' =>
      if is_due now memory then
        retrievability <- models.calculate_retrievability now memory ;;
        puzzle <- match get_puzzle db (puzzle_id memory) with
                  | Some p => Ok p
                  | None => Raise DoesNotExist
                  end ;;
        rest <- collect_due db now memories' ;;
        Ok (mkDuePuzzle (memory_pk memory) (puzzle_pk puzzle) retrievability
              (difficulty memory) (stability memory) (last_review_date memory)
              (puzzle_rating puzzle) :: rest)
      else collect_due db now memories'
  end.

(** [FSRSDuePuzzlesView.get] *)
Definition FSRSDuePuzzlesView_get (db : Database) (now : datetime) (username : string)
    : Response DuePuzzlesBody :=
  match get_player db username with
  | None => Error HTTP_404_NOT_FOUND (Message ("Player '" ++ username ++ "' not found"))
  | Some _ =>
      let memories :=
        filter (fun m => String.eqb (player_username m) username) (FSRSMemory_objects db) in
      match collect_due db now memories with
      | Raise e => Error HTTP_500_INTERNAL_SERVER_ERROR (DatabaseError e)
      | Ok due_puzzles =>
          let due_puzzles := sort_by retrievability due_puzzles in
          Data HTTP_200_OK (mkDuePuzzlesBody (len due_puzzles) due_puzzles)
      end
  end.

(** *** [FSRSPuzzleAttemptView] *)

(** The data of a request, after the conversions of the first lines of
    [post]: [int(...)] of [tries_count], the membership tests of
    [hint_used] and [solved], and [int(rating)] of a rating sent as a
    string of digits.  [None] is a key the request does not have. *)
Record AttemptRequest : Type := mkAttemptRequest {
  req_puzzle_id : option string;
  req_player_username : option string;
  req_tries_count : Z;
  req_hint_used : bool;
  req_solved : bool;
  req_rating : option Z
}.

Record DailyProgressBody : Type := mkDailyProgressBody {
  body_new_puzzles_seen : Z;
  body_reviews_done : Z;
  body_total_done : Z
}.

(** The data of the 201 response; [fsrs_status] is given by the memory
    record, whose difficulty and stability the response rounds to two
    decimals. *)
Record AttemptBody : Type := mkAttemptBody {
  body_attempt_id : string;
  body_puzzle_id : string;
  body_rating : Z;
  fsrs_status : FSRSMemory;
  body_retrievability : R;
  body_next_review_date : option datetime;
  daily_progress : DailyProgressBody
}.

(** [not s], for a string that may be absent. *)
Definition is_empty (s : option string) : bool :=
  match s with
  | None => true
  | Some s => String.eqb s ""
  end.

Section Host.

(** Whether the database enforces the non-negativity check of the
    [PositiveIntegerField] columns: the tables are not created by the
    code under study. *)
Variable enforces_positive : bool.

(** The order [order_by('?')] puts a query result in. *)
Variable random_order : list Puzzle -> list Puzzle.

(** [attempt.save()] of a new attempt. *)
Definition save_attempt (db : Database) (attempt : PuzzleAttempt) : result Database :=
  if enforces_positive
     && ((attempt_number attempt <? 0)%Z || (models.tries_count attempt <? 0)%Z)
  then Raise IntegrityError
  else Ok (set_PuzzleAttempt_objects db (PuzzleAttempt_objects db ++ [attempt])).

(** [FSRSPuzzleAttemptView.post].  [attempt_uuid] and [memory_uuid] are
    the values of the two calls of [uuid.uuid4()].  The handler of an
    error of the algorithm uses [traceback], a local name of [post] that
    is bound only by the [import] statements of the other two handlers:
    it raises [UnboundLocalError], which the outermost handler reports.
    Every exception is caught inside [post], so [transaction.atomic] never
    sees one and what was saved before the exception stays saved.  At most
    one memory matches a puzzle and a player ([unique_together]). *)
Definition FSRSPuzzleAttemptView_post (db : Database) (now : datetime)
    (attempt_uuid memory_uuid : string) (request : AttemptRequest)
    : Response AttemptBody * Database :=
  let tries_count := req_tries_count request in
  let hint_used := req_hint_used request in
  let solved := req_solved request in
  let rating := req_rating request in
  if is_empty (req_puzzle_id request) || is_empty (req_player_username request)
  then (Error HTTP_400_BAD_REQUEST
          (Message "puzzle_id and player_username are required"), db)
  else
  match req_puzzle_id request, req_player_username request with
  | Some puzzle_id, Some player_username =>
  match get_puzzle db puzzle_id, get_player db player_username with
  | Some puzzle, Some player =>
      let next_attempt :=
        match max_attempt_number db (puzzle_pk puzzle) player with
        | Some n => (n + 1)%Z
        | None => 1%Z
        end in
      let attempt :=
        mkPuzzleAttempt attempt_uuid (puzzle_pk puzzle) player next_attempt
          tries_count hint_used solved None now None in
      let rating :=
        match rating with
        | None => determine_rating attempt
        | Some r => r
        end in
      let attempt :=
        mkPuzzleAttempt attempt_uuid (puzzle_pk puzzle) player next_attempt
          tries_count hint_used solved (Some rating) now
          (if solved then Some now else None) in
      match save_attempt db attempt with
      | Raise e => (Error HTTP_500_INTERNAL_SERVER_ERROR (ServerError e), db)
      | Ok db =>
          let today := date_of now in
          let '(progress, db) := get_or_create_progress db player today in
          let is_first_attempt := (next_attempt =? 1)%Z in
          let progress :=
            if is_first_attempt
            then mkUserDailyProgress (progress_player progress) (date progress)
                   (new_puzzles_seen progress + 1) (reviews_done progress)
            else mkUserDailyProgress (progress_player progress) (date progress)
                   (new_puzzles_seen progress) (reviews_done progress + 1) in
          let db := save_progress db progress in
          let '(memory, db) :=
            match find (fun m => String.eqb (models.puzzle_id m) (puzzle_pk puzzle)
                                 && String.eqb (models.player_username m) player)
                       (FSRSMemory_objects db) with
            | Some memory => (memory, db)
            | None =>
                let memory :=
                  mkFSRSMemory memory_uuid player (puzzle_pk puzzle)
                    2.0%R 0.5%R None None now now in
                (memory, save_memory db memory)
            end in
          match FSRSMemoryService.update_memory
                  now memory rating solved tries_count hint_used with
          | Raise _ =>
              (Error HTTP_500_INTERNAL_SERVER_ERROR (ServerError UnboundLocalError), db)
          | Ok memory =>
              let db := save_memory db memory in
              let next_review_date := models.next_review_date memory in
              match models.calculate_retrievability now memory with
              | Raise _ =>
                  (Error HTTP_500_INTERNAL_SERVER_ERROR
                     (ServerError UnboundLocalError), db)
              | Ok retrievability =>
                  (Data HTTP_201_CREATED
                     {| body_attempt_id := attempt_pk attempt;
                        body_puzzle_id := puzzle_id;
                        body_rating := rating;
                        fsrs_status := memory;
                        body_retrievability := retrievability;
                        body_next_review_date := next_review_date;
                        daily_progress :=
                          {| body_new_puzzles_seen := new_puzzles_seen progress;
                             body_reviews_done := reviews_done progress;
                             body_total_done :=
                               (new_puzzles_seen progress + reviews_done progress)%Z |}
                     |}, db)
              end
          end
      end
  | _, _ =>
      (Error HTTP_404_NOT_FOUND (Message "Invalid puzzle_id or player_username"), db)
  end
  | _, _ =>
      (Error HTTP_400_BAD_REQUEST
         (Message "puzzle_id and player_username are required"), db)
  end.

(** *** [DailyPuzzlesView] *)

(** The query parameters, each after [int(...)]; [None] is a parameter
    the request does not have. *)
Record DailyQuery : Type := mkDailyQuery {
  q_new_limit : option Z;
  q_total_limit : option Z;
  q_per_page : option Z
}.

(** [query_params.get(name, default)] *)
Definition param (v : option Z) (default : Z) : Z :=
  match v with
  | Some n => n
  | None => default
  end.

Record PuzzleData : Type := mkPuzzleData {
  data_id : string;
  data_rating : Z;
  is_new : bool
}.

Record DailyBody : Type := mkDailyBody {
  message : option string;
  progress_new_puzzles_seen : Z;
  progress_reviews_done : Z;
  progress_total_done : Z;
  progress_remaining : option (Z * Z * Z);   (* new, reviews, total *)
  progress_new_limit : Z;
  progress_total_limit : Z;
  puzzles_count : option Z;
  puzzles : list PuzzleData
}.

(** [FSRSMemory.objects.filter(player_username=username,
      next_review_date__lte=now).order_by('next_review_date')] *)
Definition due_memories (db : Database) (now : datetime) (username : string)
    : list FSRSMemory :=
  sort_by (fun m => match next_review_date m with Some t => t | None => 0%R end)
    (filter (fun m => String.eqb (player_username m) username && is_due now m)
       (FSRSMemory_objects db)).

(** [list(Puzzle.objects.filter(id__in=due_puzzle_ids))] *)
Definition due_puzzles_of (db : Database) (now : datetime) (username : string)
    : list Puzzle :=
  let due_puzzle_ids := map puzzle_id (due_memories db now username) in
  filter (fun p => existsb (String.eqb (puzzle_pk p)) due_puzzle_ids) (Puzzle_objects db).

(** [list(new_puzzles_query[:new_remaining])] *)
Definition new_puzzles_of (db : Database) (username : string) (new_remaining : Z)
    : list Puzzle :=
  let attempted_puzzle_ids :=
    nodup string_dec
      (map attempt_puzzle
         (filter (fun a => String.eqb (attempt_player a) username)
            (PuzzleAttempt_objects db))) in
  let new_puzzles_query :=
    random_order
      (filter (fun p => String.eqb (puzzle_player_username p) username
                        && negb (existsb (String.eqb (puzzle_pk p)) attempted_puzzle_ids))
         (Puzzle_objects db)) in
  slice_to new_puzzles_query new_remaining.

(** Step 3 of [DailyPuzzlesView.get]: the reviews that are used, and the
    new puzzles that are used; [combined_puzzles] is the first list
    followed by the second. *)
Definition reviews_to_use (due_puzzles : list Puzzle) (total_remaining : Z) : Z :=
  Z.min (len due_puzzles) total_remaining.

Definition combined_reviews (due_puzzles : list Puzzle) (total_remaining : Z)
    : list Puzzle :=
  slice_to due_puzzles (reviews_to_use due_puzzles total_remaining).

Definition combined_new (due_puzzles new_puzzles : list Puzzle) (total_remaining : Z)
    : list Puzzle :=
  let new_to_use :=
    Z.min (len new_puzzles) (total_remaining - reviews_to_use due_puzzles total_remaining) in
  slice_to new_puzzles new_to_use.

Definition combined_puzzles (due_puzzles new_puzzles : list Puzzle) (total_remaining : Z)
    : list Puzzle :=
  combined_reviews due_puzzles total_remaining
  ++ combined_new due_puzzles new_puzzles total_remaining.

(** [DailyPuzzlesView.get] *)
Definition DailyPuzzlesView_get (db : Database) (now : datetime) (username : string)
    (query_params : DailyQuery) : Response DailyBody * Database :=
  match get_player db username with
  | None =>
      (Error HTTP_404_NOT_FOUND (Message ("Player '" ++ username ++ "' not found")), db)
  | Some player =>
      let today := date_of now in
      let '(progress, db) := get_or_create_progress db player today in
      let new_limit := param (q_new_limit query_params) 25 in
      let total_limit := param (q_total_limit query_params) 50 in
      let per_page := param (q_per_page query_params) 10 in
      let new_remaining := Z.max 0 (new_limit - new_puzzles_seen progress) in
      let total_remaining := Z.max 0 (total_limit - total_puzzles_done progress) in
      if (total_remaining <=? 0)%Z then
        (Data HTTP_200_OK
           {| message := Some "You've reached your daily puzzle limit!"%string;
              progress_new_puzzles_seen := new_puzzles_seen progress;
              progress_reviews_done := reviews_done progress;
              progress_total_done := total_puzzles_done progress;
              progress_remaining := None;
              progress_new_limit := new_limit;
              progress_total_limit := total_limit;
              puzzles_count := None;
              puzzles := [] |}, db)
      else
        let due_puzzles := due_puzzles_of db now username in
        let new_puzzles := new_puzzles_of db username new_remaining in
        let combined_puzzles := combined_puzzles due_puzzles new_puzzles total_remaining in
        let puzzles_data :=
          map (fun puzzle =>
                 let is_new :=
                   negb (existsb (fun p => String.eqb (puzzle_pk p) (puzzle_pk puzzle))
                           due_puzzles) in
                 mkPuzzleData (puzzle_pk puzzle) (puzzle_rating puzzle) is_new)
            combined_puzzles in
        (Data HTTP_200_OK
           {| message := None;
              progress_new_puzzles_seen := new_puzzles_seen progress;
              progress_reviews_done := reviews_done progress;
              progress_total_done := total_puzzles_done progress;
              progress_remaining :=
                Some (new_remaining, total_remaining - new_remaining, total_remaining)%Z;
              progress_new_limit := new_limit;
              progress_total_limit := total_limit;
              puzzles_count := Some (len puzzles_data);
              puzzles := slice_to puzzles_data per_page |}, db)
  end.

(** *** [PuzzleAttemptView] and [PuzzleAttemptActionView] *)

(** The data of an attempt in a response; the two dates stand for their
    [isoformat()] strings. *)
Record AttemptData : Type := mkAttemptData {
  data_attempt_id : string;
  data_puzzle_id : string;
  data_player_username : string;
  data_attempt_number : Z;
  data_tries_count : Z;
  data_hint_used : bool;
  data_solved : bool;
  data_created_at : datetime;
  data_completed_at : option datetime
}.

(** The dictionary of an attempt: [attempt.puzzle] and [attempt.player]
    fetch the rows the attempt refers to. *)
Definition attempt_data (db : Database) (attempt : PuzzleAttempt) : result AttemptData :=
  puzzle <- match get_puzzle db (attempt_puzzle attempt) with
            | Some p => Ok p
            | None => Raise DoesNotExist
            end ;;
  player <- match get_player db (attempt_player attempt) with
            | Some u => Ok u
            | None => Raise DoesNotExist
            end ;;
  Ok {| data_attempt_id := attempt_pk attempt;
        data_puzzle_id := puzzle_pk puzzle;
        data_player_username := player;
        data_attempt_number := attempt_number attempt;
        data_tries_count := models.tries_count attempt;
        data_hint_used := models.hint_used attempt;
        data_solved := models.solved attempt;
        data_created_at := created_at attempt;
        data_completed_at := completed_at attempt |}.

(** [attempt.save()] of an attempt that is in the table. *)
Definition update_attempt (db : Database) (attempt : PuzzleAttempt) : result Database :=
  if enforces_positive
     && ((attempt_number attempt <? 0)%Z || (models.tries_count attempt <? 0)%Z)
  then Raise IntegrityError
  else Ok (set_PuzzleAttempt_objects db
             (save (fun r => String.eqb (attempt_pk r) (attempt_pk attempt)) attempt
                (PuzzleAttempt_objects db))).

Record AttemptsQuery : Type := mkAttemptsQuery {
  q_player_username : option string;
  q_puzzle_id : option string
}.

Record AttemptsBody : Type := mkAttemptsBody {
  attempts : list AttemptData;
  count : Z
}.

(** The [for attempt in attempts] loop of [PuzzleAttemptView.get]. *)
Fixpoint format_attempts (db : Database) (attempts : list PuzzleAttempt)
    : result (list AttemptData) :=
  match attempts with
  | [] => Ok []
  | attempt :: attempts' =>
      d <- attempt_data db attempt ;;
      rest <- format_attempts db attempts' ;;
      Ok (d :: rest)
  end.

(** [PuzzleAttemptView.get] *)
Definition PuzzleAttemptView_get (db : Database) (query_params : AttemptsQuery)
    : Response AttemptsBody :=
  let player_username := q_player_username query_params in
  let puzzle_id := q_puzzle_id query_params in
  if is_empty player_username && is_empty puzzle_id
  then Error HTTP_400_BAD_REQUEST
         (Message "Either player_username or puzzle_id parameter is required")
  else
    let query := PuzzleAttempt_objects db in
    let query :=
      match player_username with
      | Some u => if String.eqb u "" then query
                  else filter (fun a => String.eqb (attempt_player a) u) query
      | None => query
      end in
    let query :=
      match puzzle_id with
      | Some p => if String.eqb p "" then query
                  else filter (fun a => String.eqb (attempt_puzzle a) p) query
      | None => query
      end in
    let attempts := sort_by (fun a => (- created_at a)%R) query in
    match format_attempts db attempts with
    | Raise e => Error HTTP_500_INTERNAL_SERVER_ERROR (DatabaseError e)
    | Ok results => Data HTTP_200_OK (mkAttemptsBody results (len results))
    end.

Record StartRequest : Type := mkStartRequest {
  start_puzzle_id : option string;
  start_player_username : option string
}.

Record StartedBody : Type := mkStartedBody {
  started_id : string;
  started_puzzle_id : string;
  started_player_username : string;
  started_attempt_number : Z;
  started_created_at : datetime
}.

(** [PuzzleAttemptView.post]; [attempt_uuid] is the value of [uuid.uuid4()]. *)
Definition PuzzleAttemptView_post (db : Database) (now : datetime) (attempt_uuid : string)
    (request : StartRequest) : Response StartedBody * Database :=
  if is_empty (start_puzzle_id request) || is_empty (start_player_username request)
  then (Error HTTP_400_BAD_REQUEST
          (Message "puzzle_id and player_username are required"), db)
  else
  match start_puzzle_id request, start_player_username request with
  | Some puzzle_id, Some player_username =>
  match get_puzzle db puzzle_id, get_player db player_username with
  | Some puzzle, Some player =>
      let next_attempt :=
        match max_attempt_number db puzzle_id player_username with
        | Some n => (n + 1)%Z
        | None => 1%Z
        end in
      let attempt :=
        mkPuzzleAttempt attempt_uuid (puzzle_pk puzzle) player next_attempt
          0 false false None now None in
      match save_attempt db attempt with
      | Raise e => (Error HTTP_500_INTERNAL_SERVER_ERROR (DatabaseError e), db)
      | Ok db =>
          (Data HTTP_201_CREATED
             {| started_id := attempt_pk attempt;
                started_puzzle_id := puzzle_id;
                started_player_username := player_username;
                started_attempt_number := next_attempt;
                started_created_at := created_at attempt |}, db)
      end
  | _, _ =>
      (Error HTTP_404_NOT_FOUND (Message "Invalid puzzle_id or player_username"), db)
  end
  | _, _ =>
      (Error HTTP_400_BAD_REQUEST
         (Message "puzzle_id and player_username are required"), db)
  end.

(** The keys of the data of a [put] request that the view reads; [None] is
    a key the request does not have. *)
Record PutData : Type := mkPutData {
  put_tries_count : option Z;
  put_hint_used : option bool;
  put_solved : option bool
}.

(** [PuzzleAttemptView.put] *)
Definition PuzzleAttemptView_put (db : Database) (now : datetime) (attempt_id : string)
    (data : PutData) : Response AttemptData * Database :=
  match get_attempt db attempt_id with
  | None =>
      (Error HTTP_404_NOT_FOUND
         (Message ("Attempt with ID " ++ attempt_id ++ " not found")), db)
  | Some attempt =>
      let attempt :=
        match put_tries_count data with
        | Some n => set_tries_count attempt n
        | None => attempt
        end in
      let attempt :=
        match put_hint_used data with
        | Some b => set_hint_used attempt b
        | None => attempt
        end in
      let attempt :=
        match put_solved data with
        | Some b =>
            let attempt := set_solved attempt b in
            if models.solved attempt
               && match completed_at attempt with Some _ => false | None => true end
            then set_completed_at attempt (Some now)
            else attempt
        | None => attempt
        end in
      match update_attempt db attempt with
      | Raise e => (Error HTTP_500_INTERNAL_SERVER_ERROR (DatabaseError e), db)
      | Ok db =>
          match attempt_data db attempt with
          | Raise e => (Error HTTP_500_INTERNAL_SERVER_ERROR (DatabaseError e), db)
          | Ok d => (Data HTTP_200_OK d, db)
          end
      end
  end.

Record ActionBody : Type := mkActionBody {
  action_attempt : AttemptData;
  action_performed : string
}.

(** [PuzzleAttemptActionView.post] *)
Definition PuzzleAttemptActionView_post (db : Database) (now : datetime)
    (attempt_id action : string) : Response ActionBody * Database :=
  if negb (existsb (String.eqb action) ["record_try"; "use_hint"; "mark_solved"]%string)
  then (Error HTTP_400_BAD_REQUEST (Message ("Invalid action: " ++ action)), db)
  else
  match get_attempt db attempt_id with
  | None =>
      (Error HTTP_404_NOT_FOUND
         (Message ("Attempt with ID " ++ attempt_id ++ " not found")), db)
  | Some attempt =>
      let attempt :=
        if String.eqb action "record_try"
        then set_tries_count attempt (models.tries_count attempt + 1)
        else if String.eqb action "use_hint"
        then set_hint_used attempt true
        else if String.eqb action "mark_solved"
        then set_completed_at (set_solved attempt true) (Some now)
        else attempt in
      match update_attempt db attempt with
      | Raise e => (Error HTTP_500_INTERNAL_SERVER_ERROR (DatabaseError e), db)
      | Ok db =>
          match attempt_data db attempt with
          | Raise e => (Error HTTP_500_INTERNAL_SERVER_ERROR (DatabaseError e), db)
          | Ok d => (Data HTTP_200_OK (mkActionBody d action), db)
          end
      end
  end.

(** *** [ResetDailyProgressView] *)

Record ResetBody : Type := mkResetBody {
  success : bool;
  reset_message : string
}.

(** [ResetDailyProgressView.post] *)
Definition ResetDailyProgressView_post (db : Database) (now : datetime) (username : string)
    : Response ResetBody * Database :=
  match get_player db username with
  | None =>
      (Error HTTP_404_NOT_FOUND (Message ("Player '" ++ username ++ "' not found")), db)
  | Some player =>
      let today := date_of now in
      let db := delete_progress db player today in
      (Data HTTP_200_OK
         {| success := true;
            reset_message := "Daily progress for " ++ username ++ " has been reset" |}, db)
  end.

End Host.

End views.

Export views.

(** ** [chess_client/management/commands]: the Elo thresholds *)

Module commands.

(** A [dict] of ratings by game type, as [items()] lists it. *)
Definition ratings : Type := list (string * Z).

Fixpoint rating_lookup (d : ratings) (k : string) : option Z :=
  match d with
  | [] => None
  | (k', v) :: d' => if String.eqb k' k then Some v else rating_lookup d' k
  end.

(** [d.get(k, default)] *)
Definition rating_get (d : ratings) (k : string) (default : Z) : Z :=
  match rating_lookup d k with
  | Some v => v
  | None => default
  end.

(** [a // b] on integers. *)
Definition floordiv (a b : Z) : result Z :=
  if (b =? 0)%Z then Raise ZeroDivisionError else Ok (a / b)%Z.

(** *** [notify_elo_thresholds.py] *)

Module notify_elo_thresholds.

(** [Command.have_ratings_changed] *)
Definition have_ratings_changed (last_ratings current_ratings : ratings) : bool :=
  match last_ratings with
  | [] => true
  | _ =>
      existsb
        (fun item =>
           let '(game_type, current_rating) := item in
           let last_rating := rating_get last_ratings game_type 0 in
           negb (last_rating =? current_rating)%Z)
        current_ratings
  end.

Record Crossing : Type := mkCrossing {
  game_type : string;
  last_rating : Z;
  current_rating : Z;
  last_threshold : Z;
  current_threshold : Z;
  direction : string
}.

(** [Command.check_thresholds]: the loop over [current_ratings.items()]. *)
Fixpoint check_thresholds (last_ratings current_ratings : ratings) (threshold : Z)
    : result (list Crossing) :=
  match current_ratings with
  | [] => Ok []
  | (game_type, current_rating) :: items =>
      if (current_rating =? 0)%Z then check_thresholds last_ratings items threshold
      else
        let last_rating := rating_get last_ratings game_type 0 in
        if (last_rating =? 0)%Z then check_thresholds last_ratings items threshold
        else
          q <- floordiv last_rating threshold ;;
          let last_threshold := (q * threshold)%Z in
          q <- floordiv current_rating threshold ;;
          let current_threshold := (q * threshold)%Z in
          thresholds_crossed <- check_thresholds last_ratings items threshold ;;
          if negb (last_threshold =? current_threshold)%Z then
            let direction :=
              if (current_threshold >? last_threshold)%Z then "increased"%string
              else "decreased"%string in
            Ok (mkCrossing game_type last_rating current_rating
                  last_threshold current_threshold direction :: thresholds_crossed)
          else Ok thresholds_crossed
  end.

End notify_elo_thresholds.

(** *** [check_missed_thresholds.py] *)

Module check_missed_thresholds.

Record Crossing : Type := mkCrossing {
  game_type : string;
  start_rating : Z;
  end_rating : Z;
  old_threshold : Z;
  new_threshold : Z;
  direction : string
}.

(** [Command.check_historical_thresholds]: the loop over
    [current_ratings.items()]. *)
Fixpoint check_historical_thresholds (historical_ratings current_ratings : ratings)
    (threshold : Z) : result (list Crossing) :=
  match current_ratings with
  | [] => Ok []
  | (game_type, current_rating) :: items =>
      match rating_lookup historical_ratings game_type with
      | None => check_historical_thresholds historical_ratings items threshold
      | Some historical_rating =>
          if (historical_rating =? 0)%Z || (current_rating =? 0)%Z
             || (historical_rating =? current_rating)%Z
          then check_historical_thresholds historical_ratings items threshold
          else
            q <- floordiv historical_rating threshold ;;
            let historical_threshold := (q * threshold)%Z in
            q <- floordiv current_rating threshold ;;
            let current_threshold := (q * threshold)%Z in
            thresholds_crossed <-
              check_historical_thresholds historical_ratings items threshold ;;
            if negb (historical_threshold =? current_threshold)%Z then
              let direction :=
                if (current_rating >? historical_rating)%Z then "increased"%string
                else "decreased"%string in
              Ok (mkCrossing game_type historical_rating current_rating
                    historical_threshold current_threshold direction
                  :: thresholds_crossed)
            else Ok thresholds_crossed
      end
  end.

End check_missed_thresholds.

End commands.

(** ** The arithmetic of the update in binary64

    The lines of [update_memory] that compute the difficulty and the
    stability of a later review, on the floats of Python: the same
    operations in the same order, with IEEE 754 rounding.  They serve to
    run the inputs that the properties below single out. *)

Module binary64.

Import Floats.
Set Warnings "-inexact-float".

(** [min(a, b)] and [max(a, b)] of two floats. *)
Definition min (a b : float) : float := if PrimFloat.ltb b a then b else a.
Definition max (a b : float) : float := if PrimFloat.ltb a b then b else a.

(** [float(n)] of a small integer. *)
Definition of_int (n : Z) : float := PrimFloat.of_uint63 (Uint63.of_Z n).

(** "Update difficulty" to "Clamp difficulty": the lines between the two
    comments, with [adjustment] the value of
    [params['difficulty_adjustment'].get(rating, 0)]. *)
Definition update_difficulty (difficulty adjustment : float) (tries_count : Z)
    (hint_used : bool) : float :=
  let difficulty := (difficulty + adjustment)%float in
  let difficulty := if (tries_count >? 0)%Z
                    then (difficulty + 0.1 * of_int (Z.min tries_count 3))%float
                    else difficulty in
  let difficulty := if hint_used then (difficulty + 0.2)%float else difficulty in
  max 1.0%float (min 3.0%float difficulty).

(** "Calculate stability increase with spacing effect": the branch of a
    later review with a rating other than 1. *)
Definition update_stability (stability stability_multiplier elapsed_days : float) : float :=
  let spacing_multiplier :=
    min 2.0%float (PrimFloat.sqrt (elapsed_days / max stability 0.1%float))%float in
  (stability * (stability_multiplier * spacing_multiplier))%float.

(** [calculate_next_interval] and [calculate_retrievability] on floats, for
    a divisor other than zero.  [math.log] and [math.exp] are functions of
    the C library of the platform: the two formulas take them as arguments. *)
Definition calculate_next_interval (log : float -> float)
    (stability desired_retention : float) : float :=
  (- stability * log desired_retention)%float.

Definition calculate_retrievability (exp : float -> float)
    (stability elapsed_days : float) : float :=
  exp (- elapsed_days / stability)%float.

Set Warnings "+inexact-float".

End binary64.

(** ** The interval and the retrievability over an arithmetic that rounds

    The two formulas of [FSRSMemoryService] with the product, the quotient,
    [math.log] and [math.exp] of the floats as arguments: functions on the
    values, which need not be the exact ones.  The operations raise as in
    Python. *)

Module rounded.

Section Arithmetic.

Variables (fl_mul fl_div : R -> R -> R) (fl_log fl_exp : R -> R).

Definition calculate_retrievability (stability elapsed_days : R) : result R :=
  if Req_dec_T stability 0 then Raise ZeroDivisionError
  else Ok (fl_exp (fl_div (- elapsed_days) stability)).

Definition calculate_next_interval (stability desired_retention : R) : result R :=
  if Rle_dec desired_retention 0 then Raise ValueError
  else Ok (fl_mul (- stability) (fl_log desired_retention)).

End Arithmetic.

(** [approx] is [exact] up to the relative error [u]: what IEEE 754 gives
    for a product or a quotient that neither underflows nor overflows, with
    [u] half the distance of 1 to the next float. *)
Definition within (u exact approx : R) : Prop :=
  (Rabs (approx - exact) <= u * Rabs exact)%R.

End rounded.

(** ** Derived quantities *)

Local Open Scope R_scope.

(** The difficulty that [update_memory] stores: the rating's adjustment, the
    penalty of the tries, the penalty of the hint, then the clamp. *)
Definition clamped_difficulty (d : R) (rating tries_count : Z) (hint_used : bool) : R :=
  let d := d + get (FSRSMemoryService.difficulty_adjustment FSRSMemoryService.FSRS_PARAMS)
                 rating 0 in
  let d := if (tries_count >? 0)%Z then d + 0.1 * IZR (Z.min tries_count 3) else d in
  let d := if hint_used then d + 0.2 else d in
  Rmax 1.0 (Rmin 3.0 d).

(** The record that the attempt view creates for a pair of a player and a
    puzzle that has no memory yet. *)
Definition default_memory (pk player puzzle : string) (created : datetime) : FSRSMemory :=
  mkFSRSMemory pk player puzzle 2.0 0.5 None None created created.

(** A memory after one review with rating 3 at the instant 0, as
    [update_memory] leaves the record of [default_memory]. *)
Definition reviewed_memory : FSRSMemory :=
  mkFSRSMemory "m1" "alice" "p1" 1.95 3.0
    (Some 0) (Some (0 + timedelta_days (- 3.0 * ln 0.9))) 0 0.

(** A list whose keys are in ascending order. *)
Inductive ascending {A : Type} (key : A -> R) : list A -> Prop :=
| ascending_nil : ascending key []
| ascending_cons (x : A) (l : list A) :
    Forall (fun y => key x <= key y) l -> ascending key l -> ascending key (x :: l).

(** ** Example data *)

(** A player with two puzzles, both reviewed before and both due at the
    instant [day 1].  The first has the stability 1.0, was reviewed one day
    ago and is due since [day 0.25]; the second has the stability 0.25, was
    reviewed half a day ago and is due since [day 0.75].  So the first one is
    first by the date of the next review and first in the table, and the
    second one has the lower retrievability. *)
Definition day (n : R) : datetime := n * 86400.

Definition puzzle1 : Puzzle := mkPuzzle "p1" "alice" 1200.
Definition puzzle2 : Puzzle := mkPuzzle "p2" "alice" 1300.

Definition attempt1 : PuzzleAttempt :=
  mkPuzzleAttempt "a1" "p1" "alice" 1 0 false true (Some 3%Z) (day 0) (Some (day 0)).
Definition attempt2 : PuzzleAttempt :=
  mkPuzzleAttempt "a2" "p2" "alice" 1 0 false true (Some 1%Z) (day 0.5) (Some (day 0.5)).

Definition memory1 : FSRSMemory :=
  mkFSRSMemory "m1" "alice" "p1" 2.0 1.0 (Some (day 0)) (Some (day 0.25)) (day 0) (day 0).
Definition memory2 : FSRSMemory :=
  mkFSRSMemory "m2" "alice" "p2" 2.1 0.25 (Some (day 0.5)) (Some (day 0.75))
    (day 0.5) (day 0.5).

Definition due_db : Database :=
  mkDatabase ["alice"%string] [puzzle1; puzzle2] [attempt1; attempt2] [memory1; memory2] [].

(** The same player and puzzles before any attempt. *)
Definition fresh_db : Database :=
  mkDatabase ["alice"%string] [puzzle1; puzzle2] [] [] [].

(** The same player with the 50 puzzles of the default limit done on the day
    of the instant 0. *)
Definition exhausted_db : Database :=
  mkDatabase ["alice"%string] [puzzle1; puzzle2] [attempt1; attempt2] [memory1; memory2]
    [mkUserDailyProgress "alice" 0 25 25].

(** A submission with a rating that is none of 1, 2, 3, 4. *)
Definition request_rating_7 : AttemptRequest :=
  mkAttemptRequest (Some "p1"%string) (Some "alice"%string) 0 false true (Some 7%Z).

(** * Properties *)

(** ** The primitives *)

Lemma truediv_ok (x y : R) : y <> 0 -> truediv x y = Ok (x / y).
Proof.
  intros Hy. unfold truediv. destruct (Req_dec_T y 0) as [E | _]; [contradiction | reflexivity].
Qed.

Lemma truediv_zero (x : R) : truediv x 0 = Raise ZeroDivisionError.
Proof.
  unfold truediv. destruct (Req_dec_T 0 0) as [_ | N]; [reflexivity | now elim N].
Qed.

Lemma math_sqrt_ok (x : R) : 0 <= x -> math_sqrt x = Ok (sqrt x).
Proof.
  intros Hx. unfold math_sqrt. destruct (Rlt_dec x 0) as [L | _]; [lra | reflexivity].
Qed.

Lemma math_sqrt_negative (x : R) : x < 0 -> math_sqrt x = Raise ValueError.
Proof.
  intros Hx. unfold math_sqrt. destruct (Rlt_dec x 0) as [_ | N]; [reflexivity | lra].
Qed.

Lemma math_log_ok (x : R) : 0 < x -> math_log x = Ok (ln x).
Proof.
  intros Hx. unfold math_log. destruct (Rle_dec x 0) as [L | _]; [lra | reflexivity].
Qed.

Lemma Rleb_true (x y : R) : x <= y -> Rleb x y = true.
Proof.
  intros H. unfold Rleb. destruct (Rle_dec x y); [reflexivity | contradiction].
Qed.

Lemma Rleb_false (x y : R) : y < x -> Rleb x y = false.
Proof.
  intros H. unfold Rleb. destruct (Rle_dec x y); [lra | reflexivity].
Qed.

Lemma ln_retention_negative : ln 0.9 < 0.
Proof.
  rewrite <- ln_1. apply ln_increasing; lra.
Qed.

(** The clamp of the difficulty stays in [1, 3]. *)
Lemma clamp_bounds (d : R) : 1 <= Rmax 1.0 (Rmin 3.0 d) <= 3.
Proof.
  unfold Rmax, Rmin.
  destruct (Rle_dec 3.0 d); destruct (Rle_dec 1.0 _); lra.
Qed.

Lemma clamp_inside (d : R) : 1 <= d <= 3 -> Rmax 1.0 (Rmin 3.0 d) = d.
Proof.
  intros H. unfold Rmax, Rmin.
  destruct (Rle_dec 3.0 d); destruct (Rle_dec 1.0 _); lra.
Qed.

(** ** Quality derivation *)

(** C6: [determine_rating] is total and follows the priority order of the
    rule: 1 if the attempt is not solved; else 2 if there are more than two
    tries or a hint was used; else 3 if there is at least one try; else 4.
    Its result is one of 1, 2, 3, 4. *)
Theorem determine_rating_priority (a : PuzzleAttempt) :
  let q := determine_rating a in
  (solved a = false -> q = 1%Z) /\
  (solved a = true -> (tries_count a > 2)%Z \/ hint_used a = true -> q = 2%Z) /\
  (solved a = true -> (tries_count a <= 2)%Z -> hint_used a = false ->
   (tries_count a > 0)%Z -> q = 3%Z) /\
  (solved a = true -> (tries_count a <= 0)%Z -> hint_used a = false -> q = 4%Z) /\
  (q = 1 \/ q = 2 \/ q = 3 \/ q = 4)%Z.
Proof.
  unfold determine_rating.
  destruct (solved a), (hint_used a); cbn [negb orb];
    destruct (Z.gtb_spec (tries_count a) 2) as [Hmany | Hfew];
    destruct (Z.gtb_spec (tries_count a) 0) as [Hsome | Hnone];
    cbn [orb]; repeat split;
    solve [ intros; reflexivity
          | intros; discriminate
          | intros; lia
          | intros _ [Htries | Hhint]; [lia | discriminate]
          | auto ].
Qed.

(** ** The update algorithm, branch by branch *)

Ltac unfold_update :=
  cbv beta iota zeta delta
    [FSRSMemoryService.update_memory FSRSMemoryService.calculate_next_interval
     FSRSMemoryService.calculate_retrievability
     FSRSMemoryService.FSRS_PARAMS FSRSMemoryService.initial_stability
     FSRSMemoryService.stability_multiplier FSRSMemoryService.difficulty_adjustment
     FSRSMemoryService.desired_retention FSRSMemoryService.performance_adjustment
     FSRSMemoryService.tries_penalty FSRSMemoryService.hint_penalty
     models.update_memory models.calculate_next_interval models.calculate_retrievability
     models.initial_stability models.stability_multipliers models.difficulty_adjustments
     set_difficulty set_stability set_next_review_date set_last_review_date set_updated_at
     memory_pk player_username puzzle_id difficulty stability last_review_date
     next_review_date memory_created_at updated_at total_seconds bind clamped_difficulty].

Lemma math_log_retention : math_log 0.9 = Ok (ln 0.9).
Proof. apply math_log_ok; lra. Qed.

(** The first review of a memory: no operation can raise. *)
Lemma update_memory_first_review (now : datetime) (m : FSRSMemory)
    (rating : Z) (sv : bool) (tries : Z) (hint : bool) :
  last_review_date m = None ->
  FSRSMemoryService.update_memory now m rating sv tries hint =
  let s := get (FSRSMemoryService.initial_stability FSRSMemoryService.FSRS_PARAMS)
             rating 1.0 in
  Ok {| memory_pk := memory_pk m;
        player_username := player_username m;
        puzzle_id := puzzle_id m;
        difficulty := clamped_difficulty (difficulty m) rating tries hint;
        stability := s;
        last_review_date := Some now;
        next_review_date := Some (now + timedelta_days (- s * ln 0.9));
        memory_created_at := memory_created_at m;
        updated_at := now |}.
Proof.
  destruct m as [pk pl pz d s last next c u]; cbn [last_review_date]; intros ->.
  unfold_update.
  destruct (tries >? 0)%Z, hint; rewrite math_log_retention; reflexivity.
Qed.

(** A later review: the operations that can raise are the division by the
    stability, the division of the spacing effect and its square root. *)
Lemma update_memory_later_review (now : datetime) (m : FSRSMemory) (last : datetime)
    (rating : Z) (sv : bool) (tries : Z) (hint : bool) :
  last_review_date m = Some last ->
  FSRSMemoryService.update_memory now m rating sv tries hint =
  let elapsed_days := (now - last) / (24 * 3600) in
  _ <- truediv (- elapsed_days) (stability m) ;;
  s <- (if (rating =? 1)%Z then Ok (stability m * 0.2)
        else
          q <- truediv elapsed_days (Rmax (stability m) 0.1) ;;
          r <- math_sqrt q ;;
          Ok (stability m
              * (get (FSRSMemoryService.stability_multiplier FSRSMemoryService.FSRS_PARAMS)
                   rating 1.5
                 * Rmin 2.0 r))) ;;
  Ok {| memory_pk := memory_pk m;
        player_username := player_username m;
        puzzle_id := puzzle_id m;
        difficulty := clamped_difficulty (difficulty m) rating tries hint;
        stability := s;
        last_review_date := Some now;
        next_review_date := Some (now + timedelta_days (- s * ln 0.9));
        memory_created_at := memory_created_at m;
        updated_at := now |}.
Proof.
  destruct m as [pk pl pz d s last' next c u]; cbn [last_review_date]; intros ->.
  unfold_update.
  destruct (truediv _ s); [| reflexivity].
  destruct (tries >? 0)%Z, hint, (rating =? 1)%Z;
    cbv beta iota delta [getitem lookup Z.eqb Pos.eqb];
    try (rewrite math_log_retention; reflexivity);
    (destruct (truediv _ _); [| reflexivity]);
    (destruct (math_sqrt _); [| reflexivity]);
    rewrite math_log_retention; reflexivity.
Qed.

(** The method of the model and the method of the service are one function:
    the second clock reading of the model's only feeds the retrievability,
    which neither of them uses. *)
Lemma models_update_memory_agrees (now now' : datetime) (m : FSRSMemory)
    (rating : Z) (sv : bool) (tries : Z) (hint : bool) :
  models.update_memory now now' m rating sv tries hint =
  FSRSMemoryService.update_memory now m rating sv tries hint.
Proof.
  destruct m as [pk pl pz d s [last |] next c u].
  - unfold_update. unfold truediv.
    destruct (Req_dec_T s 0); reflexivity.
  - reflexivity.
Qed.

Lemma spacing_divisor_nonzero (s : R) : Rmax s 0.1 <> 0.
Proof.
  pose proof (Rmax_r s 0.1). lra.
Qed.

Lemma spacing_divisor_positive (s : R) : 0 < Rmax s 0.1.
Proof.
  pose proof (Rmax_r s 0.1). lra.
Qed.

(** A rating that is no key of the tables gets the default of each lookup. *)
Lemma get_default (d : dict R) (k : Z) (default : R) :
  ~ In k (map fst d) -> get d k default = default.
Proof.
  unfold get. induction d as [| [k' v] d IH]; cbn [lookup map fst In]; intros H.
  - reflexivity.
  - destruct (Z.eqb_spec k' k) as [E | N].
    + exfalso. apply H. now left.
    + apply IH. intros HI. apply H. now right.
Qed.

(** ** First review *)

(** C5: the first review of a new pair with rating 3, no try and no hint
    leaves stability 3.0 and difficulty 1.95, through the method of the
    service and through the method of the model. *)
Theorem first_review_good (pk player puzzle : string) (created now now' : datetime)
    (sv : bool) :
  exists m' : FSRSMemory,
    FSRSMemoryService.update_memory now (default_memory pk player puzzle created)
      3 sv 0 false = Ok m' /\
    models.update_memory now now' (default_memory pk player puzzle created)
      3 sv 0 false = Ok m' /\
    stability m' = 3.0 /\ difficulty m' = 1.95.
Proof.
  eexists. rewrite models_update_memory_agrees.
  rewrite update_memory_first_review by reflexivity.
  split; [reflexivity |]. split; [reflexivity |].
  cbn [stability difficulty]. split.
  - reflexivity.
  - unfold clamped_difficulty, default_memory. cbn [difficulty].
    cbv [get lookup FSRSMemoryService.difficulty_adjustment FSRSMemoryService.FSRS_PARAMS
         Z.eqb Pos.eqb Z.gtb Z.compare].
    unfold Rmax, Rmin.
    destruct (Rle_dec 3.0 _); destruct (Rle_dec 1.0 _); lra.
Qed.

(** ** Lapse *)


(** ** Ratings outside the tables *)

(** A later review with a rating other than 1 completes when the stability
    is not zero and the clock has not gone back, and only then. *)
Lemma update_memory_success (now : datetime) (m : FSRSMemory) (last : datetime)
    (rating : Z) (sv : bool) (tries : Z) (hint : bool) :
  last_review_date m = Some last ->
  rating <> 1%Z ->
  stability m <> 0 ->
  last <= now ->
  FSRSMemoryService.update_memory now m rating sv tries hint =
  let s := stability m
           * (get (FSRSMemoryService.stability_multiplier FSRSMemoryService.FSRS_PARAMS)
                rating 1.5
              * Rmin 2.0 (sqrt ((now - last) / (24 * 3600) / Rmax (stability m) 0.1))) in
  Ok {| memory_pk := memory_pk m;
        player_username := player_username m;
        puzzle_id := puzzle_id m;
        difficulty := clamped_difficulty (difficulty m) rating tries hint;
        stability := s;
        last_review_date := Some now;
        next_review_date := Some (now + timedelta_days (- s * ln 0.9));
        memory_created_at := memory_created_at m;
        updated_at := now |}.
Proof.
  intros Hlast Hr Hs Hle.
  assert (Hq : 0 <= (now - last) / (24 * 3600) / Rmax (stability m) 0.1).
  { apply Rmult_le_pos.
    - apply Rmult_le_pos; [lra |]. apply Rlt_le, Rinv_0_lt_compat. lra.
    - apply Rlt_le, Rinv_0_lt_compat, spacing_divisor_positive. }
  rewrite (update_memory_later_review _ _ _ _ _ _ Hlast). cbv zeta.
  rewrite truediv_ok by exact Hs. apply Z.eqb_neq in Hr. rewrite Hr.
  rewrite truediv_ok by apply spacing_divisor_nonzero.
  cbn [bind]. rewrite math_sqrt_ok by exact Hq. reflexivity.
Qed.

Lemma update_memory_completes_iff (now : datetime) (m : FSRSMemory) (last : datetime)
    (rating : Z) (sv : bool) (tries : Z) (hint : bool) :
  last_review_date m = Some last ->
  rating <> 1%Z ->
  (exists m' : FSRSMemory,
     FSRSMemoryService.update_memory now m rating sv tries hint = Ok m')
  <-> stability m <> 0 /\ last <= now.
Proof.
  intros Hlast Hr. split.
  - intros [m' Hupd].
    rewrite (update_memory_later_review _ _ _ _ _ _ Hlast) in Hupd. cbv zeta in Hupd.
    destruct (Req_dec_T (stability m) 0) as [Hz | Hnz].
    + rewrite Hz, truediv_zero in Hupd. discriminate.
    + split; [exact Hnz |].
      destruct (Rle_dec last now) as [Hle | Hgt]; [exact Hle | exfalso].
      rewrite truediv_ok in Hupd by exact Hnz. apply Z.eqb_neq in Hr.
      rewrite Hr in Hupd. rewrite truediv_ok in Hupd by apply spacing_divisor_nonzero.
      cbn [bind] in Hupd. rewrite math_sqrt_negative in Hupd; [discriminate |].
      pose proof (spacing_divisor_positive (stability m)) as Hpos.
      apply Rinv_0_lt_compat in Hpos.
      unfold Rdiv. nra.
  - intros [Hs Hle]. eexists. apply update_memory_success; eassumption.
Qed.

(** X30: for a rating that is none of 1, 2, 3, 4 the update takes the
    default of each lookup.  On a first review it completes and stores the
    stability 1.0; on a later review of a memory whose stability is not zero,
    at an instant not before the last review, it completes and multiplies
    the stability by 1.5 and the spacing effect.  The difficulty gets no
    adjustment for the rating, only the penalties and the clamp. *)
Theorem unknown_rating_defaults (now : datetime) (m : FSRSMemory)
    (rating : Z) (sv : bool) (tries : Z) (hint : bool) :
  ~ In rating [1; 2; 3; 4]%Z ->
  let penalties :=
    (if (tries >? 0)%Z then 0.1 * IZR (Z.min tries 3) else 0)
    + (if hint then 0.2 else 0) in
  match last_review_date m with
  | None =>
      exists m' : FSRSMemory,
        FSRSMemoryService.update_memory now m rating sv tries hint = Ok m' /\
        (forall now', models.update_memory now now' m rating sv tries hint = Ok m') /\
        stability m' = 1.0 /\
        difficulty m' = Rmax 1.0 (Rmin 3.0 (difficulty m + 0 + penalties))
  | Some last =>
      stability m <> 0 -> last <= now ->
      exists m' : FSRSMemory,
        FSRSMemoryService.update_memory now m rating sv tries hint = Ok m' /\
        (forall now', models.update_memory now now' m rating sv tries hint = Ok m') /\
        stability m' =
          stability m
          * (1.5 * Rmin 2.0 (sqrt ((now - last) / (24 * 3600) / Rmax (stability m) 0.1))) /\
        difficulty m' = Rmax 1.0 (Rmin 3.0 (difficulty m + 0 + penalties))
  end.
Proof.
  intros Hout penalties.
  assert (Hd : clamped_difficulty (difficulty m) rating tries hint
               = Rmax 1.0 (Rmin 3.0 (difficulty m + 0 + penalties))).
  { unfold clamped_difficulty, penalties. rewrite get_default by exact Hout.
    destruct (tries >? 0)%Z, hint; f_equal; f_equal; lra. }
  assert (Hne : rating <> 1%Z).
  { intros ->. apply Hout. now left. }
  destruct (last_review_date m) as [last |] eqn:Hlast.
  - intros Hs Hle.
    pose proof (@update_memory_success now m last rating sv tries hint Hlast Hne Hs Hle) as E.
    cbv zeta in E. eexists. split; [exact E |]. split.
    + intros now'. rewrite models_update_memory_agrees. exact E.
    + cbn [stability difficulty]. split; [| exact Hd].
      rewrite get_default by exact Hout. reflexivity.
  - eexists. split; [apply (update_memory_first_review _ _ _ _ _ _ Hlast) |]. split.
    + intros now'. rewrite models_update_memory_agrees.
      apply (update_memory_first_review _ _ _ _ _ _ Hlast).
    + cbv zeta. cbn [stability difficulty]. split; [| exact Hd].
      apply get_default. exact Hout.
Qed.

(** ** Retrievability and interval *)

(** In exact arithmetic, for a stability above zero and a target retention
    [r] in (0, 1), the retrievability after the next interval is [r]: with
    the functions of the service, and with the methods of the model when the
    clock is read one interval after the last review. *)
Lemma interval_inverts_retrievability (s r : R) :
  0 < s -> 0 < r < 1 ->
  (i <- FSRSMemoryService.calculate_next_interval s r ;;
   FSRSMemoryService.calculate_retrievability s i) = Ok r /\
  (forall (m : FSRSMemory) (last : datetime),
     stability m = s -> last_review_date m = Some last ->
     (i <- models.calculate_next_interval m r ;;
      models.calculate_retrievability (last + timedelta_days i) m) = Ok r).
Proof.
  intros Hs Hr.
  assert (Hexp : exp (- (- s * ln r) / s) = r).
  { replace (- (- s * ln r) / s) with (ln r) by (field; lra).
    apply exp_ln. lra. }
  split.
  - unfold FSRSMemoryService.calculate_next_interval,
      FSRSMemoryService.calculate_retrievability.
    rewrite math_log_ok by lra. cbn [bind].
    rewrite truediv_ok by lra. cbn [bind]. unfold math_exp. now rewrite Hexp.
  - intros m last Hm Hlast.
    unfold models.calculate_next_interval, models.calculate_retrievability.
    rewrite math_log_ok by lra. cbn [bind]. rewrite Hlast, Hm.
    rewrite truediv_ok by lra. cbn [bind]. unfold math_exp, timedelta_days, total_seconds.
    f_equal. rewrite <- Hexp at 2. f_equal. field. lra.
Qed.

(** A value within the relative error [u] of a negative or of a positive
    number. *)
Lemma within_nonpos (u x a : R) :
  x <= 0 -> rounded.within u x a -> x * (1 + u) <= a <= x * (1 - u).
Proof.
  unfold rounded.within. intros Hx H.
  rewrite (Rabs_left1 x) in H by exact Hx.
  unfold Rabs in H at 1. destruct (Rcase_abs (a - x)); nra.
Qed.

Lemma within_nonneg (u x a : R) :
  0 <= x -> rounded.within u x a -> x * (1 - u) <= a <= x * (1 + u).
Proof.
  unfold rounded.within. intros Hx H.
  rewrite (Rabs_pos_eq x) in H by exact Hx.
  unfold Rabs in H at 1. destruct (Rcase_abs (a - x)); nra.
Qed.

Lemma within_exact (u x : R) : 0 <= u -> rounded.within u x x.
Proof.
  unfold rounded.within. intros Hu.
  replace (x - x) with 0 by ring. rewrite Rabs_R0.
  apply Rmult_le_pos; [exact Hu | apply Rabs_pos].
Qed.

(** C7, as amended: for a stability above zero and a target retention [r]
    in (0, 1), when the logarithm, the product, the quotient and the
    exponential that the two functions compute at this input are each
    within the relative error [u] of the exact value, the retrievability
    after the next interval is computed without an error and is [r] up to
    the factors [exp (eta * ln r) * (1 - u)] below and
    [exp (- eta * ln r) * (1 + u)] above, with [eta = (1 + u)^3 - 1]; with
    exact operations ([u = 0]) it is [r]. *)
Theorem round_trip_within_tolerance (fl_mul fl_div : R -> R -> R) (fl_log fl_exp : R -> R)
    (u s r : R) :
  0 <= u < 1 -> 0 < s -> 0 < r < 1 ->
  let i := fl_mul (- s) (fl_log r) in
  let q := fl_div (- i) s in
  let eta := (1 + u) * (1 + u) * (1 + u) - 1 in
  rounded.within u (ln r) (fl_log r) ->
  rounded.within u (- s * fl_log r) i ->
  rounded.within u (- i / s) q ->
  rounded.within u (exp q) (fl_exp q) ->
  exists r' : R,
    (i <- rounded.calculate_next_interval fl_mul fl_log s r ;;
     rounded.calculate_retrievability fl_div fl_exp s i) = Ok r' /\
    r * exp (eta * ln r) * (1 - u) <= r' <= r * exp (- eta * ln r) * (1 + u) /\
    (u = 0 -> r' = r).
Proof.
  intros Hu Hs Hr i q eta Hlog Hmul Hdiv Hexp.
  assert (Hln : ln r < 0).
  { rewrite <- ln_1. apply ln_increasing; lra. }
  (* the logarithm *)
  apply within_nonpos in Hlog; [| lra].
  assert (HL : fl_log r <= 0).
  { apply Rle_trans with (ln r * (1 - u)); [lra |].
    replace 0 with (0 * (1 - u)) by ring. apply Rmult_le_compat_r; lra. }
  (* the product: the interval *)
  assert (HP : 0 <= - s * fl_log r).
  { replace (- s * fl_log r) with (s * - fl_log r) by ring. apply Rmult_le_pos; lra. }
  apply within_nonneg in Hmul; [| exact HP].
  assert (Hi : 0 <= i).
  { apply Rle_trans with (- s * fl_log r * (1 - u)); [| lra]. apply Rmult_le_pos; lra. }
  (* the exact quotient *)
  assert (Hinv : 0 < / s) by (apply Rinv_0_lt_compat; exact Hs).
  assert (HQ : fl_log r * (1 + u) <= - i / s <= fl_log r * (1 - u)).
  { assert (E1 : fl_log r * (1 + u) = - (- s * fl_log r * (1 + u)) / s) by (field; lra).
    assert (E2 : fl_log r * (1 - u) = - (- s * fl_log r * (1 - u)) / s) by (field; lra).
    rewrite E1, E2. unfold Rdiv. split; apply Rmult_le_compat_r; lra. }
  (* the rounded quotient *)
  apply within_nonpos in Hdiv; [| nra].
  assert (Hq : ln r * ((1 + u) * (1 + u) * (1 + u)) <= q
               <= ln r * ((1 - u) * (1 - u) * (1 - u))).
  { split.
    - apply Rle_trans with (- i / s * (1 + u)); [| lra].
      apply Rle_trans with (fl_log r * (1 + u) * (1 + u)); [| nra].
      replace (ln r * ((1 + u) * (1 + u) * (1 + u)))
        with (ln r * (1 + u) * ((1 + u) * (1 + u))) by ring.
      rewrite (Rmult_assoc (fl_log r)).
      apply Rmult_le_compat_r; [nra | lra].
    - apply Rle_trans with (- i / s * (1 - u)); [lra |].
      apply Rle_trans with (fl_log r * (1 - u) * (1 - u)); [nra |].
      replace (ln r * ((1 - u) * (1 - u) * (1 - u)))
        with (ln r * (1 - u) * ((1 - u) * (1 - u))) by ring.
      rewrite (Rmult_assoc (fl_log r)).
      apply Rmult_le_compat_r; [nra | lra]. }
  (* the exponential *)
  assert (Hlow : r * exp (eta * ln r) <= exp q).
  { rewrite <- (exp_ln r) at 1 by lra. rewrite <- exp_plus.
    destruct (Rle_lt_or_eq_dec _ _ (proj1 Hq)) as [Hlt | Heq].
    - left. apply exp_increasing. unfold eta. lra.
    - right. f_equal. unfold eta. lra. }
  assert (Hhigh : exp q <= r * exp (- eta * ln r)).
  { rewrite <- (exp_ln r) at 1 by lra. rewrite <- exp_plus.
    assert (Hle : q <= ln r + - eta * ln r).
    { apply Rle_trans with (ln r * ((1 - u) * (1 - u) * (1 - u))); [lra |].
      unfold eta. nra. }
    destruct (Rle_lt_or_eq_dec _ _ Hle) as [Hlt | Heq].
    - left. apply exp_increasing. exact Hlt.
    - right. f_equal. exact Heq. }
  pose proof (exp_pos q) as Hpos.
  apply within_nonneg in Hexp; [| lra].
  exists (fl_exp q). split; [| split].
  - unfold rounded.calculate_next_interval, rounded.calculate_retrievability.
    destruct (Rle_dec r 0); [lra |]. cbn [bind].
    destruct (Req_dec_T s 0); [lra |]. reflexivity.
  - split.
    + apply Rle_trans with (exp q * (1 - u)); [| lra].
      apply Rmult_le_compat_r; lra.
    + apply Rle_trans with (exp q * (1 + u)); [lra |].
      apply Rmult_le_compat_r; lra.
  - intros Hu0. subst u.
    assert (Heta : eta = 0) by (unfold eta; ring).
    rewrite Heta in Hlow, Hhigh.
    replace (0 * ln r) with 0 in Hlow by ring.
    replace (- 0 * ln r) with 0 in Hhigh by ring.
    rewrite exp_0 in Hlow, Hhigh. lra.
Qed.

(** ** Stability and timestamps after an update *)

Lemma get_positive (d : dict R) (k : Z) (default : R) :
  Forall (fun kv => 0 < snd kv) d -> 0 < default -> 0 < get d k default.
Proof.
  unfold get. intros Hd Hdef.
  induction Hd as [| [k' v] d Hv _ IH]; cbn [lookup].
  - exact Hdef.
  - destruct (k' =? k)%Z; [exact Hv | exact IH].
Qed.

Lemma initial_stability_positive (rating : Z) :
  0 < get (FSRSMemoryService.initial_stability FSRSMemoryService.FSRS_PARAMS) rating 1.0.
Proof.
  apply get_positive; [| lra].
  cbn [FSRSMemoryService.initial_stability FSRSMemoryService.FSRS_PARAMS].
  repeat constructor; cbn [snd]; lra.
Qed.

Lemma stability_multiplier_positive (rating : Z) :
  0 < get (FSRSMemoryService.stability_multiplier FSRSMemoryService.FSRS_PARAMS) rating 1.5.
Proof.
  apply get_positive; [| lra].
  cbn [FSRSMemoryService.stability_multiplier FSRSMemoryService.FSRS_PARAMS].
  repeat constructor; cbn [snd]; lra.
Qed.

(** What every completed update stores: the instant of the update as the
    last review, the next review one interval later, a difficulty within
    the clamp. *)
Lemma update_memory_stores (now : datetime) (m m' : FSRSMemory)
    (rating : Z) (sv : bool) (tries : Z) (hint : bool) :
  FSRSMemoryService.update_memory now m rating sv tries hint = Ok m' ->
  last_review_date m' = Some now /\
  next_review_date m' = Some (now + timedelta_days (stability m' * (- ln 0.9))) /\
  1 <= difficulty m' <= 3.
Proof.
  assert (Hint : forall s, - s * ln 0.9 = s * (- ln 0.9)) by (intros; ring).
  destruct (last_review_date m) as [last |] eqn:Hlast.
  - rewrite (update_memory_later_review _ _ _ _ _ _ Hlast). cbv zeta.
    destruct (truediv _ (stability m)); [| discriminate]. cbn [bind].
    match goal with |- (s <- ?c ;; _) = _ -> _ => destruct c as [s' |] end;
      [| discriminate].
    cbn [bind]. intros [= <-]. cbn [last_review_date next_review_date stability difficulty].
    rewrite Hint. repeat split; try apply clamp_bounds.
  - rewrite (update_memory_first_review _ _ _ _ _ _ Hlast). cbv zeta.
    intros [= <-]. cbn [last_review_date next_review_date stability difficulty].
    rewrite Hint. repeat split; try apply clamp_bounds.
Qed.

(** With a positive stability the next review is strictly later than the
    last one. *)
Lemma next_review_later (now : datetime) (m m' : FSRSMemory)
    (rating : Z) (sv : bool) (tries : Z) (hint : bool) :
  FSRSMemoryService.update_memory now m rating sv tries hint = Ok m' ->
  0 < stability m' ->
  exists last next : datetime,
    last_review_date m' = Some last /\ next_review_date m' = Some next /\ last < next.
Proof.
  intros Hupd Hs.
  destruct (update_memory_stores _ _ _ _ _ _ Hupd) as (Hl & Hn & _).
  exists now, (now + timedelta_days (stability m' * (- ln 0.9))).
  repeat split; try assumption.
  unfold timedelta_days. pose proof ln_retention_negative. nra.
Qed.

(** The stability stays above zero when it was above zero and the update is
    a first review or comes strictly after the last review. *)
Lemma update_memory_positive_stability (now : datetime) (m : FSRSMemory)
    (rating : Z) (sv : bool) (tries : Z) (hint : bool) :
  0 < stability m ->
  match last_review_date m with
  | None => True
  | Some last => last < now
  end ->
  exists m' : FSRSMemory,
    FSRSMemoryService.update_memory now m rating sv tries hint = Ok m' /\
    0 < stability m'.
Proof.
  intros Hs Hlater.
  destruct (last_review_date m) as [last |] eqn:Hlast.
  - rewrite (update_memory_later_review _ _ _ _ _ _ Hlast). cbv zeta.
    rewrite truediv_ok by lra. cbn [bind].
    destruct (rating =? 1)%Z.
    + cbn [bind]. eexists. split; [reflexivity |]. cbn [stability]. lra.
    + rewrite truediv_ok by apply spacing_divisor_nonzero. cbn [bind].
      assert (Hq : 0 < (now - last) / (24 * 3600) / Rmax (stability m) 0.1).
      { apply Rmult_lt_0_compat.
        - apply Rmult_lt_0_compat; [lra |]. apply Rinv_0_lt_compat. lra.
        - apply Rinv_0_lt_compat, spacing_divisor_positive. }
      rewrite math_sqrt_ok by lra. cbn [bind].
      eexists. split; [reflexivity |]. cbn [stability].
      apply Rmult_lt_0_compat; [exact Hs |].
      apply Rmult_lt_0_compat; [apply stability_multiplier_positive |].
      apply Rmin_glb_lt; [lra |]. apply sqrt_lt_R0. exact Hq.
  - rewrite (update_memory_first_review _ _ _ _ _ _ Hlast). cbv zeta.
    eexists. split; [reflexivity |]. cbn [stability]. apply initial_stability_positive.
Qed.

(** An update at the very instant of the last review, with a rating other
    than 1: the spacing effect is the square root of zero, and the stability
    that is stored is zero. *)
Lemma update_memory_same_instant (now : datetime) (m : FSRSMemory)
    (rating : Z) (sv : bool) (tries : Z) (hint : bool) :
  last_review_date m = Some now ->
  stability m <> 0 ->
  rating <> 1%Z ->
  exists m' : FSRSMemory,
    FSRSMemoryService.update_memory now m rating sv tries hint = Ok m' /\
    stability m' = 0 /\
    last_review_date m' = Some now /\
    next_review_date m' = Some now.
Proof.
  intros Hlast Hs Hr.
  rewrite (update_memory_later_review _ _ _ _ _ _ Hlast). cbv zeta.
  rewrite truediv_ok by exact Hs. cbn [bind].
  apply Z.eqb_neq in Hr. rewrite Hr.
  rewrite truediv_ok by apply spacing_divisor_nonzero. cbn [bind].
  replace ((now - now) / (24 * 3600) / Rmax (stability m) 0.1) with 0
    by (field; apply spacing_divisor_nonzero).
  rewrite math_sqrt_ok by lra. cbn [bind]. rewrite sqrt_0.
  assert (Hmin : Rmin 2.0 0 = 0) by (apply Rmin_right; lra).
  eexists. split; [reflexivity |].
  cbn [stability last_review_date next_review_date]. rewrite Hmin.
  split; [ring |]. split; [reflexivity |].
  apply (f_equal (@Some R)). unfold timedelta_days. ring.
Qed.

(** Once the stability is zero every later update raises, whatever the
    rating, and so does the retrievability of the model. *)
Lemma zero_stability_raises (now : datetime) (m : FSRSMemory) (last : datetime)
    (rating : Z) (sv : bool) (tries : Z) (hint : bool) :
  last_review_date m = Some last ->
  stability m = 0 ->
  FSRSMemoryService.update_memory now m rating sv tries hint = Raise ZeroDivisionError /\
  models.calculate_retrievability now m = Raise ZeroDivisionError.
Proof.
  intros Hlast Hs. split.
  - rewrite (update_memory_later_review _ _ _ _ _ _ Hlast). cbv zeta.
    rewrite Hs, truediv_zero. reflexivity.
  - unfold models.calculate_retrievability. rewrite Hlast, Hs, truediv_zero. reflexivity.
Qed.

(** C1, at the failing input: the update of [reviewed_memory] (stability
    3.0) with rating 3 at the instant of its last review, zero days later,
    completes and stores the stability 0, which is not above zero. *)
Theorem stability_zero_at_same_instant :
  exists m' : FSRSMemory,
    FSRSMemoryService.update_memory 0 reviewed_memory 3 true 0 false = Ok m' /\
    models.update_memory 0 0 reviewed_memory 3 true 0 false = Ok m' /\
    stability reviewed_memory = 3.0 /\
    stability m' = 0 /\
    ~ 0 < stability m'.
Proof.
  destruct (update_memory_same_instant (now := 0) reviewed_memory (rating := 3)
              true 0 false) as (m' & Hupd & Hs & _).
  - reflexivity.
  - cbn [stability reviewed_memory]. lra.
  - discriminate.
  - exists m'. rewrite models_update_memory_agrees.
    repeat split; try assumption. rewrite Hs. lra.
Qed.

(** C10, at the failing input: after the update of [reviewed_memory] with
    rating 3 at the instant of its last review, both timestamps are set, and
    the next review is at the instant of the last review, not later. *)
Theorem next_review_equals_last_at_same_instant :
  exists (m' : FSRSMemory) (last next : datetime),
    FSRSMemoryService.update_memory 0 reviewed_memory 3 true 0 false = Ok m' /\
    models.update_memory 0 0 reviewed_memory 3 true 0 false = Ok m' /\
    last_review_date m' = Some last /\
    next_review_date m' = Some next /\
    ~ last < next.
Proof.
  destruct (update_memory_same_instant (now := 0) reviewed_memory (rating := 3)
              true 0 false) as (m' & Hupd & _ & Hl & Hn).
  - reflexivity.
  - cbn [stability reviewed_memory]. lra.
  - discriminate.
  - exists m', 0, 0. rewrite models_update_memory_agrees.
    repeat split; try assumption. lra.
Qed.

(** C4, at the failing input: the update of [reviewed_memory] with rating 3
    at the instant of its last review stores a memory that has a last
    review and the stability 0.  On that memory the update with rating 1
    raises [ZeroDivisionError], at every instant, whatever the tries and
    the hint, through the method of the service and through the method of
    the model; the claim has it store the stability [0 * 0.2]. *)
Theorem lapse_raises_on_zero_stability :
  exists m1 : FSRSMemory,
    FSRSMemoryService.update_memory 0 reviewed_memory 3 true 0 false = Ok m1 /\
    models.update_memory 0 0 reviewed_memory 3 true 0 false = Ok m1 /\
    last_review_date m1 = Some 0 /\
    stability m1 = 0 /\
    (forall (now now' : datetime) (sv : bool) (tries : Z) (hint : bool),
       FSRSMemoryService.update_memory now m1 1 sv tries hint = Raise ZeroDivisionError /\
       models.update_memory now now' m1 1 sv tries hint = Raise ZeroDivisionError).
Proof.
  destruct (update_memory_same_instant (now := 0) reviewed_memory (rating := 3)
              true 0 false) as (m1 & Hupd & Hs & Hl & _).
  - reflexivity.
  - cbn [stability reviewed_memory]. lra.
  - discriminate.
  - exists m1. rewrite models_update_memory_agrees.
    split; [exact Hupd |]. split; [exact Hupd |]. split; [exact Hl |]. split; [exact Hs |].
    intros now now' sv tries hint. rewrite models_update_memory_agrees.
    pose proof (proj1 (@zero_stability_raises now m1 0 1 sv tries hint Hl Hs)) as Hraise.
    split; exact Hraise.
Qed.

(** C9, at the failing input: on the memory that the update of
    [reviewed_memory] with rating 3 at the instant of its last review stores
    (stability 0), the update with the rating 7, as with every rating,
    raises [ZeroDivisionError] instead of completing with the defaults.  On
    [reviewed_memory] itself the rating 7 raises [ValueError] when the clock
    is before the last review. *)
Theorem unknown_rating_raises_on_zero_stability :
  exists m1 : FSRSMemory,
    FSRSMemoryService.update_memory 0 reviewed_memory 3 true 0 false = Ok m1 /\
    models.update_memory 0 0 reviewed_memory 3 true 0 false = Ok m1 /\
    stability m1 = 0 /\
    FSRSMemoryService.update_memory (day 1) m1 7 true 0 false = Raise ZeroDivisionError /\
    models.update_memory (day 1) (day 1) m1 7 true 0 false = Raise ZeroDivisionError /\
    (forall (rating : Z) (now now' : datetime) (sv : bool) (tries : Z) (hint : bool),
       FSRSMemoryService.update_memory now m1 rating sv tries hint
       = Raise ZeroDivisionError /\
       models.update_memory now now' m1 rating sv tries hint = Raise ZeroDivisionError) /\
    FSRSMemoryService.update_memory (day (-1)) reviewed_memory 7 true 0 false
    = Raise ValueError.
Proof.
  destruct (update_memory_same_instant (now := 0) reviewed_memory (rating := 3)
              true 0 false) as (m1 & Hupd & Hs & Hl & _).
  - reflexivity.
  - cbn [stability reviewed_memory]. lra.
  - discriminate.
  - assert (Hall : forall (rating : Z) (now : datetime) (sv : bool) (tries : Z) (hint : bool),
               FSRSMemoryService.update_memory now m1 rating sv tries hint
               = Raise ZeroDivisionError).
    { intros rating now sv tries hint.
      exact (proj1 (@zero_stability_raises now m1 0 rating sv tries hint Hl Hs)). }
    exists m1. rewrite !models_update_memory_agrees.
    split; [exact Hupd |]. split; [exact Hupd |]. split; [exact Hs |].
    split; [apply Hall |]. split; [apply Hall |]. split.
    + intros rating now now' sv tries hint. rewrite models_update_memory_agrees.
      split; apply Hall.
    + rewrite (@update_memory_later_review (day (-1)) reviewed_memory 0 7 true 0 false
                 eq_refl).
      cbv zeta. cbn [stability reviewed_memory].
      rewrite truediv_ok by lra. cbn [bind Z.eqb].
      rewrite truediv_ok by apply spacing_divisor_nonzero. cbn [bind].
      rewrite math_sqrt_negative; [reflexivity |].
      pose proof (spacing_divisor_positive 3.0) as Hpos.
      apply Rinv_0_lt_compat in Hpos. unfold day, Rdiv. nra.
Qed.

(** ** Daily mix *)

Lemma date_of_epoch : date_of 0 = 0%Z.
Proof.
  unfold date_of. symmetry. apply Int_part_spec. lra.
Qed.

(** C8: when the total of the puzzles done today reaches the total limit,
    [DailyPuzzlesView.get] answers with status 200 and an empty list of
    puzzles, whatever the memories, the puzzles and the other limits are. *)
Theorem daily_quota_exhausted (random_order : list Puzzle -> list Puzzle)
    (db db' : Database) (now : datetime) (username player : string)
    (query_params : DailyQuery) (progress : UserDailyProgress) :
  get_player db username = Some player ->
  get_or_create_progress db player (date_of now) = (progress, db') ->
  (param (q_total_limit query_params) 50 <= total_puzzles_done progress)%Z ->
  exists body : DailyBody,
    DailyPuzzlesView_get random_order db now username query_params
    = (Data HTTP_200_OK body, db') /\
    puzzles body = [].
Proof.
  intros Hplayer Hprogress Hlimit.
  unfold DailyPuzzlesView_get. rewrite Hplayer, Hprogress.
  destruct (Z.leb_spec (Z.max 0 (param (q_total_limit query_params) 50
                                 - total_puzzles_done progress)) 0) as [_ | Hpos].
  - eexists. split; reflexivity.
  - lia.
Qed.

(** The spec's scenario: limit 50, 50 done today. *)
Lemma daily_quota_exhausted_witness :
  exists body : DailyBody,
    DailyPuzzlesView_get (fun l => l) exhausted_db 0 "alice" (mkDailyQuery None None None)
    = (Data HTTP_200_OK body, exhausted_db) /\
    puzzles body = [].
Proof.
  apply (daily_quota_exhausted (fun l => l) exhausted_db (db' := exhausted_db) 0 "alice"
           (player := "alice") (mkDailyQuery None None None)
           (progress := mkUserDailyProgress "alice" 0 25 25)).
  - reflexivity.
  - rewrite date_of_epoch. reflexivity.
  - vm_compute. discriminate.
Defined.

(** *** Sorting and slicing *)

Lemma insert_by_perm {A : Type} (key : A -> R) (x : A) (l : list A) :
  Permutation (insert_by key x l) (x :: l).
Proof.
  induction l as [| y l IH]; cbn [insert_by].
  - apply Permutation_refl.
  - destruct (Rleb (key x) (key y)).
    + apply Permutation_refl.
    + eapply perm_trans; [apply perm_skip, IH | apply perm_swap].
Qed.

Lemma sort_by_perm {A : Type} (key : A -> R) (l : list A) :
  Permutation (sort_by key l) l.
Proof.
  induction l as [| x l IH]; cbn [sort_by fold_right].
  - apply perm_nil.
  - eapply perm_trans; [apply insert_by_perm | apply perm_skip, IH].
Qed.

(** [sort_by] puts the keys in ascending order. *)
Lemma insert_by_ascending {A : Type} (key : A -> R) (x : A) (l : list A) :
  ascending key l -> ascending key (insert_by key x l).
Proof.
  induction 1 as [| y l Hy Hl IH]; cbn [insert_by].
  - constructor; constructor.
  - unfold Rleb. destruct (Rle_dec (key x) (key y)) as [Hle | Hgt].
    + constructor; [| now constructor].
      constructor; [exact Hle |].
      eapply Forall_impl; [| exact Hy]. cbn beta. intros z Hz. lra.
    + constructor; [| exact IH].
      eapply Permutation_Forall; [apply Permutation_sym, insert_by_perm |].
      constructor; [lra | exact Hy].
Qed.

Lemma sort_by_ascending {A : Type} (key : A -> R) (l : list A) :
  ascending key (sort_by key l).
Proof.
  induction l as [| x l IH]; cbn [sort_by fold_right].
  - constructor.
  - apply insert_by_ascending, IH.
Qed.

Lemma existsb_perm {A : Type} (f : A -> bool) (l l' : list A) :
  Permutation l l' -> existsb f l = existsb f l'.
Proof.
  induction 1 as [| x l l' _ IH | x y l | l l' l'' _ IH1 _ IH2]; cbn [existsb].
  - reflexivity.
  - now rewrite IH.
  - destruct (f x), (f y); reflexivity.
  - now rewrite IH1.
Qed.

Lemma slice_to_firstn {A : Type} (l : list A) (n : Z) :
  (0 <= n)%Z -> slice_to l n = firstn (Z.to_nat n) l.
Proof.
  intros Hn. unfold slice_to. destruct (Z.leb_spec 0 n); [reflexivity | lia].
Qed.

Lemma len_slice_to {A : Type} (l : list A) (n : Z) :
  (0 <= n <= len l)%Z -> len (slice_to l n) = n.
Proof.
  intros Hn. rewrite slice_to_firstn by lia. unfold len in *.
  rewrite length_firstn. lia.
Qed.

(** *** The reviews of the daily mix *)

(** The order of [due_memories] is lost in [due_puzzles]: the query by
    [id__in] lists the puzzles in the order of their table. *)
Lemma due_puzzles_of_table_order (db : Database) (now : datetime) (username : string) :
  due_puzzles_of db now username =
  filter (fun p =>
            existsb (String.eqb (puzzle_pk p))
              (map puzzle_id
                 (filter (fun m => String.eqb (player_username m) username && is_due now m)
                    (FSRSMemory_objects db))))
    (Puzzle_objects db).
Proof.
  unfold due_puzzles_of, due_memories. apply filter_ext. intros p.
  apply existsb_perm, Permutation_map, sort_by_perm.
Qed.

Lemma is_due_spec (now : datetime) (m : FSRSMemory) :
  is_due now m = true <-> exists t : datetime, next_review_date m = Some t /\ t <= now.
Proof.
  unfold is_due, Rleb. split.
  - destruct (next_review_date m) as [t |]; [| discriminate].
    destruct (Rle_dec t now); [| discriminate]. intros _. now exists t.
  - intros (t & -> & Ht). destruct (Rle_dec t now); [reflexivity | contradiction].
Qed.

Lemma slice_to_map {A B : Type} (f : A -> B) (l : list A) (n : Z) :
  slice_to (map f l) n = map f (slice_to l n).
Proof.
  unfold slice_to. rewrite length_map. destruct (0 <=? n)%Z; apply firstn_map.
Qed.

(** With quota left, the puzzles of the response are the reviews that are
    used, then the new puzzles that are used, cut to the page. *)
Lemma daily_mix_response (random_order : list Puzzle -> list Puzzle)
    (db db' : Database) (now : datetime) (username player : string)
    (query_params : DailyQuery) (progress : UserDailyProgress) :
  get_player db username = Some player ->
  get_or_create_progress db player (date_of now) = (progress, db') ->
  (total_puzzles_done progress < param (q_total_limit query_params) 50)%Z ->
  let total_remaining :=
    (param (q_total_limit query_params) 50 - total_puzzles_done progress)%Z in
  let new_remaining :=
    Z.max 0 (param (q_new_limit query_params) 25 - new_puzzles_seen progress) in
  let due := due_puzzles_of db' now username in
  let new := new_puzzles_of random_order db' username new_remaining in
  exists body : DailyBody,
    DailyPuzzlesView_get random_order db now username query_params
    = (Data HTTP_200_OK body, db') /\
    map data_id (puzzles body)
    = slice_to (map puzzle_pk (combined_reviews due total_remaining
                               ++ combined_new due new total_remaining))
        (param (q_per_page query_params) 10).
Proof.
  intros Hplayer Hprogress Hlimit. cbv zeta.
  unfold DailyPuzzlesView_get. rewrite Hplayer, Hprogress.
  rewrite Z.max_r by lia.
  destruct (Z.leb_spec (param (q_total_limit query_params) 50
                        - total_puzzles_done progress) 0) as [Hle | _]; [lia |].
  eexists. split; [reflexivity |]. cbn [puzzles].
  rewrite <- slice_to_map, map_map. reflexivity.
Qed.

(** What the due query reads of a memory: the player, the puzzle and the
    date of the next review.  Memories that agree on these give the same due
    puzzles, whatever their stability and the date of their last review. *)
Lemma due_ids_by_schedule (now : datetime) (username : string) (l1 l2 : list FSRSMemory) :
  map (fun m => (player_username m, puzzle_id m, next_review_date m)) l1
  = map (fun m => (player_username m, puzzle_id m, next_review_date m)) l2 ->
  map puzzle_id
    (filter (fun m => String.eqb (player_username m) username && is_due now m) l1)
  = map puzzle_id
      (filter (fun m => String.eqb (player_username m) username && is_due now m) l2).
Proof.
  revert l2. induction l1 as [| m1 l1 IH]; intros [| m2 l2]; cbn [map]; try discriminate.
  - reflexivity.
  - intros [= Hplayer Hpuzzle Hnext Hrest]. cbn [filter]. unfold is_due.
    rewrite Hplayer, Hnext.
    destruct (String.eqb (player_username m2) username
              && match next_review_date m2 with
                 | Some t => Rleb t now
                 | None => false
                 end);
      cbn [map]; [rewrite Hpuzzle; f_equal |]; apply IH; exact Hrest.
Qed.

Lemma due_puzzles_of_by_schedule (db1 db2 : Database) (now : datetime) (username : string) :
  Puzzle_objects db1 = Puzzle_objects db2 ->
  map (fun m => (player_username m, puzzle_id m, next_review_date m))
    (FSRSMemory_objects db1)
  = map (fun m => (player_username m, puzzle_id m, next_review_date m))
      (FSRSMemory_objects db2) ->
  due_puzzles_of db1 now username = due_puzzles_of db2 now username.
Proof.
  intros Hpuzzles Hschedule. rewrite !due_puzzles_of_table_order.
  rewrite Hpuzzles, (due_ids_by_schedule now username _ _ Hschedule). reflexivity.
Qed.

(** C3, as amended: the daily mix fills its
    [reviews_to_use = min(due_count, total_remaining)] review slots with due
    puzzles of the learner, each a puzzle of the table whose memory for this
    learner has a next review that is not after [now].  The retrievability
    plays no part in the choice: memories with the same players, puzzles and
    dates of the next review give the same reviews and the same response of
    [DailyPuzzlesView.get], whatever their stability and the date of their
    last review are. *)
Theorem daily_reviews_are_due (db : Database) (now : datetime) (username : string)
    (total_remaining : Z) :
  (0 <= total_remaining)%Z ->
  let due := due_puzzles_of db now username in
  let reviews := combined_reviews due total_remaining in
  let schedule (m : FSRSMemory) := (player_username m, puzzle_id m, next_review_date m) in
  len reviews = Z.min (len due) total_remaining /\
  (forall p : Puzzle,
     In p reviews ->
     In p (Puzzle_objects db) /\
     exists (m : FSRSMemory) (t : datetime),
       In m (FSRSMemory_objects db) /\
       player_username m = username /\
       puzzle_id m = puzzle_pk p /\
       next_review_date m = Some t /\ t <= now) /\
  (forall memories : list FSRSMemory,
     map schedule memories = map schedule (FSRSMemory_objects db) ->
     combined_reviews (due_puzzles_of (set_FSRSMemory_objects db memories) now username)
       total_remaining
     = reviews /\
     forall (random_order : list Puzzle -> list Puzzle) (query_params : DailyQuery),
       fst (DailyPuzzlesView_get random_order (set_FSRSMemory_objects db memories)
              now username query_params)
       = fst (DailyPuzzlesView_get random_order db now username query_params)).
Proof.
  intros Htotal due reviews schedule.
  assert (Hlen : (0 <= len due)%Z) by (unfold len; lia).
  assert (Hreviews : reviews = firstn (Z.to_nat (Z.min (len due) total_remaining)) due).
  { unfold reviews, combined_reviews, reviews_to_use. apply slice_to_firstn. lia. }
  split; [| split].
  - unfold reviews, combined_reviews, reviews_to_use. apply len_slice_to. lia.
  - intros p Hp.
    assert (Hdue : In p due).
    { rewrite <- (firstn_skipn (Z.to_nat (Z.min (len due) total_remaining)) due).
      apply in_or_app. left. now rewrite <- Hreviews. }
    unfold due in Hdue. rewrite due_puzzles_of_table_order in Hdue.
    apply filter_In in Hdue. destruct Hdue as [Htable Hex]. split; [exact Htable |].
    apply existsb_exists in Hex. destruct Hex as (pid & Hpid & Heq).
    apply String.eqb_eq in Heq. apply in_map_iff in Hpid.
    destruct Hpid as (m & Hm & Hin). apply filter_In in Hin.
    destruct Hin as [Hin Hcond]. apply andb_prop in Hcond. destruct Hcond as [Hu Hd].
    apply String.eqb_eq in Hu. apply is_due_spec in Hd. destruct Hd as (t & Ht & Hle).
    exists m, t. repeat split; try assumption. congruence.
  - intros memories Hschedule.
    assert (Hdue : forall table : list UserDailyProgress,
               due_puzzles_of
                 (set_UserDailyProgress_objects (set_FSRSMemory_objects db memories) table)
                 now username
               = due_puzzles_of (set_UserDailyProgress_objects db table) now username).
    { intros table. apply due_puzzles_of_by_schedule; [reflexivity | exact Hschedule]. }
    split.
    + unfold reviews, due. f_equal.
      apply due_puzzles_of_by_schedule; [reflexivity | exact Hschedule].
    + intros random_order query_params. unfold DailyPuzzlesView_get.
      change (get_player (set_FSRSMemory_objects db memories) username)
        with (get_player db username).
      destruct (get_player db username) as [player |]; [| reflexivity].
      unfold get_or_create_progress.
      change (UserDailyProgress_objects (set_FSRSMemory_objects db memories))
        with (UserDailyProgress_objects db).
      destruct (find _ (UserDailyProgress_objects db)) as [progress |]; cbv zeta iota beta.
      * destruct (_ <=? 0)%Z; [reflexivity |]. cbn [fst].
        rewrite (@due_puzzles_of_by_schedule (set_FSRSMemory_objects db memories) db
                   now username eq_refl Hschedule).
        reflexivity.
      * destruct (_ <=? 0)%Z; [reflexivity |]. cbn [fst].
        rewrite Hdue. reflexivity.
Qed.


(** *** The example of two due puzzles and one slot *)

Lemma is_due_memory1 : is_due (day 1) memory1 = true.
Proof.
  apply is_due_spec. exists (day 0.25). split; [reflexivity | unfold day; lra].
Qed.

Lemma is_due_memory2 : is_due (day 1) memory2 = true.
Proof.
  apply is_due_spec. exists (day 0.75). split; [reflexivity | unfold day; lra].
Qed.

(** The order of the query of the due memories: by the date of the next
    review, the first memory first. *)
Lemma due_memories_due_db : due_memories due_db (day 1) "alice" = [memory1; memory2].
Proof.
  unfold due_memories, due_db. cbn [FSRSMemory_objects filter].
  rewrite is_due_memory1, is_due_memory2.
  change ((player_username memory1 =? "alice")%string && true) with true.
  change ((player_username memory2 =? "alice")%string && true) with true.
  cbv iota. cbn [sort_by fold_right insert_by next_review_date memory1 memory2].
  rewrite Rleb_true by (unfold day; lra). reflexivity.
Qed.

Lemma due_puzzles_of_due_db : due_puzzles_of due_db (day 1) "alice" = [puzzle1; puzzle2].
Proof.
  unfold due_puzzles_of. rewrite due_memories_due_db. reflexivity.
Qed.

Lemma retrievability_memory1 :
  models.calculate_retrievability (day 1) memory1 = Ok (exp (-1)).
Proof.
  unfold models.calculate_retrievability, memory1. cbn [last_review_date stability].
  rewrite truediv_ok by lra. cbn [bind]. unfold math_exp, total_seconds, day.
  apply (f_equal (@Ok R)). apply (f_equal exp). lra.
Qed.

Lemma retrievability_memory2 :
  models.calculate_retrievability (day 1) memory2 = Ok (exp (-2)).
Proof.
  unfold models.calculate_retrievability, memory2. cbn [last_review_date stability].
  rewrite truediv_ok by lra. cbn [bind]. unfold math_exp, total_seconds, day.
  apply (f_equal (@Ok R)). apply (f_equal exp). lra.
Qed.

(** The order of the due selection: by retrievability, the second memory
    first. *)
Lemma due_selection_due_db :
  FSRSDuePuzzlesView_get due_db (day 1) "alice" =
  Data HTTP_200_OK
    (mkDuePuzzlesBody 2
       [mkDuePuzzle "m2" "p2" (exp (-2)) 2.1 0.25 (Some (day 0.5)) 1300;
        mkDuePuzzle "m1" "p1" (exp (-1)) 2.0 1.0 (Some (day 0)) 1200]).
Proof.
  unfold FSRSDuePuzzlesView_get.
  change (get_player due_db "alice") with (Some "alice"%string). cbv iota.
  change (filter _ (FSRSMemory_objects due_db)) with [memory1; memory2].
  cbn [collect_due]. rewrite is_due_memory1, is_due_memory2.
  rewrite retrievability_memory1, retrievability_memory2. cbn [bind].
  change (get_puzzle due_db (puzzle_id memory1)) with (Some puzzle1).
  change (get_puzzle due_db (puzzle_id memory2)) with (Some puzzle2).
  cbn [bind]. cbn [sort_by fold_right insert_by retrievability].
  rewrite Rleb_false by (apply exp_increasing; lra).
  reflexivity.
Qed.

(** C3, as stated, fails: of the two due puzzles of [due_db] the due
    selection ranks [p2] first (retrievability [exp (-2)], below the
    [exp (-1)] of [p1]), and the daily mix with one slot left holds [p1],
    the first one by the date of the next review and in the table. *)
Lemma daily_mix_not_most_urgent :
  exists (body : DuePuzzlesBody) (mix : DailyBody) (db' : Database),
    FSRSDuePuzzlesView_get due_db (day 1) "alice" = Data HTTP_200_OK body /\
    DailyPuzzlesView_get (fun l => l) due_db (day 1) "alice"
      (mkDailyQuery None (Some 1%Z) None) = (Data HTTP_200_OK mix, db') /\
    map puzzle_id (due_memories due_db (day 1) "alice") = ["p1"%string; "p2"%string] /\
    due_puzzles_count body = 2%Z /\
    puzzles_count mix = Some 1%Z /\
    map data_id (puzzles mix) = ["p1"%string] /\
    map due_puzzle_id (slice_to (due_puzzles body) 1) = ["p2"%string] /\
    map data_id (puzzles mix) <> map due_puzzle_id (slice_to (due_puzzles body) 1).
Proof.
  eexists. eexists. eexists.
  split; [apply due_selection_due_db |].
  split; [| split; [rewrite due_memories_due_db; reflexivity |]].
  - unfold DailyPuzzlesView_get.
    change (get_player due_db "alice") with (Some "alice"%string). cbv iota.
    unfold get_or_create_progress.
    change (find _ (UserDailyProgress_objects due_db)) with (@None UserDailyProgress).
    cbv iota beta zeta.
    change (_ <=? 0)%Z with false. cbv iota.
    rewrite due_puzzles_of_table_order.
    cbn [FSRSMemory_objects Puzzle_objects set_UserDailyProgress_objects due_db filter].
    rewrite is_due_memory1, is_due_memory2.
    reflexivity.
  - cbn [due_puzzles_count due_puzzles puzzles_count puzzles].
    repeat split; try reflexivity. discriminate.
Qed.

(** ** Attempt submission *)

Lemma find_save {A : Type} (same : A -> bool) (row : A) (table : list A) :
  same row = true -> find same (save same row table) = Some row.
Proof.
  intros Hrow. induction table as [| r table IH]; cbn [save find].
  - now rewrite Hrow.
  - destruct (same r) eqn:Hr; cbn [find].
    + now rewrite Hrow.
    + now rewrite Hr.
Qed.

Lemma in_save {A : Type} (same : A -> bool) (row : A) (table : list A) :
  In row (save same row table).
Proof.
  induction table as [| r table IH]; cbn [save].
  - now left.
  - destruct (same r); [now left | now right].
Qed.

Lemma max_attempt_number_nonneg (db : Database) (puzzle player : string) (n : Z) :
  Forall (fun a => (0 <= attempt_number a)%Z) (PuzzleAttempt_objects db) ->
  max_attempt_number db puzzle player = Some n -> (0 <= n)%Z.
Proof.
  unfold max_attempt_number.
  assert (G : forall l acc,
             Forall (fun a => (0 <= attempt_number a)%Z) l ->
             (forall k, acc = Some k -> (0 <= k)%Z) ->
             fold_left
               (fun acc a =>
                  if String.eqb (attempt_puzzle a) puzzle && String.eqb (attempt_player a) player
                  then match acc with
                       | None => Some (attempt_number a)
                       | Some n => Some (Z.max n (attempt_number a))
                       end
                  else acc) l acc = Some n -> (0 <= n)%Z).
  { induction l as [| a l IH]; cbn [fold_left]; intros acc Hl Hacc.
    - apply Hacc.
    - inversion Hl as [| ? ? Ha Hl']; subst. apply IH; [exact Hl' |].
      destruct (_ && _); [| exact Hacc].
      destruct acc as [k |]; intros k' [= <-]; [| exact Ha].
      specialize (Hacc k eq_refl). lia. }
  intros Hl. apply G; [exact Hl | discriminate].
Qed.

Lemma get_or_create_progress_key (db db' : Database) (player : string) (day : Z)
    (progress : UserDailyProgress) :
  get_or_create_progress db player day = (progress, db') ->
  progress_player progress = player /\ date progress = day /\
  PuzzleAttempt_objects db' = PuzzleAttempt_objects db /\
  FSRSMemory_objects db' = FSRSMemory_objects db.
Proof.
  unfold get_or_create_progress.
  destruct (find _ _) as [p |] eqn:Hfind; intros [= <- <-].
  - apply find_some in Hfind. destruct Hfind as [_ Hsame].
    unfold same_progress in Hsame. apply andb_prop in Hsame. destruct Hsame as [Hp Hd].
    apply String.eqb_eq in Hp. apply Z.eqb_eq in Hd. repeat split; assumption.
  - repeat split; reflexivity.
Qed.

Lemma same_progress_refl (player : string) (day : Z) (n r : Z) :
  same_progress player day (mkUserDailyProgress player day n r) = true.
Proof.
  unfold same_progress. cbn [progress_player date].
  now rewrite String.eqb_refl, Z.eqb_refl.
Qed.

Lemma get_or_create_progress_attempts (db : Database) (t : list PuzzleAttempt)
    (player : string) (day : Z) :
  get_or_create_progress (set_PuzzleAttempt_objects db t) player day =
  (fst (get_or_create_progress db player day),
   set_PuzzleAttempt_objects (snd (get_or_create_progress db player day)) t).
Proof.
  unfold get_or_create_progress, set_PuzzleAttempt_objects.
  cbn [UserDailyProgress_objects].
  destruct (find _ _); reflexivity.
Qed.

(** The retrievability right after a completed update: the division by the
    stability raises when the stability that was stored is zero. *)
Lemma retrievability_after_update (now : datetime) (m : FSRSMemory) :
  last_review_date m = Some now -> stability m <> 0 ->
  models.calculate_retrievability now m = Ok 1.
Proof.
  intros Hlast Hs. unfold models.calculate_retrievability. rewrite Hlast.
  rewrite truediv_ok by exact Hs. cbn [bind]. unfold math_exp, total_seconds.
  apply (f_equal (@Ok R)). rewrite <- exp_0. apply (f_equal exp). field. exact Hs.
Qed.

Section Attempt.

Variable enforces_positive : bool.
Variables (db : Database) (now : datetime) (attempt_uuid memory_uuid : string).
Variables (request : AttemptRequest) (pid uname : string) (puzzle : Puzzle) (player : string).

Hypothesis Hpid : req_puzzle_id request = Some pid.
Hypothesis Huname : req_player_username request = Some uname.
Hypothesis Hpid_nonempty : pid <> ""%string.
Hypothesis Huname_nonempty : uname <> ""%string.
Hypothesis Hpuzzle : get_puzzle db pid = Some puzzle.
Hypothesis Hplayer : get_player db uname = Some player.
Hypothesis Htries : (0 <= req_tries_count request)%Z.
Hypothesis Hnumbers :
  Forall (fun a => (0 <= attempt_number a)%Z) (PuzzleAttempt_objects db).

(** What a submission for an existing puzzle and player does, whatever
    its rating is: the attempt is added to the log, one counter of the day
    goes up by one and, for a pair without a memory, the default memory is
    created, updated and stored. *)
Lemma post_effects :
  let result :=
    FSRSPuzzleAttemptView_post enforces_positive db now attempt_uuid memory_uuid request in
  let before := fst (get_or_create_progress db player (date_of now)) in
  (exists attempt : PuzzleAttempt,
     PuzzleAttempt_objects (snd result) = PuzzleAttempt_objects db ++ [attempt] /\
     attempt_pk attempt = attempt_uuid /\
     forall r, req_rating request = Some r -> models.rating attempt = Some r) /\
  (exists progress : UserDailyProgress,
     find (same_progress player (date_of now)) (UserDailyProgress_objects (snd result))
     = Some progress /\
     total_puzzles_done progress = (total_puzzles_done before + 1)%Z) /\
  (find (fun m => String.eqb (puzzle_id m) (puzzle_pk puzzle)
                  && String.eqb (player_username m) player)
     (FSRSMemory_objects db) = None ->
   forall r, req_rating request = Some r ->
   exists body : AttemptBody,
     fst result = Data HTTP_201_CREATED body /\
     body_rating body = r /\
     FSRSMemoryService.update_memory now
       (default_memory memory_uuid player (puzzle_pk puzzle) now) r
       (req_solved request) (req_tries_count request) (req_hint_used request)
     = Ok (fsrs_status body) /\
     In (fsrs_status body) (FSRSMemory_objects (snd result))).
Proof.
  unfold FSRSPuzzleAttemptView_post. rewrite Hpid, Huname. cbn [is_empty].
  apply String.eqb_neq in Hpid_nonempty, Huname_nonempty.
  rewrite Hpid_nonempty, Huname_nonempty. cbn [orb]. rewrite Hpuzzle, Hplayer.
  set (next_attempt := match max_attempt_number db (puzzle_pk puzzle) player with
                       | Some n => (n + 1)%Z
                       | None => 1%Z
                       end).
  assert (Hnext : (0 <= next_attempt)%Z).
  { unfold next_attempt.
    destruct (max_attempt_number db (puzzle_pk puzzle) player) as [n |] eqn:Hmax; [| lia].
    pose proof (max_attempt_number_nonneg _ _ _ Hnumbers Hmax). lia. }
  unfold save_attempt. cbn [attempt_number models.tries_count].
  destruct (Z.ltb_spec next_attempt 0) as [Hneg |_]; [lia |].
  destruct (Z.ltb_spec (req_tries_count request) 0) as [Hneg |_]; [lia |].
  cbn [orb]. rewrite andb_false_r.
  rewrite get_or_create_progress_attempts.
  destruct (get_or_create_progress db player (date_of now)) as [progress db1] eqn:Hgc.
  destruct (get_or_create_progress_key _ _ _ Hgc) as (Hpp & Hpd & _ & Hmem).
  cbn [fst snd].
  set (progress' := if (next_attempt =? 1)%Z then _ else _).
  assert (Hsame : same_progress (progress_player progress') (date progress') progress'
                  = true).
  { unfold progress'. destruct (next_attempt =? 1)%Z; apply same_progress_refl. }
  assert (Hkey : progress_player progress' = player /\ date progress' = date_of now).
  { unfold progress'. destruct (next_attempt =? 1)%Z; cbn [progress_player date]; auto. }
  assert (Htotal : total_puzzles_done progress' = (total_puzzles_done progress + 1)%Z).
  { unfold progress', total_puzzles_done.
    destruct (next_attempt =? 1)%Z; cbn [new_puzzles_seen reviews_done]; lia. }
  assert (Hfound : forall dbx : Database,
             UserDailyProgress_objects dbx
             = UserDailyProgress_objects (save_progress
                 (set_PuzzleAttempt_objects db1 (PuzzleAttempt_objects dbx)) progress') ->
             exists p : UserDailyProgress,
               find (same_progress player (date_of now)) (UserDailyProgress_objects dbx)
               = Some p /\
               total_puzzles_done p = (total_puzzles_done progress + 1)%Z).
  { intros dbx ->. exists progress'. split; [| exact Htotal].
    cbn [save_progress set_UserDailyProgress_objects UserDailyProgress_objects
         set_PuzzleAttempt_objects].
    destruct Hkey as [Hk1 Hk2]. rewrite <- Hk1 at 1. rewrite <- Hk2 at 1.
    apply find_save. exact Hsame. }
  change (FSRSMemory_objects (save_progress (set_PuzzleAttempt_objects db1 _) progress'))
    with (FSRSMemory_objects db1).
  rewrite Hmem.
  destruct (find _ (FSRSMemory_objects db)) as [memory |] eqn:Hfind.
  - destruct (FSRSMemoryService.update_memory now memory _ _ _ _) as [m' | e];
      [destruct (models.calculate_retrievability now m') |]; cbn [fst snd];
      (split; [| split]);
      try (eexists; split; [reflexivity |]; split; [reflexivity |];
           intros r ->; reflexivity);
      try (apply Hfound; reflexivity);
      discriminate.
  - rewrite update_memory_first_review by reflexivity. cbv beta iota zeta.
    rewrite retrievability_after_update;
      [| reflexivity | cbn [stability]; apply Rgt_not_eq, initial_stability_positive].
    cbn [fst snd]. split; [| split].
    + eexists. split; [reflexivity |]. split; [reflexivity |]. intros r ->. reflexivity.
    + apply Hfound. reflexivity.
    + intros _ r Hr. rewrite Hr. eexists. split; [reflexivity |].
      cbn [body_rating fsrs_status]. split; [reflexivity |]. split.
      * unfold default_memory. now rewrite update_memory_first_review by reflexivity.
      * cbn [save_memory set_FSRSMemory_objects FSRSMemory_objects]. apply in_save.
Qed.

End Attempt.

(** Negative tries are refused only by a database that checks the column:
    the [IntegrityError] of [attempt.save()] is reported as a server error
    and nothing was saved before it. *)
Lemma post_negative_tries (db : Database) (now : datetime)
    (attempt_uuid memory_uuid : string) (request : AttemptRequest)
    (pid uname : string) (puzzle : Puzzle) (player : string) :
  req_puzzle_id request = Some pid ->
  req_player_username request = Some uname ->
  pid <> ""%string ->
  uname <> ""%string ->
  get_puzzle db pid = Some puzzle ->
  get_player db uname = Some player ->
  (req_tries_count request < 0)%Z ->
  FSRSPuzzleAttemptView_post true db now attempt_uuid memory_uuid request
  = (Error HTTP_500_INTERNAL_SERVER_ERROR (ServerError IntegrityError), db).
Proof.
  intros Hpid Huname Hpid_ne Huname_ne Hpuzzle Hplayer Htries.
  unfold FSRSPuzzleAttemptView_post. rewrite Hpid, Huname. cbn [is_empty].
  apply String.eqb_neq in Hpid_ne, Huname_ne.
  rewrite Hpid_ne, Huname_ne. cbn [orb]. rewrite Hpuzzle, Hplayer.
  unfold save_attempt. cbn [attempt_number models.tries_count andb].
  apply Z.ltb_lt in Htries. rewrite Htries, orb_true_r. reflexivity.
Qed.

(** C2, as amended: a submission for an existing puzzle and player with
    tries that are not negative and an explicit rating that is none of 1, 2,
    3, 4 is not rejected.  The attempt is added to the log with that rating
    and one counter of the day goes up by one; for a pair without a memory
    the response is 201 and the memory that is stored has the stability 1.0
    of the default. *)
Theorem post_accepts_unknown_rating (enforces_positive : bool) (db : Database)
    (now : datetime) (attempt_uuid memory_uuid : string) (request : AttemptRequest)
    (pid uname : string) (puzzle : Puzzle) (player : string) (r : Z) :
  req_puzzle_id request = Some pid ->
  req_player_username request = Some uname ->
  pid <> ""%string ->
  uname <> ""%string ->
  get_puzzle db pid = Some puzzle ->
  get_player db uname = Some player ->
  (0 <= req_tries_count request)%Z ->
  Forall (fun a => (0 <= attempt_number a)%Z) (PuzzleAttempt_objects db) ->
  req_rating request = Some r ->
  ~ In r [1; 2; 3; 4]%Z ->
  let result :=
    FSRSPuzzleAttemptView_post enforces_positive db now attempt_uuid memory_uuid request in
  let before := fst (get_or_create_progress db player (date_of now)) in
  (exists attempt : PuzzleAttempt,
     PuzzleAttempt_objects (snd result) = PuzzleAttempt_objects db ++ [attempt] /\
     models.rating attempt = Some r) /\
  (exists progress : UserDailyProgress,
     find (same_progress player (date_of now)) (UserDailyProgress_objects (snd result))
     = Some progress /\
     total_puzzles_done progress = (total_puzzles_done before + 1)%Z) /\
  (find (fun m => String.eqb (puzzle_id m) (puzzle_pk puzzle)
                  && String.eqb (player_username m) player)
     (FSRSMemory_objects db) = None ->
   exists body : AttemptBody,
     fst result = Data HTTP_201_CREATED body /\
     body_rating body = r /\
     stability (fsrs_status body) = 1.0 /\
     In (fsrs_status body) (FSRSMemory_objects (snd result))).
Proof.
  intros Hpid Huname Hpid_ne Huname_ne Hpuzzle Hplayer Htries Hnumbers Hrating Hout.
  destruct (post_effects enforces_positive db now attempt_uuid memory_uuid request
              Hpid Huname Hpid_ne Huname_ne Hpuzzle Hplayer Htries Hnumbers)
    as (Hlog & Hquota & Hmemory).
  cbv zeta. split; [| split].
  - destruct Hlog as (attempt & Happend & _ & Hr). exists attempt.
    split; [exact Happend | exact (Hr r Hrating)].
  - exact Hquota.
  - intros Hnone. destruct (Hmemory Hnone r Hrating) as (body & Hresp & Hbr & Hupd & Hin).
    exists body. repeat split; try assumption.
    rewrite update_memory_first_review in Hupd by reflexivity. cbv zeta in Hupd.
    injection Hupd as <-. cbn [stability]. apply get_default. exact Hout.
Qed.

Lemma post_accepts_unknown_rating_witness :
  let result :=
    FSRSPuzzleAttemptView_post true fresh_db 0 "a-new" "m-new" request_rating_7 in
  (exists attempt : PuzzleAttempt,
     PuzzleAttempt_objects (snd result) = [] ++ [attempt] /\
     models.rating attempt = Some 7%Z) /\
  (exists body : AttemptBody,
     fst result = Data HTTP_201_CREATED body /\ stability (fsrs_status body) = 1.0).
Proof.
  destruct (post_accepts_unknown_rating true fresh_db 0 "a-new" "m-new" request_rating_7
              (pid := "p1") (uname := "alice") (puzzle := puzzle1) (player := "alice")
              (r := 7%Z))
    as (Hlog & _ & Hmemory).
  - reflexivity.
  - reflexivity.
  - discriminate.
  - discriminate.
  - reflexivity.
  - reflexivity.
  - cbn. lia.
  - constructor.
  - reflexivity.
  - cbn. lia.
  - split; [exact Hlog |].
    destruct (Hmemory eq_refl) as (body & Hresp & _ & Hs & _).
    exists body. split; assumption.
Defined.

(** C2, as stated, fails: the submission [request_rating_7], whose rating 7
    is outside 1..4, is answered with status 201, not with an error, and the
    database is not the one before: the attempt log has a new row. *)
Lemma invalid_rating_is_accepted :
  exists (body : AttemptBody) (db' : Database),
    FSRSPuzzleAttemptView_post true fresh_db 0 "a-new" "m-new" request_rating_7
    = (Data HTTP_201_CREATED body, db') /\
    body_rating body = 7%Z /\
    PuzzleAttempt_objects fresh_db = [] /\
    List.length (PuzzleAttempt_objects db') = 1%nat /\
    db' <> fresh_db.
Proof.
  destruct (post_effects true fresh_db 0 "a-new" "m-new" request_rating_7
              (pid := "p1") (uname := "alice") (puzzle := puzzle1) (player := "alice"))
    as (Hlog & _ & Hmemory);
    try reflexivity; try discriminate; try (cbn; lia); try constructor.
  destruct (Hmemory eq_refl 7%Z eq_refl) as (body & Hresp & Hbr & _).
  destruct Hlog as (attempt & Happend & _).
  destruct (FSRSPuzzleAttemptView_post true fresh_db 0 "a-new" "m-new" request_rating_7)
    as [response db'].
  cbn [fst snd] in *. subst response.
  exists body, db'. split; [reflexivity |]. split; [exact Hbr |]. split; [reflexivity |].
  split.
  - rewrite Happend. reflexivity.
  - intros ->. discriminate Happend.
Qed.

(** ** The theorems at concrete inputs *)

Lemma determine_rating_priority_witness :
  solved attempt1 = true /\ (tries_count attempt1 <= 0)%Z /\ hint_used attempt1 = false /\
  determine_rating attempt1 = 4%Z.
Proof.
  destruct (determine_rating_priority attempt1) as (_ & _ & _ & Heasy & _).
  assert (Hs : solved attempt1 = true) by reflexivity.
  assert (Ht : (tries_count attempt1 <= 0)%Z) by (cbn; lia).
  assert (Hh : hint_used attempt1 = false) by reflexivity.
  split; [exact Hs |]. split; [exact Ht |]. split; [exact Hh |].
  exact (Heasy Hs Ht Hh).
Defined.


Lemma unknown_rating_defaults_witness :
  ~ In 7%Z [1; 2; 3; 4]%Z /\
  stability reviewed_memory <> 0 /\
  0 <= day 1 /\
  exists m' : FSRSMemory,
    FSRSMemoryService.update_memory (day 1) reviewed_memory 7 true 0 false = Ok m' /\
    stability m' =
      stability reviewed_memory
      * (1.5 * Rmin 2.0 (sqrt ((day 1 - 0) / (24 * 3600)
                               / Rmax (stability reviewed_memory) 0.1))).
Proof.
  assert (Hout : ~ In 7%Z [1; 2; 3; 4]%Z) by (cbn; lia).
  assert (Hs : stability reviewed_memory <> 0) by (cbn; lra).
  assert (Hnow : 0 <= day 1) by (unfold day; lra).
  split; [exact Hout |]. split; [exact Hs |]. split; [exact Hnow |].
  destruct (unknown_rating_defaults (day 1) reviewed_memory true 0 false Hout Hs Hnow)
    as (m' & Hupd & _ & Hstab & _).
  exists m'. split; assumption.
Defined.

Lemma interval_inverts_retrievability_witness :
  0 < 3 /\ 0 < 0.9 < 1 /\
  (i <- FSRSMemoryService.calculate_next_interval 3 0.9 ;;
   FSRSMemoryService.calculate_retrievability 3 i) = Ok 0.9.
Proof.
  assert (Hs : 0 < 3) by lra.
  assert (Hr : 0 < 0.9 < 1) by lra.
  split; [exact Hs |]. split; [exact Hr |].
  exact (proj1 (interval_inverts_retrievability Hs Hr)).
Defined.

(** The two memories of [due_db] with other stabilities, which put their
    retrievabilities in the other order: the review of the daily mix is the
    same. *)
Lemma daily_reviews_are_due_witness :
  (0 <= 1)%Z /\
  len (combined_reviews (due_puzzles_of due_db (day 1) "alice") 1)
  = Z.min (len (due_puzzles_of due_db (day 1) "alice")) 1 /\
  combined_reviews
    (due_puzzles_of
       (set_FSRSMemory_objects due_db
          [set_stability memory1 0.001; set_stability memory2 1000])
       (day 1) "alice") 1
  = combined_reviews (due_puzzles_of due_db (day 1) "alice") 1.
Proof.
  assert (Htotal : (0 <= 1)%Z) by lia.
  split; [exact Htotal |].
  destruct (@daily_reviews_are_due due_db (day 1) "alice" 1 Htotal) as (Hlen & _ & Hsame).
  split; [exact Hlen |].
  exact (proj1 (Hsame [set_stability memory1 0.001; set_stability memory2 1000] eq_refl)).
Defined.

(** The exact operations, taken as rounded within [/ 2 ^ 53]. *)
Lemma round_trip_within_tolerance_witness :
  let u := / 2 ^ 53 in
  let eta := (1 + u) * (1 + u) * (1 + u) - 1 in
  exists r' : R,
    (i <- rounded.calculate_next_interval Rmult ln 3 0.9 ;;
     rounded.calculate_retrievability Rdiv exp 3 i) = Ok r' /\
    0.9 * exp (eta * ln 0.9) * (1 - u) <= r' <= 0.9 * exp (- eta * ln 0.9) * (1 + u).
Proof.
  intros u eta.
  assert (Hu : 0 <= u < 1).
  { unfold u. assert (H : 1 < 2 ^ 53) by (apply Rlt_pow_R1; [lra | lia]).
    split.
    - apply Rlt_le, Rinv_0_lt_compat. lra.
    - rewrite <- Rinv_1. apply Rinv_lt_contravar; lra. }
  assert (Hs : 0 < 3) by lra.
  assert (Hr : 0 < 0.9 < 1) by lra.
  destruct (@round_trip_within_tolerance Rmult Rdiv ln exp u 3 0.9 Hu Hs Hr
              (within_exact _ (proj1 Hu)) (within_exact _ (proj1 Hu))
              (within_exact _ (proj1 Hu)) (within_exact _ (proj1 Hu)))
    as (r' & Hrun & Hbounds & _).
  exists r'. split; [exact Hrun | exact Hbounds].
Defined.

(** ** The singled-out inputs in binary64 *)

Module binary64_runs.

Import Floats.
Set Warnings "-inexact-float".

(** The first review with rating 3: the float [2.0 + (-0.05)] is the float
    [1.95]. *)
Example first_review_good_binary64 :
  binary64.update_difficulty 2.0%float (-0.05)%float 0 false = 1.95%float.
Proof. reflexivity. Qed.

(** The later review at the instant of the last one: the float product is
    the float zero. *)
Example same_instant_binary64 :
  binary64.update_stability 3.0%float 1.5%float 0%float = 0%float.
Proof. reflexivity. Qed.

(** An early review with rating 4 of a memory whose stability is the least
    float above zero: the float product is that float, where the exact
    product is below it. *)
Example early_success_least_float :
  binary64.update_stability 0x1p-1074%float 2.0%float 0.02%float = 0x1p-1074%float.
Proof. reflexivity. Qed.

Set Warnings "+inexact-float".

End binary64_runs.

(** ** The round trip in binary64 *)

Module binary64_round_trip.

Import Floats.
Set Warnings "-inexact-float".

(** C7, as stated, fails: for the stability [0x1p-1074], the least float
    above zero, and the retention 0.9, the interval [-stability * log 0.9]
    underflows to 0.0, the quotient [-0.0 / stability] is [-0.0], and the
    retrievability after the interval is [exp (-0.0) = 1.0], not 0.9.  The
    library functions enter with their values at the two arguments: the
    float nearest to [ln 0.9], and 1.0. *)
Lemma round_trip_lost_to_underflow :
  PrimFloat.ltb 0 0x1p-1074 = true /\
  PrimFloat.ltb 0 0.9 = true /\ PrimFloat.ltb 0.9 1 = true /\
  (forall log exp : float -> float,
     log 0.9%float = (-0.10536051565782628)%float ->
     exp (-0)%float = 1%float ->
     binary64.calculate_next_interval log 0x1p-1074 0.9 = 0%float /\
     binary64.calculate_retrievability exp 0x1p-1074
       (binary64.calculate_next_interval log 0x1p-1074 0.9) = 1%float) /\
  PrimFloat.eqb 1 0.9 = false.
Proof.
  split; [reflexivity |]. split; [reflexivity |]. split; [reflexivity |].
  split; [| reflexivity].
  intros log exp Hlog Hexp.
  unfold binary64.calculate_next_interval, binary64.calculate_retrievability.
  rewrite Hlog. split; [reflexivity | exact Hexp].
Qed.

Set Warnings "+inexact-float".

End binary64_round_trip.

(** * Further properties of the code *)

(** ** The Elo thresholds *)

Import commands.

Lemma floordiv_ok (a b : Z) : b <> 0%Z -> floordiv a b = Ok (a / b)%Z.
Proof.
  intros Hb. unfold floordiv. apply Z.eqb_neq in Hb. now rewrite Hb.
Qed.

(** The threshold of a rating is monotone in the rating, for a positive and
    for a negative interval. *)
Lemma threshold_monotone (a b t : Z) :
  t <> 0%Z -> (a <= b)%Z -> (a / t * t <= b / t * t)%Z.
Proof.
  intros Ht Hab. destruct (Z.lt_trichotomy t 0) as [Hneg | [Hz | Hpos]]; [| lia |].
  - assert (H : (b / t <= a / t)%Z).
    { rewrite <- (Z.div_opp_opp a t), <- (Z.div_opp_opp b t) by lia.
      apply Z.div_le_mono; lia. }
    nia.
  - assert (H : (a / t <= b / t)%Z) by (apply Z.div_le_mono; lia). nia.
Qed.

Lemma threshold_band (a t : Z) :
  (0 < t)%Z -> (a / t * t <= a < a / t * t + t)%Z.
Proof.
  intros Ht. pose proof (Z.mul_div_le a t Ht). pose proof (Z.mul_succ_div_gt a t Ht). lia.
Qed.

(** One step of the loop of [check_thresholds], for an interval that is not
    zero. *)
Lemma check_thresholds_cons (last : ratings) (g : string) (c : Z) (items : ratings)
    (t : Z) :
  t <> 0%Z ->
  notify_elo_thresholds.check_thresholds last ((g, c) :: items) t =
  rest <- notify_elo_thresholds.check_thresholds last items t ;;
  let l := rating_get last g 0 in
  if (c =? 0)%Z || (l =? 0)%Z || (l / t * t =? c / t * t)%Z then Ok rest
  else Ok (notify_elo_thresholds.mkCrossing g l c (l / t * t) (c / t * t)
             (if (c / t * t >? l / t * t)%Z then "increased" else "decreased")%string
           :: rest).
Proof.
  intros Ht. cbn [notify_elo_thresholds.check_thresholds]. cbv zeta.
  destruct (c =? 0)%Z; cbn [orb].
  - destruct (notify_elo_thresholds.check_thresholds last items t); reflexivity.
  - destruct (rating_get last g 0 =? 0)%Z; cbn [orb].
    + destruct (notify_elo_thresholds.check_thresholds last items t); reflexivity.
    + rewrite !floordiv_ok by exact Ht. cbn [bind].
      destruct (notify_elo_thresholds.check_thresholds last items t); cbn [bind];
        [| reflexivity].
      destruct (rating_get last g 0 / t * t =? c / t * t)%Z; reflexivity.
Qed.

Lemma check_thresholds_completes (last current : ratings) (t : Z) :
  t <> 0%Z ->
  exists l, notify_elo_thresholds.check_thresholds last current t = Ok l.
Proof.
  intros Ht. induction current as [| [g c] items [rest IH]].
  - now exists [].
  - rewrite check_thresholds_cons by exact Ht. rewrite IH. cbn [bind]. cbv zeta.
    destruct (_ || _); eexists; reflexivity.
Qed.

(** X1: with a positive interval, every crossing that [check_thresholds]
    reports is between two ratings of different bands: each threshold is
    the multiple of the interval at or below its rating, less than one
    interval away, the two thresholds differ, the ratings are the recorded
    and the current one of a game type and neither is zero; and the
    direction is "increased" exactly when the current rating is above the
    recorded one. *)
Theorem check_thresholds_sound (last current : ratings) (t : Z)
    (crossings : list notify_elo_thresholds.Crossing) :
  (0 < t)%Z ->
  notify_elo_thresholds.check_thresholds last current t = Ok crossings ->
  Forall
    (fun x =>
       let l := notify_elo_thresholds.last_rating x in
       let c := notify_elo_thresholds.current_rating x in
       let lt := notify_elo_thresholds.last_threshold x in
       let ct := notify_elo_thresholds.current_threshold x in
       In (notify_elo_thresholds.game_type x, c) current /\
       l = rating_get last (notify_elo_thresholds.game_type x) 0 /\
       l <> 0 /\ c <> 0 /\
       (lt <= l < lt + t) /\ (ct <= c < ct + t) /\
       (t | lt) /\ (t | ct) /\ lt <> ct /\
       (notify_elo_thresholds.direction x = "increased"%string <-> l < c) /\
       (notify_elo_thresholds.direction x = "decreased"%string <-> c < l))%Z
    crossings.
Proof.
  intros Ht. assert (Hne : t <> 0%Z) by lia.
  revert crossings. induction current as [| [g c] items IH]; intros crossings.
  - intros [= <-]. constructor.
  - rewrite check_thresholds_cons by exact Hne.
    destruct (notify_elo_thresholds.check_thresholds last items t) as [rest |];
      [| discriminate].
    cbn [bind]. cbv zeta.
    assert (Hrest : Forall
              (fun x =>
                 let l := notify_elo_thresholds.last_rating x in
                 let c0 := notify_elo_thresholds.current_rating x in
                 let lt := notify_elo_thresholds.last_threshold x in
                 let ct := notify_elo_thresholds.current_threshold x in
                 In (notify_elo_thresholds.game_type x, c0) ((g, c) :: items) /\
                 l = rating_get last (notify_elo_thresholds.game_type x) 0 /\
                 l <> 0 /\ c0 <> 0 /\
                 (lt <= l < lt + t) /\ (ct <= c0 < ct + t) /\
                 (t | lt) /\ (t | ct) /\ lt <> ct /\
                 (notify_elo_thresholds.direction x = "increased"%string <-> l < c0) /\
                 (notify_elo_thresholds.direction x = "decreased"%string <-> c0 < l))%Z
              rest).
    { eapply Forall_impl; [| apply IH; reflexivity].
      cbv zeta. intros x (Hin & Hx). split; [now right | exact Hx]. }
    destruct (Z.eqb_spec c 0) as [Hc | Hc]; cbn [orb]; [intros [= <-]; exact Hrest |].
    destruct (Z.eqb_spec (rating_get last g 0) 0) as [Hl | Hl]; cbn [orb];
      [intros [= <-]; exact Hrest |].
    destruct (Z.eqb_spec (rating_get last g 0 / t * t) (c / t * t)) as [Hb | Hb];
      intros [= <-]; [exact Hrest |].
    constructor; [| exact Hrest].
    cbn [notify_elo_thresholds.last_rating notify_elo_thresholds.current_rating
         notify_elo_thresholds.last_threshold notify_elo_thresholds.current_threshold
         notify_elo_thresholds.game_type notify_elo_thresholds.direction].
    set (l := rating_get last g 0) in *.
    pose proof (threshold_band l Ht) as Hbl. pose proof (threshold_band c Ht) as Hbc.
    assert (Hmono1 : (l <= c -> l / t * t <= c / t * t)%Z)
      by (apply threshold_monotone; exact Hne).
    assert (Hmono2 : (c <= l -> c / t * t <= l / t * t)%Z)
      by (apply threshold_monotone; exact Hne).
    split; [now left |]. split; [reflexivity |].
    split; [exact Hl |]. split; [exact Hc |].
    split; [exact Hbl |]. split; [exact Hbc |].
    split; [exists (l / t)%Z; reflexivity |].
    split; [exists (c / t)%Z; reflexivity |].
    split; [exact Hb |].
    destruct (Z.gtb_spec (c / t * t) (l / t * t)) as [Hgt | Hle]; split; split;
      try discriminate; try reflexivity; intros; lia.
Qed.

(** X2: with a positive interval, a game type whose current rating is at
    least one interval away from the recorded one (neither being zero) is
    always reported, with both ratings and the direction of the change. *)
Theorem check_thresholds_reports_jump (last current : ratings) (t : Z)
    (g : string) (c : Z) :
  (0 < t)%Z ->
  In (g, c) current ->
  c <> 0%Z ->
  rating_get last g 0 <> 0%Z ->
  (t <= Z.abs (c - rating_get last g 0))%Z ->
  exists crossings : list notify_elo_thresholds.Crossing,
    notify_elo_thresholds.check_thresholds last current t = Ok crossings /\
    exists x : notify_elo_thresholds.Crossing,
      In x crossings /\
      notify_elo_thresholds.game_type x = g /\
      notify_elo_thresholds.last_rating x = rating_get last g 0 /\
      notify_elo_thresholds.current_rating x = c /\
      notify_elo_thresholds.direction x
      = (if (rating_get last g 0 <? c)%Z then "increased" else "decreased")%string.
Proof.
  intros Ht Hin Hc Hl Hjump. assert (Hne : t <> 0%Z) by lia.
  induction current as [| [g' c'] items IH]; [contradiction |].
  rewrite check_thresholds_cons by exact Hne.
  destruct (check_thresholds_completes last items Hne) as [rest Hrest].
  rewrite Hrest. cbn [bind]. cbv zeta.
  destruct Hin as [[= -> ->] | Hin].
  - set (l := rating_get last g 0) in *.
    apply Z.eqb_neq in Hc, Hl. rewrite Hc, Hl. cbn [orb].
    pose proof (threshold_band l Ht) as Hbl. pose proof (threshold_band c Ht) as Hbc.
    destruct (Z.eqb_spec (l / t * t) (c / t * t)) as [Hb | Hb]; [lia |].
    eexists. split; [reflexivity |]. eexists. split; [now left |].
    cbn [notify_elo_thresholds.game_type notify_elo_thresholds.last_rating
         notify_elo_thresholds.current_rating notify_elo_thresholds.direction].
    repeat split.
    pose proof (@threshold_monotone l c t Hne) as Hm1.
    pose proof (@threshold_monotone c l t Hne) as Hm2.
    destruct (Z.gtb_spec (c / t * t) (l / t * t)), (Z.ltb_spec l c);
      try reflexivity; lia.
  - destruct (IH Hin) as (crossings & Hcr & x & Hx & Hfields).
    rewrite Hrest in Hcr. injection Hcr as <-.
    destruct (_ || _); eexists; (split; [reflexivity |]); exists x;
      (split; [| exact Hfields]); [exact Hx | now right].
Qed.

Lemma check_thresholds_reports_jump_witness :
  (0 < 50)%Z /\ In ("chess_blitz"%string, 1510%Z) [("chess_blitz"%string, 1510%Z)] /\
  exists crossings : list notify_elo_thresholds.Crossing,
    notify_elo_thresholds.check_thresholds [("chess_blitz"%string, 1450%Z)]
      [("chess_blitz"%string, 1510%Z)] 50 = Ok crossings /\
    exists x : notify_elo_thresholds.Crossing,
      In x crossings /\
      notify_elo_thresholds.game_type x = "chess_blitz"%string /\
      notify_elo_thresholds.last_rating x = 1450%Z /\
      notify_elo_thresholds.current_rating x = 1510%Z /\
      notify_elo_thresholds.direction x = "increased"%string.
Proof.
  assert (Ht : (0 < 50)%Z) by lia.
  assert (Hin : In ("chess_blitz"%string, 1510%Z) [("chess_blitz"%string, 1510%Z)])
    by (now left).
  split; [exact Ht |]. split; [exact Hin |].
  apply (@check_thresholds_reports_jump [("chess_blitz"%string, 1450%Z)]
           [("chess_blitz"%string, 1510%Z)] 50 "chess_blitz" 1510 Ht Hin).
  - discriminate.
  - discriminate.
  - vm_compute. discriminate.
Defined.

Lemma check_thresholds_sound_witness :
  (0 < 50)%Z /\
  Forall
    (fun x =>
       notify_elo_thresholds.last_threshold x <> notify_elo_thresholds.current_threshold x)
    [notify_elo_thresholds.mkCrossing "chess_blitz" 1450 1510 1450 1500 "increased"].
Proof.
  assert (Ht : (0 < 50)%Z) by lia.
  split; [exact Ht |].
  eapply Forall_impl;
    [| exact (@check_thresholds_sound [("chess_blitz"%string, 1450%Z)]
                [("chess_blitz"%string, 1510%Z)] 50 _ Ht eq_refl)].
  cbv zeta. intros x H. apply H.
Defined.

(** X3: with the interval zero, [check_thresholds] raises
    [ZeroDivisionError] as soon as one game type has a current and a
    recorded rating that are not zero. *)
Theorem check_thresholds_zero_interval (last current : ratings) (g : string) (c : Z) :
  In (g, c) current ->
  c <> 0%Z ->
  rating_get last g 0 <> 0%Z ->
  notify_elo_thresholds.check_thresholds last current 0 = Raise ZeroDivisionError.
Proof.
  intros Hin Hc Hl. induction current as [| [g' c'] items IH]; [contradiction |].
  cbn [notify_elo_thresholds.check_thresholds].
  destruct (Z.eqb_spec c' 0) as [Hc' | Hc'].
  - apply IH. destruct Hin as [[= <- <-] | Hin]; [contradiction | exact Hin].
  - destruct (Z.eqb_spec (rating_get last g' 0) 0) as [Hl' | Hl'].
    + apply IH. destruct Hin as [[= <- <-] | Hin]; [contradiction | exact Hin].
    + reflexivity.
Qed.

Lemma check_thresholds_zero_interval_witness :
  In ("chess_rapid"%string, 1200%Z) [("chess_rapid"%string, 1200%Z)] /\
  notify_elo_thresholds.check_thresholds [("chess_rapid"%string, 1180%Z)]
    [("chess_rapid"%string, 1200%Z)] 0 = Raise ZeroDivisionError.
Proof.
  assert (Hin : In ("chess_rapid"%string, 1200%Z) [("chess_rapid"%string, 1200%Z)])
    by (now left).
  split; [exact Hin |].
  apply (@check_thresholds_zero_interval [("chess_rapid"%string, 1180%Z)]
           [("chess_rapid"%string, 1200%Z)] "chess_rapid" 1200 Hin);
    discriminate.
Defined.

(** X4: when [have_ratings_changed] answers no, [check_thresholds] has
    nothing to report, for every interval but zero: the players that the
    command skips as unchanged have no crossing. *)
Theorem unchanged_ratings_cross_nothing (last current : ratings) (t : Z) :
  t <> 0%Z ->
  notify_elo_thresholds.have_ratings_changed last current = false ->
  notify_elo_thresholds.check_thresholds last current t = Ok [].
Proof.
  intros Ht Hsame.
  assert (Hall : forall g c, In (g, c) current -> rating_get last g 0 = c).
  { unfold notify_elo_thresholds.have_ratings_changed in Hsame.
    destruct last as [| item last']; [discriminate |].
    intros g c Hin.
    destruct (Z.eqb_spec (rating_get (item :: last') g 0) c) as [E | N]; [exact E |].
    assert (Hex : existsb
                    (fun item0 : string * Z =>
                       let '(game_type, current_rating) := item0 in
                       negb (rating_get (item :: last') game_type 0 =? current_rating)%Z)
                    current = true).
    { apply existsb_exists. exists (g, c). split; [exact Hin |].
      apply Z.eqb_neq in N. now rewrite N. }
    rewrite Hex in Hsame. discriminate. }
  clear Hsame. induction current as [| [g c] items IH]; [reflexivity |].
  rewrite check_thresholds_cons by exact Ht.
  rewrite IH by (intros g' c' H; apply Hall; now right). cbn [bind]. cbv zeta.
  rewrite (Hall g c) by (now left). rewrite Z.eqb_refl, orb_true_r. reflexivity.
Qed.

Lemma unchanged_ratings_cross_nothing_witness :
  50%Z <> 0%Z /\
  notify_elo_thresholds.have_ratings_changed [("chess_blitz"%string, 1450%Z)]
    [("chess_blitz"%string, 1450%Z)] = false /\
  notify_elo_thresholds.check_thresholds [("chess_blitz"%string, 1450%Z)]
    [("chess_blitz"%string, 1450%Z)] 50 = Ok [].
Proof.
  assert (Ht : 50%Z <> 0%Z) by discriminate.
  assert (Hsame : notify_elo_thresholds.have_ratings_changed
                    [("chess_blitz"%string, 1450%Z)] [("chess_blitz"%string, 1450%Z)]
                  = false) by reflexivity.
  split; [exact Ht |]. split; [exact Hsame |].
  exact (@unchanged_ratings_cross_nothing [("chess_blitz"%string, 1450%Z)]
           [("chess_blitz"%string, 1450%Z)] 50 Ht Hsame).
Defined.

(** X5: a player without recorded ratings counts as changed and is never
    reported, whatever the current ratings and the interval are, also the
    interval zero: the first observation only records the ratings. *)
Theorem first_observation_reports_nothing (current : ratings) (t : Z) :
  notify_elo_thresholds.have_ratings_changed [] current = true /\
  notify_elo_thresholds.check_thresholds [] current t = Ok [].
Proof.
  split; [reflexivity |].
  induction current as [| [g c] items IH]; [reflexivity |].
  cbn [notify_elo_thresholds.check_thresholds].
  destruct (c =? 0)%Z; [exact IH |]. cbn. exact IH.
Qed.

(** X6: for every interval but zero the two commands find the same
    crossings: [check_historical_thresholds] reports what [check_thresholds]
    reports, game type by game type, with the same ratings, thresholds and
    direction, though the one reads the direction off the ratings and the
    other off the thresholds. *)
Theorem historical_check_agrees (historical current : ratings) (t : Z) :
  t <> 0%Z ->
  exists crossings : list notify_elo_thresholds.Crossing,
    notify_elo_thresholds.check_thresholds historical current t = Ok crossings /\
    check_missed_thresholds.check_historical_thresholds historical current t
    = Ok (map (fun x =>
                 check_missed_thresholds.mkCrossing
                   (notify_elo_thresholds.game_type x)
                   (notify_elo_thresholds.last_rating x)
                   (notify_elo_thresholds.current_rating x)
                   (notify_elo_thresholds.last_threshold x)
                   (notify_elo_thresholds.current_threshold x)
                   (notify_elo_thresholds.direction x))
            crossings).
Proof.
  intros Ht. induction current as [| [g c] items (rest & IH1 & IH2)].
  - exists []. split; reflexivity.
  - rewrite check_thresholds_cons by exact Ht. rewrite IH1. cbn [bind]. cbv zeta.
    cbn [check_missed_thresholds.check_historical_thresholds].
    unfold rating_get. destruct (rating_lookup historical g) as [h |].
    + destruct (Z.eqb_spec c 0) as [Hc | Hc]; cbn [orb].
      { rewrite orb_true_r. cbn [orb]. exists rest. split; [reflexivity | exact IH2]. }
      destruct (Z.eqb_spec h 0) as [Hh | Hh]; cbn [orb].
      { exists rest. split; [reflexivity | exact IH2]. }
      pose proof (@threshold_monotone h c t Ht) as Hm1.
      pose proof (@threshold_monotone c h t Ht) as Hm2.
      destruct (Z.eqb_spec h c) as [Hhc | Hhc].
      { subst h. rewrite Z.eqb_refl. exists rest. split; [reflexivity | exact IH2]. }
      rewrite !floordiv_ok by exact Ht. cbn [bind]. rewrite IH2. cbn [bind].
      destruct (Z.eqb_spec (h / t * t) (c / t * t)) as [Hb | Hb]; cbn [negb].
      { exists rest. split; reflexivity. }
      eexists. split; [reflexivity |]. cbn [map].
      cbn [notify_elo_thresholds.game_type notify_elo_thresholds.last_rating
           notify_elo_thresholds.current_rating notify_elo_thresholds.last_threshold
           notify_elo_thresholds.current_threshold notify_elo_thresholds.direction].
      destruct (Z.gtb_spec (c / t * t) (h / t * t)), (Z.gtb_spec c h);
        try reflexivity; lia.
    + rewrite Z.eqb_refl, orb_true_r. cbn [orb].
      exists rest. split; [reflexivity | exact IH2].
Qed.

Lemma historical_check_agrees_witness :
  50%Z <> 0%Z /\
  exists crossings : list notify_elo_thresholds.Crossing,
    notify_elo_thresholds.check_thresholds [("chess_blitz"%string, 1510%Z)]
      [("chess_blitz"%string, 1450%Z)] 50 = Ok crossings /\
    List.length crossings = 1%nat.
Proof.
  assert (Ht : 50%Z <> 0%Z) by discriminate.
  split; [exact Ht |].
  destruct (@historical_check_agrees [("chess_blitz"%string, 1510%Z)]
              [("chess_blitz"%string, 1450%Z)] 50 Ht) as (crossings & H1 & _).
  exists crossings. split; [exact H1 |].
  cbn in H1. injection H1 as <-. reflexivity.
Defined.

(** ** The update algorithm *)

(** The difficulty that a completed update stores. *)
Lemma update_memory_difficulty (now : datetime) (m m' : FSRSMemory)
    (rating : Z) (sv : bool) (tries : Z) (hint : bool) :
  FSRSMemoryService.update_memory now m rating sv tries hint = Ok m' ->
  difficulty m' = clamped_difficulty (difficulty m) rating tries hint.
Proof.
  destruct (last_review_date m) as [last |] eqn:Hlast.
  - rewrite (update_memory_later_review _ _ _ _ _ _ Hlast). cbv zeta.
    destruct (truediv _ (stability m)); [| discriminate]. cbn [bind].
    match goal with |- (s <- ?c ;; _) = _ -> _ => destruct c as [s' |] end;
      [| discriminate].
    cbn [bind]. intros [= <-]. reflexivity.
  - rewrite (update_memory_first_review _ _ _ _ _ _ Hlast). cbv zeta.
    intros [= <-]. reflexivity.
Qed.

(** The update reads the tries and the hint only for the difficulty. *)
Lemma update_memory_same_difficulty (now : datetime) (m : FSRSMemory)
    (rating : Z) (sv sv' : bool) (tries tries' : Z) (hint hint' : bool) :
  clamped_difficulty (difficulty m) rating tries hint
  = clamped_difficulty (difficulty m) rating tries' hint' ->
  FSRSMemoryService.update_memory now m rating sv tries hint
  = FSRSMemoryService.update_memory now m rating sv' tries' hint'.
Proof.
  intros Hd. destruct (last_review_date m) as [last |] eqn:Hlast.
  - rewrite !(update_memory_later_review _ _ _ _ _ _ Hlast). cbv zeta.
    now rewrite Hd.
  - rewrite !(update_memory_first_review _ _ _ _ _ _ Hlast). cbv zeta.
    now rewrite Hd.
Qed.

(** X7: every completed update stores a difficulty between 1 and 3,
    whatever the difficulty of the memory was before, through the method of
    the service and through the method of the model. *)
Theorem update_clamps_difficulty (now now' : datetime) (m m' : FSRSMemory)
    (rating : Z) (sv : bool) (tries : Z) (hint : bool) :
  FSRSMemoryService.update_memory now m rating sv tries hint = Ok m'
  \/ models.update_memory now now' m rating sv tries hint = Ok m' ->
  1 <= difficulty m' <= 3.
Proof.
  intros H.
  assert (Hupd : FSRSMemoryService.update_memory now m rating sv tries hint = Ok m').
  { destruct H as [H | H]; [exact H |]. now rewrite models_update_memory_agrees in H. }
  rewrite (update_memory_difficulty _ _ _ _ _ _ Hupd).
  unfold clamped_difficulty. cbv zeta. apply clamp_bounds.
Qed.

Lemma update_clamps_difficulty_witness :
  exists m' : FSRSMemory,
    FSRSMemoryService.update_memory (day 3)
      (mkFSRSMemory "m9" "alice" "p1" 9.5 1.0 None None 0 0) 1 false 7 true = Ok m' /\
    1 <= difficulty m' <= 3.
Proof.
  pose proof (@update_memory_first_review (day 3)
                (mkFSRSMemory "m9" "alice" "p1" 9.5 1.0 None None 0 0) 1 false 7 true
                eq_refl) as E.
  cbv zeta in E. eexists. split; [exact E |].
  exact (@update_clamps_difficulty (day 3) (day 3) _ _ 1 false 7 true (or_introl E)).
Defined.

(** X8: the update counts the tries from 0 to 3 only: tries above 3 give
    the result of 3 tries, tries below 0 the result of no try. *)
Theorem update_caps_tries (now : datetime) (m : FSRSMemory)
    (rating : Z) (sv : bool) (tries : Z) (hint : bool) :
  FSRSMemoryService.update_memory now m rating sv tries hint
  = FSRSMemoryService.update_memory now m rating sv (Z.max 0 (Z.min tries 3)) hint.
Proof.
  apply update_memory_same_difficulty. unfold clamped_difficulty. cbv zeta.
  destruct (Z.gtb_spec tries 0) as [Hpos | Hneg];
    destruct (Z.gtb_spec (Z.max 0 (Z.min tries 3)) 0) as [Hpos' | Hneg']; try lia.
  - replace (Z.min (Z.max 0 (Z.min tries 3)) 3) with (Z.min tries 3) by lia.
    reflexivity.
  - reflexivity.
Qed.

Lemma IZR_min_tries_le (a b : Z) : (a <= b)%Z -> IZR (Z.min a 3) <= IZR (Z.min b 3).
Proof.
  intros H. apply IZR_le. lia.
Qed.

Lemma clamp_monotone (x y : R) : x <= y -> Rmax 1.0 (Rmin 3.0 x) <= Rmax 1.0 (Rmin 3.0 y).
Proof.
  intros H. apply Rle_max_compat_l, Rle_min_compat_l, H.
Qed.

(** X9: more tries never lower the difficulty that an update stores, and
    neither does a hint. *)
Theorem update_penalty_monotone (now : datetime) (m m1 m2 : FSRSMemory)
    (rating : Z) (sv : bool) (tries1 tries2 : Z) (hint1 hint2 : bool) :
  (tries1 <= tries2)%Z ->
  (hint1 = true -> hint2 = true) ->
  FSRSMemoryService.update_memory now m rating sv tries1 hint1 = Ok m1 ->
  FSRSMemoryService.update_memory now m rating sv tries2 hint2 = Ok m2 ->
  difficulty m1 <= difficulty m2.
Proof.
  intros Htries Hhint H1 H2.
  rewrite (update_memory_difficulty _ _ _ _ _ _ H1).
  rewrite (update_memory_difficulty _ _ _ _ _ _ H2).
  unfold clamped_difficulty. cbv zeta. apply clamp_monotone.
  assert (H3 : 0 <= IZR (Z.min tries2 3) \/ (tries2 <= 0)%Z).
  { destruct (Z.le_gt_cases tries2 0) as [H | H]; [now right | left].
    apply IZR_le. lia. }
  pose proof (IZR_min_tries_le Htries) as Hmin.
  destruct (Z.gtb_spec tries1 0) as [Hp1 | Hn1];
    destruct (Z.gtb_spec tries2 0) as [Hp2 | Hn2]; try lia;
    destruct hint1, hint2; try (specialize (Hhint eq_refl); discriminate);
    try lra;
    assert (0 <= IZR (Z.min tries2 3)) by (apply IZR_le; lia); lra.
Qed.

Lemma update_penalty_monotone_witness :
  (1 <= 2)%Z /\
  exists m1 m2 : FSRSMemory,
    FSRSMemoryService.update_memory (day 1) reviewed_memory 3 true 1 false = Ok m1 /\
    FSRSMemoryService.update_memory (day 1) reviewed_memory 3 true 2 true = Ok m2 /\
    difficulty m1 <= difficulty m2.
Proof.
  assert (Htries : (1 <= 2)%Z) by lia.
  assert (Hhint : false = true -> true = true) by reflexivity.
  assert (Hs : stability reviewed_memory <> 0) by (cbn; lra).
  assert (Hnow : 0 <= day 1) by (unfold day; lra).
  assert (Hr : 3%Z <> 1%Z) by discriminate.
  split; [exact Htries |].
  pose proof (@update_memory_success (day 1) reviewed_memory 0 3 true 1 false
                eq_refl Hr Hs Hnow) as E1.
  pose proof (@update_memory_success (day 1) reviewed_memory 0 3 true 2 true
                eq_refl Hr Hs Hnow) as E2.
  cbv zeta in E1, E2. eexists. eexists.
  split; [exact E1 |]. split; [exact E2 |].
  exact (@update_penalty_monotone (day 1) reviewed_memory _ _ 3 true 1 2 false true
           Htries Hhint E1 E2).
Defined.

(** X10: for a stability above zero and an elapsed time that is not
    negative, the retrievability is computed without an error and lies
    between 0 and 1, both included; it is 1 at the instant of the review.
    (The bounds are the ones that also hold of a rounded exponential, which
    reaches 0 for a long elapsed time and 1 for a short one.) *)
Theorem retrievability_bounds (s elapsed_days : R) :
  0 < s -> 0 <= elapsed_days ->
  exists r : R,
    FSRSMemoryService.calculate_retrievability s elapsed_days = Ok r /\
    0 <= r <= 1 /\
    (elapsed_days = 0 -> r = 1).
Proof.
  intros Hs He. unfold FSRSMemoryService.calculate_retrievability.
  rewrite truediv_ok by lra. cbn [bind]. unfold math_exp.
  eexists. split; [reflexivity |].
  assert (Hq : - elapsed_days / s <= 0).
  { unfold Rdiv. pose proof (Rinv_0_lt_compat s Hs). nra. }
  split; [split; [apply Rlt_le, exp_pos |] |].
  - rewrite <- exp_0. destruct Hq as [Hlt | Heq].
    + left. apply exp_increasing. exact Hlt.
    + right. now rewrite Heq.
  - intros ->. replace (- 0 / s) with 0 by (field; lra). apply exp_0.
Qed.

Lemma retrievability_bounds_witness :
  0 < 3 /\ 0 <= 2 /\
  exists r : R,
    FSRSMemoryService.calculate_retrievability 3 2 = Ok r /\ 0 <= r <= 1.
Proof.
  assert (Hs : 0 < 3) by lra. assert (He : 0 <= 2) by lra.
  split; [exact Hs |]. split; [exact He |].
  destruct (retrievability_bounds Hs He) as (r & Hr & Hb & _).
  exists r. split; assumption.
Defined.

Lemma get_le (d : dict R) (k : Z) (default bound : R) :
  Forall (fun kv => snd kv <= bound) d -> default <= bound -> get d k default <= bound.
Proof.
  unfold get. intros Hd Hdef.
  induction Hd as [| [k' v] d Hv _ IH]; cbn [lookup].
  - exact Hdef.
  - destruct (k' =? k)%Z; [exact Hv | exact IH].
Qed.

Lemma stability_multiplier_le_2 (rating : Z) :
  get (FSRSMemoryService.stability_multiplier FSRSMemoryService.FSRS_PARAMS) rating 1.5 <= 2.
Proof.
  apply get_le; [| lra].
  cbn [FSRSMemoryService.stability_multiplier FSRSMemoryService.FSRS_PARAMS].
  repeat constructor; cbn [snd]; lra.
Qed.

Lemma sqrt_4 : sqrt 4 = 2.
Proof.
  replace 4 with (2 * 2) by lra. apply sqrt_square. lra.
Qed.

Lemma sqrt_quarter : sqrt (1 / 4) = 1 / 2.
Proof.
  replace (1 / 4) with ((1 / 2) * (1 / 2)) by lra. apply sqrt_square. lra.
Qed.

Section SuccessBranch.

Variables (now : datetime) (m : FSRSMemory) (last : datetime).
Variables (rating : Z) (sv : bool) (tries : Z) (hint : bool).

Hypothesis Hlast : last_review_date m = Some last.
Hypothesis Hrating : rating <> 1%Z.
Hypothesis Hstability : 0 < stability m.
Hypothesis Hnow : last <= now.

Let elapsed_days : R := (now - last) / (24 * 3600).
Let spacing : R := elapsed_days / Rmax (stability m) 0.1.

Lemma spacing_nonneg : 0 <= spacing.
Proof.
  unfold spacing, elapsed_days.
  pose proof (Rinv_0_lt_compat _ (spacing_divisor_positive (stability m))).
  unfold Rdiv. apply Rmult_le_pos; [| lra]. lra.
Qed.

Lemma success_stability :
  exists m' : FSRSMemory,
    FSRSMemoryService.update_memory now m rating sv tries hint = Ok m' /\
    stability m'
    = stability m
      * (get (FSRSMemoryService.stability_multiplier FSRSMemoryService.FSRS_PARAMS)
           rating 1.5
         * Rmin 2.0 (sqrt spacing)).
Proof.
  assert (Hs : stability m <> 0) by lra.
  pose proof (@update_memory_success now m last rating sv tries hint
                Hlast Hrating Hs Hnow) as E.
  cbv zeta in E. eexists. split; [exact E | reflexivity].
Qed.

(** X11: a later review with a rating other than 1 never stores more than
    four times the stability, and never a negative one: the multiplier of
    the rating is at most 2 and the spacing effect is capped at 2. *)
Theorem success_stability_cap :
  exists m' : FSRSMemory,
    FSRSMemoryService.update_memory now m rating sv tries hint = Ok m' /\
    0 <= stability m' <= 4 * stability m.
Proof.
  destruct success_stability as (m' & Hupd & Hs). exists m'. split; [exact Hupd |].
  rewrite Hs.
  pose proof (stability_multiplier_positive rating) as Hpos.
  pose proof (stability_multiplier_le_2 rating) as Hle.
  assert (Hmin : 0 <= Rmin 2.0 (sqrt spacing) <= 2).
  { split; [apply Rmin_glb; [lra | apply sqrt_pos] |].
    eapply Rle_trans; [apply Rmin_l | lra]. }
  set (g := get _ rating 1.5) in *. set (r := Rmin 2.0 (sqrt spacing)) in *.
  assert (Hgr : 0 <= g * r <= 2 * 2).
  { split; [apply Rmult_le_pos; lra | apply Rmult_le_compat; lra]. }
  split; [apply Rmult_le_pos; lra |].
  replace (4 * stability m) with (stability m * (2 * 2)) by ring.
  apply Rmult_le_compat_l; lra.
Qed.

(** X12: once the elapsed time reaches four times [max(stability, 0.1)]
    days the spacing effect is at its cap: the stability that is stored is
    the stability times the multiplier of the rating times 2, however much
    longer the review was delayed. *)
Theorem success_stability_saturates :
  4 * Rmax (stability m) 0.1 <= (now - last) / (24 * 3600) ->
  exists m' : FSRSMemory,
    FSRSMemoryService.update_memory now m rating sv tries hint = Ok m' /\
    stability m'
    = stability m
      * (get (FSRSMemoryService.stability_multiplier FSRSMemoryService.FSRS_PARAMS)
           rating 1.5
         * 2).
Proof.
  intros Hlong. destruct success_stability as (m' & Hupd & Hs).
  exists m'. split; [exact Hupd |]. rewrite Hs. do 2 f_equal.
  assert (Hq : 4 <= spacing).
  { unfold spacing, elapsed_days.
    pose proof (spacing_divisor_positive (stability m)) as Hd.
    apply Rmult_le_reg_r with (r := Rmax (stability m) 0.1); [exact Hd |].
    unfold Rdiv at 1. rewrite Rmult_assoc, Rinv_l by lra. lra. }
  assert (H2 : 2 <= sqrt spacing).
  { rewrite <- sqrt_4. apply sqrt_le_1; lra. }
  rewrite Rmin_left by lra. lra.
Qed.

(** X13: a successful review that comes earlier than a quarter of
    [max(stability, 0.1)] days after the last one never raises the
    stability, whatever its rating: the stability that is stored is at most
    the one before.  (In exact arithmetic it is lower; the float product of
    the least float above zero is that float again, see
    [binary64_runs.early_success_least_float].) *)
Theorem early_success_never_raises_stability :
  (now - last) / (24 * 3600) < Rmax (stability m) 0.1 / 4 ->
  exists m' : FSRSMemory,
    FSRSMemoryService.update_memory now m rating sv tries hint = Ok m' /\
    stability m' <= stability m.
Proof.
  intros Hearly. destruct success_stability as (m' & Hupd & Hs).
  exists m'. split; [exact Hupd |]. rewrite Hs. apply Rlt_le.
  pose proof (stability_multiplier_positive rating) as Hpos.
  pose proof (stability_multiplier_le_2 rating) as Hle.
  pose proof spacing_nonneg as Hq0.
  assert (Hq : spacing < 1 / 4).
  { unfold spacing, elapsed_days.
    pose proof (spacing_divisor_positive (stability m)) as Hd.
    apply Rmult_lt_reg_r with (r := Rmax (stability m) 0.1); [exact Hd |].
    unfold Rdiv at 1. rewrite Rmult_assoc, Rinv_l by lra. lra. }
  assert (Hsq : sqrt spacing < 1 / 2).
  { rewrite <- sqrt_quarter. apply sqrt_lt_1_alt. lra. }
  assert (Hmin : 0 <= Rmin 2.0 (sqrt spacing) < 1 / 2).
  { split; [apply Rmin_glb; [lra | apply sqrt_pos] |].
    eapply Rle_lt_trans; [apply Rmin_r | exact Hsq]. }
  set (g := get _ rating 1.5) in *. set (r := Rmin 2.0 (sqrt spacing)) in *.
  assert (Hgr : g * r < 1).
  { apply Rle_lt_trans with (r2 := 2 * r); [apply Rmult_le_compat_r; lra | lra]. }
  rewrite <- (Rmult_1_r (stability m)) at 2.
  apply Rmult_lt_compat_l; assumption.
Qed.

End SuccessBranch.

Lemma success_stability_cap_witness :
  last_review_date reviewed_memory = Some 0 /\ 3%Z <> 1%Z /\
  0 < stability reviewed_memory /\ 0 <= day 2 /\
  exists m' : FSRSMemory,
    FSRSMemoryService.update_memory (day 2) reviewed_memory 3 true 0 false = Ok m' /\
    0 <= stability m' <= 4 * stability reviewed_memory.
Proof.
  assert (Hlast : last_review_date reviewed_memory = Some 0) by reflexivity.
  assert (Hr : 3%Z <> 1%Z) by discriminate.
  assert (Hs : 0 < stability reviewed_memory) by (cbn; lra).
  assert (Hnow : 0 <= day 2) by (unfold day; lra).
  repeat (split; [assumption |]).
  exact (@success_stability_cap (day 2) reviewed_memory 0 3 true 0 false Hlast Hr Hs Hnow).
Defined.

Lemma success_stability_saturates_witness :
  last_review_date reviewed_memory = Some 0 /\ 4%Z <> 1%Z /\
  0 < stability reviewed_memory /\ 0 <= day 12 /\
  4 * Rmax (stability reviewed_memory) 0.1 <= (day 12 - 0) / (24 * 3600) /\
  exists m' : FSRSMemory,
    FSRSMemoryService.update_memory (day 12) reviewed_memory 4 true 0 false = Ok m' /\
    stability m'
    = stability reviewed_memory
      * (get (FSRSMemoryService.stability_multiplier FSRSMemoryService.FSRS_PARAMS) 4 1.5
         * 2).
Proof.
  assert (Hlast : last_review_date reviewed_memory = Some 0) by reflexivity.
  assert (Hr : 4%Z <> 1%Z) by discriminate.
  assert (Hs : 0 < stability reviewed_memory) by (cbn; lra).
  assert (Hnow : 0 <= day 12) by (unfold day; lra).
  assert (Hlong : 4 * Rmax (stability reviewed_memory) 0.1 <= (day 12 - 0) / (24 * 3600)).
  { cbn [stability reviewed_memory]. rewrite Rmax_left by lra. unfold day. lra. }
  repeat (split; [assumption |]).
  exact (@success_stability_saturates (day 12) reviewed_memory 0 4 true 0 false
           Hlast Hr Hs Hnow Hlong).
Defined.

Lemma early_success_never_raises_stability_witness :
  last_review_date reviewed_memory = Some 0 /\ 4%Z <> 1%Z /\
  0 < stability reviewed_memory /\ 0 <= day 0.5 /\
  (day 0.5 - 0) / (24 * 3600) < Rmax (stability reviewed_memory) 0.1 / 4 /\
  exists m' : FSRSMemory,
    FSRSMemoryService.update_memory (day 0.5) reviewed_memory 4 true 0 false = Ok m' /\
    stability m' <= stability reviewed_memory.
Proof.
  assert (Hlast : last_review_date reviewed_memory = Some 0) by reflexivity.
  assert (Hr : 4%Z <> 1%Z) by discriminate.
  assert (Hs : 0 < stability reviewed_memory) by (cbn; lra).
  assert (Hnow : 0 <= day 0.5) by (unfold day; lra).
  assert (Hearly : (day 0.5 - 0) / (24 * 3600) < Rmax (stability reviewed_memory) 0.1 / 4).
  { cbn [stability reviewed_memory]. rewrite Rmax_left by lra. unfold day. lra. }
  repeat (split; [assumption |]).
  exact (@early_success_never_raises_stability (day 0.5) reviewed_memory 0 4 true 0 false
           Hlast Hr Hs Hnow Hearly).
Defined.

(** X14: the method of the model and the method of the service are the same
    function of the memory, the rating, the tries and the hint, for every
    reading of the two clocks: they complete on the same inputs, raise the
    same error and store the same record. *)
Theorem model_update_is_service_update (now now' : datetime) (m : FSRSMemory)
    (rating : Z) (sv : bool) (tries : Z) (hint : bool) :
  models.update_memory now now' m rating sv tries hint
  = FSRSMemoryService.update_memory now m rating sv tries hint.
Proof.
  apply models_update_memory_agrees.
Qed.

(** ** Due selection *)

(** What the loop of [FSRSDuePuzzlesView.get] collects: one entry for each
    due memory, in their order, with the retrievability of that memory. *)
Lemma collect_due_entries (db : Database) (now : datetime) (memories : list FSRSMemory)
    (entries : list DuePuzzle) :
  collect_due db now memories = Ok entries ->
  map due_memory_id entries = map memory_pk (filter (is_due now) memories) /\
  Forall
    (fun d =>
       exists m : FSRSMemory,
         In m memories /\ memory_pk m = due_memory_id d /\ is_due now m = true /\
         models.calculate_retrievability now m = Ok (retrievability d))
    entries.
Proof.
  revert entries. induction memories as [| m memories IH]; intros entries.
  - intros [= <-]. split; [reflexivity | constructor].
  - cbn [collect_due filter]. destruct (is_due now m) eqn:Hdue.
    + destruct (models.calculate_retrievability now m) as [r |] eqn:Hr; [| discriminate].
      cbn [bind]. destruct (get_puzzle db (puzzle_id m)); [| discriminate]. cbn [bind].
      destruct (collect_due db now memories) as [rest |]; [| discriminate].
      cbn [bind]. intros [= <-]. destruct (IH rest eq_refl) as [Hids Hall].
      split; [cbn [map due_memory_id]; now rewrite Hids |].
      constructor.
      * exists m. cbn [due_memory_id retrievability]. repeat split; try assumption.
        now left.
      * eapply Forall_impl; [| exact Hall]. cbn beta.
        intros d (m0 & Hin & Hrest). exists m0. split; [now right | exact Hrest].
    + intros Hc. destruct (IH entries Hc) as [Hids Hall]. split; [exact Hids |].
      eapply Forall_impl; [| exact Hall]. cbn beta.
      intros d (m0 & Hin & Hrest). exists m0. split; [now right | exact Hrest].
Qed.

(** X15: when [FSRSDuePuzzlesView.get] answers with data, its status is
    200, its entries are in ascending order of retrievability, they are the
    due memories of the player, each once, each with the retrievability of
    its memory at [now], and the count is their number. *)
Theorem due_selection_sorted (db : Database) (now : datetime) (username : string)
    (status : Z) (body : DuePuzzlesBody) :
  FSRSDuePuzzlesView_get db now username = Data status body ->
  status = HTTP_200_OK /\
  due_puzzles_count body = len (due_puzzles body) /\
  ascending retrievability (due_puzzles body) /\
  Permutation (map due_memory_id (due_puzzles body))
    (map memory_pk
       (filter (is_due now)
          (filter (fun m => String.eqb (player_username m) username)
             (FSRSMemory_objects db)))) /\
  Forall
    (fun d =>
       exists m : FSRSMemory,
         In m (FSRSMemory_objects db) /\ memory_pk m = due_memory_id d /\
         player_username m = username /\ is_due now m = true /\
         models.calculate_retrievability now m = Ok (retrievability d))
    (due_puzzles body).
Proof.
  unfold FSRSDuePuzzlesView_get.
  destruct (get_player db username); [| discriminate].
  destruct (collect_due db now _) as [entries |] eqn:Hcollect; [| discriminate].
  intros [= <- <-]. cbn [due_puzzles_count due_puzzles].
  destruct (collect_due_entries _ _ _ Hcollect) as [Hids Hall].
  split; [reflexivity |]. split; [reflexivity |].
  split; [apply sort_by_ascending |]. split.
  - rewrite <- Hids. apply Permutation_map, sort_by_perm.
  - eapply Permutation_Forall; [apply Permutation_sym, sort_by_perm |].
    eapply Forall_impl; [| exact Hall]. cbn beta.
    intros d (m & Hin & Hpk & Hdue & Hr). apply filter_In in Hin.
    destruct Hin as [Hin Hu]. apply String.eqb_eq in Hu.
    exists m. repeat split; assumption.
Qed.

Lemma due_selection_sorted_witness :
  exists body : DuePuzzlesBody,
    FSRSDuePuzzlesView_get due_db (day 1) "alice" = Data HTTP_200_OK body /\
    ascending retrievability (due_puzzles body).
Proof.
  eexists. split; [apply due_selection_due_db |].
  exact (proj1 (proj2 (proj2
           (@due_selection_sorted due_db (day 1) "alice" _ _ due_selection_due_db)))).
Defined.

Lemma collect_due_raises (db : Database) (now : datetime) (memories : list FSRSMemory)
    (m : FSRSMemory) :
  In m memories ->
  is_due now m = true ->
  (exists e, models.calculate_retrievability now m = Raise e) ->
  exists e, collect_due db now memories = Raise e.
Proof.
  intros Hin Hdue [e He]. induction memories as [| m0 memories IH]; [contradiction |].
  cbn [collect_due]. destruct Hin as [-> | Hin].
  - rewrite Hdue, He. now exists e.
  - destruct (IH Hin) as [e' He']. rewrite He'.
    destruct (is_due now m0); [| now exists e'].
    destruct (models.calculate_retrievability now m0) as [r | e0]; [| now exists e0].
    cbn [bind]. destruct (get_puzzle db (puzzle_id m0)); cbn [bind]; eexists; reflexivity.
Qed.

(** X16: one due memory of the player that was reviewed and has the
    stability zero makes [FSRSDuePuzzlesView.get] answer with a server
    error: the division by the stability raises and no due puzzle is
    listed, not even the others. *)
Theorem due_selection_fails_on_zero_stability (db : Database) (now : datetime)
    (username player : string) (m : FSRSMemory) (last : datetime) :
  get_player db username = Some player ->
  In m (FSRSMemory_objects db) ->
  player_username m = username ->
  is_due now m = true ->
  last_review_date m = Some last ->
  stability m = 0 ->
  exists e : exn,
    FSRSDuePuzzlesView_get db now username
    = Error HTTP_500_INTERNAL_SERVER_ERROR (DatabaseError e).
Proof.
  intros Hplayer Hin Hu Hdue Hlast Hs. unfold FSRSDuePuzzlesView_get. rewrite Hplayer.
  destruct (@collect_due_raises db now
              (filter (fun m0 => String.eqb (player_username m0) username)
                 (FSRSMemory_objects db)) m) as [e He].
  - apply filter_In. split; [exact Hin |]. apply String.eqb_eq. exact Hu.
  - exact Hdue.
  - exists ZeroDivisionError.
    exact (proj2 (@zero_stability_raises now m last 1 false 0 false Hlast Hs)).
  - rewrite He. now exists e.
Qed.

Lemma due_selection_fails_on_zero_stability_witness :
  exists e : exn,
    FSRSDuePuzzlesView_get
      (mkDatabase ["alice"%string] [puzzle1] [attempt1]
         [mkFSRSMemory "m0" "alice" "p1" 2.0 0 (Some (day 0)) (Some (day 0)) (day 0) (day 0)]
         [])
      (day 1) "alice"
    = Error HTTP_500_INTERNAL_SERVER_ERROR (DatabaseError e).
Proof.
  apply (@due_selection_fails_on_zero_stability _ (day 1) "alice" "alice"
           (mkFSRSMemory "m0" "alice" "p1" 2.0 0 (Some (day 0)) (Some (day 0))
              (day 0) (day 0)) (day 0)).
  - reflexivity.
  - now left.
  - reflexivity.
  - apply is_due_spec. exists (day 0). split; [reflexivity | unfold day; lra].
  - reflexivity.
  - reflexivity.
Defined.

(** ** Daily mix: quota and pages *)


Lemma len_slice_to_min {A : Type} (l : list A) (n : Z) :
  (0 <= n)%Z -> len (slice_to l n) = Z.min n (len l).
Proof.
  intros Hn. rewrite slice_to_firstn by exact Hn. unfold len.
  rewrite length_firstn. lia.
Qed.

Lemma in_slice_to {A : Type} (l : list A) (n : Z) (x : A) :
  In x (slice_to l n) -> In x l.
Proof.
  unfold slice_to. destruct (0 <=? n)%Z; intros H;
    match type of H with In _ (firstn ?k _) =>
      rewrite <- (firstn_skipn k l); apply in_or_app; now left
    end.
Qed.






(** X18: the quota test of [DailyPuzzlesView.get] is the one of the methods
    of the model: the view answers that the limit is reached, with no
    puzzle, exactly when [is_total_limit_reached] holds of the progress of
    the day, and otherwise selects no new puzzle when [is_new_limit_reached]
    holds. *)
Theorem daily_mix_limits_agree (random_order : list Puzzle -> list Puzzle)
    (db db' : Database) (now : datetime) (username player : string)
    (query_params : DailyQuery) (progress : UserDailyProgress) :
  get_player db username = Some player ->
  get_or_create_progress db player (date_of now) = (progress, db') ->
  exists body : DailyBody,
    DailyPuzzlesView_get random_order db now username query_params
    = (Data HTTP_200_OK body, db') /\
    (message body = Some "You've reached your daily puzzle limit!"%string
     <-> is_total_limit_reached progress (param (q_total_limit query_params) 50) = true) /\
    (is_total_limit_reached progress (param (q_total_limit query_params) 50) = true ->
     puzzles body = []) /\
    (is_total_limit_reached progress (param (q_total_limit query_params) 50) = false ->
     is_new_limit_reached progress (param (q_new_limit query_params) 25) = true ->
     Forall (fun d => is_new d = false) (puzzles body)).
Proof.
  intros Hplayer Hprogress.
  unfold DailyPuzzlesView_get. rewrite Hplayer, Hprogress.
  unfold is_total_limit_reached, is_new_limit_reached.
  destruct (Z.geb_spec (total_puzzles_done progress)
              (param (q_total_limit query_params) 50)) as [Hreached | Hleft].
  - destruct (Z.leb_spec (Z.max 0 (param (q_total_limit query_params) 50
                                   - total_puzzles_done progress)) 0); [| lia].
    eexists. split; [reflexivity |]. cbn [message puzzles].
    split; [split; reflexivity |]. split; [reflexivity | discriminate].
  - destruct (Z.leb_spec (Z.max 0 (param (q_total_limit query_params) 50
                                   - total_puzzles_done progress)) 0); [lia |].
    eexists. split; [reflexivity |]. cbn [message puzzles].
    split; [split; discriminate |]. split; [discriminate |].
    intros _ Hnew. apply Z.geb_le in Hnew.
    rewrite (Z.max_l 0 (param (q_new_limit query_params) 25 - new_puzzles_seen progress))
      by lia.
    assert (Hnone : new_puzzles_of random_order db' username 0 = []).
    { unfold new_puzzles_of. cbv zeta. rewrite slice_to_firstn by lia. reflexivity. }
    rewrite Hnone.
    assert (Hcombined : forall due total,
               combined_puzzles due [] total = combined_reviews due total).
    { intros due total. unfold combined_puzzles, combined_new. cbv zeta.
      unfold slice_to. destruct (0 <=? _)%Z; rewrite firstn_nil; apply app_nil_r. }
    rewrite Hcombined.
    apply Forall_forall. intros d Hd. apply in_slice_to in Hd.
    apply in_map_iff in Hd. destruct Hd as (p & <- & Hp). cbn [is_new].
    apply in_slice_to in Hp. apply negb_false_iff, existsb_exists.
    exists p. split; [exact Hp | apply String.eqb_refl].
Qed.

Lemma daily_mix_limits_agree_witness :
  exists body : DailyBody,
    DailyPuzzlesView_get (fun l => l) exhausted_db 0 "alice" (mkDailyQuery None None None)
    = (Data HTTP_200_OK body, exhausted_db) /\
    (message body = Some "You've reached your daily puzzle limit!"%string
     <-> is_total_limit_reached (mkUserDailyProgress "alice" 0 25 25) 50 = true).
Proof.
  destruct (@daily_mix_limits_agree (fun l => l) exhausted_db exhausted_db 0 "alice" "alice"
              (mkDailyQuery None None None) (mkUserDailyProgress "alice" 0 25 25))
    as (body & Hview & Hiff & _).
  - reflexivity.
  - rewrite date_of_epoch. reflexivity.
  - exists body. split; [exact Hview | exact Hiff].
Defined.

(** X19: when the random order only permutes the puzzles it is given, every
    new puzzle of the daily mix is a puzzle of the player that no attempt of
    the player is about, and there are never more of them than the quota of
    new puzzles that is left. *)
Theorem new_puzzles_are_unattempted (random_order : list Puzzle -> list Puzzle)
    (db : Database) (username : string) (new_remaining : Z) (p : Puzzle) :
  (forall l, Permutation (random_order l) l) ->
  (0 <= new_remaining)%Z ->
  In p (new_puzzles_of random_order db username new_remaining) ->
  In p (Puzzle_objects db) /\
  puzzle_player_username p = username /\
  (forall a : PuzzleAttempt,
     In a (PuzzleAttempt_objects db) ->
     attempt_player a = username ->
     attempt_puzzle a <> puzzle_pk p) /\
  (len (new_puzzles_of random_order db username new_remaining) <= new_remaining)%Z.
Proof.
  intros Hperm Hn Hin. unfold new_puzzles_of in *. cbv zeta in *.
  split; [| split; [| split]].
  - apply in_slice_to in Hin. apply (Permutation_in _ (Hperm _)) in Hin.
    apply filter_In in Hin. tauto.
  - apply in_slice_to in Hin. apply (Permutation_in _ (Hperm _)) in Hin.
    apply filter_In in Hin. destruct Hin as [_ Hc]. apply andb_prop in Hc.
    apply String.eqb_eq. tauto.
  - intros a Ha Hplayer Heq.
    apply in_slice_to in Hin. apply (Permutation_in _ (Hperm _)) in Hin.
    apply filter_In in Hin. destruct Hin as [_ Hc]. apply andb_prop in Hc.
    destruct Hc as [_ Hnot]. apply negb_true_iff in Hnot.
    assert (Hex : existsb (String.eqb (puzzle_pk p))
                    (nodup string_dec
                       (map attempt_puzzle
                          (filter (fun a0 => String.eqb (attempt_player a0) username)
                             (PuzzleAttempt_objects db)))) = true).
    { apply existsb_exists. exists (attempt_puzzle a). split.
      - apply nodup_In, in_map, filter_In. split; [exact Ha |].
        apply String.eqb_eq. exact Hplayer.
      - apply String.eqb_eq. now symmetry. }
    rewrite Hex in Hnot. discriminate.
  - rewrite len_slice_to_min by exact Hn. lia.
Qed.

Lemma new_puzzles_are_unattempted_witness :
  (forall l : list Puzzle, Permutation ((fun l => l) l) l) /\ (0 <= 25)%Z /\
  In puzzle1 (new_puzzles_of (fun l => l) fresh_db "alice" 25) /\
  puzzle_player_username puzzle1 = "alice"%string.
Proof.
  assert (Hperm : forall l : list Puzzle, Permutation ((fun l => l) l) l)
    by (intros l; apply Permutation_refl).
  assert (Hn : (0 <= 25)%Z) by lia.
  assert (Hin : In puzzle1 (new_puzzles_of (fun l => l) fresh_db "alice" 25))
    by (now left).
  split; [exact Hperm |]. split; [exact Hn |]. split; [exact Hin |].
  exact (proj1 (proj2 (@new_puzzles_are_unattempted (fun l => l) fresh_db "alice" 25
                         puzzle1 Hperm Hn Hin))).
Defined.

(** ** Attempts: numbering, actions and history *)

Lemma get_attempt_some (db : Database) (id : string) (a : PuzzleAttempt) :
  get_attempt db id = Some a -> In a (PuzzleAttempt_objects db) /\ attempt_pk a = id.
Proof.
  unfold get_attempt. intros H. apply find_some in H. destruct H as [Hin Hpk].
  apply String.eqb_eq in Hpk. now split.
Qed.

Lemma length_save_existing {A : Type} (same : A -> bool) (row : A) (table : list A) :
  (exists r, In r table /\ same r = true) ->
  List.length (save same row table) = List.length table.
Proof.
  intros (r & Hin & Hr). induction table as [| r0 table IH]; [contradiction |].
  cbn [save]. destruct (same r0) eqn:H0; [reflexivity |].
  cbn [List.length]. f_equal. apply IH.
  destruct Hin as [-> | Hin]; [congruence | exact Hin].
Qed.

(** The largest attempt number of a puzzle and a player: none when they have
    no attempt, else the number of one of their attempts that no other of
    their attempts exceeds. *)
Lemma max_attempt_number_spec (db : Database) (puzzle player : string) :
  let mine a := String.eqb (attempt_puzzle a) puzzle && String.eqb (attempt_player a) player in
  match max_attempt_number db puzzle player with
  | None => forall a, In a (PuzzleAttempt_objects db) -> mine a = false
  | Some n =>
      (exists a, In a (PuzzleAttempt_objects db) /\ mine a = true /\ attempt_number a = n) /\
      (forall a, In a (PuzzleAttempt_objects db) -> mine a = true ->
                 (attempt_number a <= n)%Z)
  end.
Proof.
  cbv zeta. unfold max_attempt_number.
  set (mine := fun a => String.eqb (attempt_puzzle a) puzzle
                        && String.eqb (attempt_player a) player).
  set (step := fun (acc : option Z) (a : PuzzleAttempt) =>
                 if mine a
                 then match acc with
                      | None => Some (attempt_number a)
                      | Some n => Some (Z.max n (attempt_number a))
                      end
                 else acc).
  change (match fold_left step (PuzzleAttempt_objects db) None with
          | None => forall a, In a (PuzzleAttempt_objects db) -> mine a = false
          | Some n =>
              (exists a, In a (PuzzleAttempt_objects db) /\ mine a = true
                         /\ attempt_number a = n) /\
              (forall a, In a (PuzzleAttempt_objects db) -> mine a = true ->
                         (attempt_number a <= n)%Z)
          end).
  assert (G : forall l seen acc,
             match acc with
             | None => forall a, In a seen -> mine a = false
             | Some n =>
                 (exists a, In a seen /\ mine a = true /\ attempt_number a = n) /\
                 (forall a, In a seen -> mine a = true -> (attempt_number a <= n)%Z)
             end ->
             match fold_left step l acc with
             | None => forall a, In a (seen ++ l) -> mine a = false
             | Some n =>
                 (exists a, In a (seen ++ l) /\ mine a = true /\ attempt_number a = n) /\
                 (forall a, In a (seen ++ l) -> mine a = true -> (attempt_number a <= n)%Z)
             end).
  { induction l as [| x l IH]; intros seen acc Hacc.
    - cbn [fold_left]. rewrite app_nil_r. exact Hacc.
    - cbn [fold_left].
      replace (seen ++ x :: l) with ((seen ++ [x]) ++ l)
        by (rewrite <- app_assoc; reflexivity).
      apply IH. unfold step. destruct (mine x) eqn:Hx.
      + destruct acc as [n |].
        * destruct Hacc as [(a & Ha & Hma & Hna) Hle]. split.
          -- destruct (Z.max_spec n (attempt_number x)) as [[_ ->] | [_ ->]].
             ++ exists x. split; [apply in_or_app; right; now left | now split].
             ++ exists a. split; [apply in_or_app; now left | now split].
          -- intros b Hb Hmb. apply in_app_or in Hb. destruct Hb as [Hb | [<- | []]].
             ++ specialize (Hle b Hb Hmb). lia.
             ++ lia.
        * split.
          -- exists x. split; [apply in_or_app; right; now left | now split].
          -- intros b Hb Hmb. apply in_app_or in Hb. destruct Hb as [Hb | [<- | []]].
             ++ rewrite (Hacc b Hb) in Hmb. discriminate.
             ++ lia.
      + destruct acc as [n |].
        * destruct Hacc as [(a & Ha & Hma & Hna) Hle]. split.
          -- exists a. split; [apply in_or_app; now left | now split].
          -- intros b Hb Hmb. apply in_app_or in Hb. destruct Hb as [Hb | [<- | []]].
             ++ exact (Hle b Hb Hmb).
             ++ congruence.
        * intros b Hb. apply in_app_or in Hb. destruct Hb as [Hb | [<- | []]].
          -- exact (Hacc b Hb).
          -- exact Hx. }
  apply (G (PuzzleAttempt_objects db) [] None). intros a [].
Qed.

(** X20: when [PuzzleAttemptView.post] answers with data, the status is 201
    and exactly one attempt was added to the log: it has no try, no hint, is
    not solved, has no rating, and its number is above the number of every
    earlier attempt of this player on this puzzle (1 when there is none), so
    the numbers of a player on a puzzle never repeat.  The other tables are
    as before. *)
Theorem started_attempt_number_is_fresh (enforces_positive : bool) (db db' : Database)
    (now : datetime) (attempt_uuid : string) (request : StartRequest)
    (status : Z) (body : StartedBody) :
  PuzzleAttemptView_post enforces_positive db now attempt_uuid request
  = (Data status body, db') ->
  status = HTTP_201_CREATED /\
  (exists attempt : PuzzleAttempt,
     PuzzleAttempt_objects db' = PuzzleAttempt_objects db ++ [attempt] /\
     attempt_pk attempt = attempt_uuid /\
     attempt_puzzle attempt = started_puzzle_id body /\
     attempt_player attempt = started_player_username body /\
     attempt_number attempt = started_attempt_number body /\
     tries_count attempt = 0%Z /\ hint_used attempt = false /\ solved attempt = false /\
     models.rating attempt = None /\ completed_at attempt = None) /\
  (started_attempt_number body = 1
   \/ exists a, In a (PuzzleAttempt_objects db) /\
                attempt_puzzle a = started_puzzle_id body /\
                attempt_player a = started_player_username body /\
                attempt_number a + 1 = started_attempt_number body)%Z /\
  (forall a : PuzzleAttempt,
     In a (PuzzleAttempt_objects db) ->
     attempt_puzzle a = started_puzzle_id body ->
     attempt_player a = started_player_username body ->
     (attempt_number a < started_attempt_number body)%Z) /\
  Player_objects db' = Player_objects db /\
  Puzzle_objects db' = Puzzle_objects db /\
  FSRSMemory_objects db' = FSRSMemory_objects db /\
  UserDailyProgress_objects db' = UserDailyProgress_objects db.
Proof.
  unfold PuzzleAttemptView_post.
  destruct (is_empty (start_puzzle_id request) || is_empty (start_player_username request));
    [discriminate |].
  destruct (start_puzzle_id request) as [pid |]; [| discriminate].
  destruct (start_player_username request) as [uname |]; [| discriminate].
  destruct (get_puzzle db pid) as [puzzle |] eqn:Hpuzzle; [| discriminate].
  destruct (get_player db uname) as [player |] eqn:Hplayer; [| discriminate].
  unfold save_attempt. destruct (enforces_positive && _); [discriminate |].
  intros [= <- <- <-].
  cbn [started_puzzle_id started_player_username started_attempt_number].
  assert (Hpk : puzzle_pk puzzle = pid).
  { unfold get_puzzle in Hpuzzle. apply find_some in Hpuzzle.
    apply String.eqb_eq. tauto. }
  assert (Hu : player = uname).
  { unfold get_player in Hplayer. apply find_some in Hplayer.
    destruct Hplayer as [_ H]. apply String.eqb_eq in H. now symmetry. }
  pose proof (max_attempt_number_spec db pid uname) as Hmax. cbv zeta in Hmax.
  split; [reflexivity |]. split.
  { eexists. split; [reflexivity |].
    cbn [attempt_pk attempt_puzzle attempt_player attempt_number models.tries_count
         models.hint_used models.solved models.rating completed_at].
    repeat split; assumption. }
  split.
  { destruct (max_attempt_number db pid uname) as [n |]; [right | left; reflexivity].
    destruct Hmax as [(a & Ha & Hmine & Hn) _]. exists a.
    apply andb_prop in Hmine. destruct Hmine as [Hp Hpl].
    apply String.eqb_eq in Hp, Hpl.
    split; [exact Ha |]. split; [exact Hp |]. split; [exact Hpl | lia]. }
  split; [| repeat split].
  intros a Ha Hp Hpl.
  assert (Hmine : String.eqb (attempt_puzzle a) pid && String.eqb (attempt_player a) uname
                  = true).
  { apply andb_true_intro. split; apply String.eqb_eq; assumption. }
  destruct (max_attempt_number db pid uname) as [n |].
  - destruct Hmax as [_ Hle]. specialize (Hle a Ha Hmine). lia.
  - rewrite (Hmax a Ha) in Hmine. discriminate.
Qed.

Lemma started_attempt_number_is_fresh_witness :
  exists (body : StartedBody) (db' : Database),
    PuzzleAttemptView_post true due_db (day 2) "a3" (mkStartRequest (Some "p1"%string) (Some "alice"%string))
    = (Data HTTP_201_CREATED body, db') /\
    started_attempt_number body = 2%Z /\
    (forall a : PuzzleAttempt,
       In a (PuzzleAttempt_objects due_db) ->
       attempt_puzzle a = started_puzzle_id body ->
       attempt_player a = started_player_username body ->
       (attempt_number a < started_attempt_number body)%Z).
Proof.
  eexists. eexists. split; [reflexivity |]. split; [reflexivity |].
  exact (proj1 (proj2 (proj2 (proj2
           (@started_attempt_number_is_fresh true due_db _ (day 2) "a3"
              (mkStartRequest (Some "p1"%string) (Some "alice"%string)) _ _ eq_refl))))).
Defined.

Section AttemptActions.

Variable enforces_positive : bool.
Variables (db : Database) (now : datetime) (attempt_id : string).
Variables (a : PuzzleAttempt) (puzzle : Puzzle) (player : string).

Hypothesis Hattempt : get_attempt db attempt_id = Some a.
Hypothesis Htries : (0 <= tries_count a)%Z.
Hypothesis Hnumber : (0 <= attempt_number a)%Z.
Hypothesis Hpuzzle : get_puzzle db (attempt_puzzle a) = Some puzzle.
Hypothesis Hplayer : get_player db (attempt_player a) = Some player.

(** Saving a changed copy of the attempt: the row of the attempt is replaced
    and the number of rows stays. *)
Lemma update_attempt_stores (a' : PuzzleAttempt) :
  attempt_pk a' = attempt_pk a ->
  attempt_puzzle a' = attempt_puzzle a ->
  attempt_player a' = attempt_player a ->
  (0 <= attempt_number a')%Z -> (0 <= tries_count a')%Z ->
  exists db' : Database,
    update_attempt enforces_positive db a' = Ok db' /\
    get_attempt db' attempt_id = Some a' /\
    attempt_data db' a' = attempt_data db a' /\
    List.length (PuzzleAttempt_objects db') = List.length (PuzzleAttempt_objects db) /\
    Player_objects db' = Player_objects db /\
    Puzzle_objects db' = Puzzle_objects db /\
    FSRSMemory_objects db' = FSRSMemory_objects db /\
    UserDailyProgress_objects db' = UserDailyProgress_objects db.
Proof.
  intros Hpk Hpz Hpl Hn Ht. destruct (get_attempt_some _ _ Hattempt) as [Hin Hid].
  unfold update_attempt.
  destruct (Z.ltb_spec (attempt_number a') 0); [lia |].
  destruct (Z.ltb_spec (tries_count a') 0); [lia |].
  cbn [orb]. rewrite andb_false_r.
  eexists. split; [reflexivity |].
  split; [| split; [reflexivity | split; [| repeat split]]].
  - unfold get_attempt. cbn [set_PuzzleAttempt_objects PuzzleAttempt_objects].
    rewrite <- Hid, <- Hpk. apply find_save. apply String.eqb_refl.
  - cbn [set_PuzzleAttempt_objects PuzzleAttempt_objects].
    apply length_save_existing. exists a. split; [exact Hin |].
    rewrite Hpk. apply String.eqb_refl.
Qed.

(** X21: the action [record_try] on an attempt raises its count of tries by
    exactly one and leaves its other fields, the other attempts' number and
    the other tables as they are. *)
Theorem record_try_adds_one :
  exists (body : ActionBody) (db' : Database),
    PuzzleAttemptActionView_post enforces_positive db now attempt_id "record_try"
    = (Data HTTP_200_OK body, db') /\
    data_tries_count (action_attempt body) = (tries_count a + 1)%Z /\
    get_attempt db' attempt_id = Some (set_tries_count a (tries_count a + 1)) /\
    List.length (PuzzleAttempt_objects db') = List.length (PuzzleAttempt_objects db) /\
    Player_objects db' = Player_objects db /\
    Puzzle_objects db' = Puzzle_objects db /\
    FSRSMemory_objects db' = FSRSMemory_objects db /\
    UserDailyProgress_objects db' = UserDailyProgress_objects db.
Proof.
  unfold PuzzleAttemptActionView_post. cbn [existsb String.eqb Ascii.eqb Bool.eqb orb negb].
  rewrite Hattempt. cbv zeta.
  destruct (@update_attempt_stores (set_tries_count a (tries_count a + 1)))
    as (db' & Hsave & Hget & Hdata & Hrest); try reflexivity; try assumption.
  { cbn [set_tries_count models.tries_count]. lia. }
  rewrite Hsave, Hdata. unfold attempt_data.
  cbn [set_tries_count attempt_puzzle attempt_player]. rewrite Hpuzzle, Hplayer.
  cbn [bind]. eexists. eexists. split; [reflexivity |].
  split; [reflexivity |]. split; [exact Hget | exact Hrest].
Qed.

(** X22: the two ways of marking an attempt solved differ on an attempt
    that has a completion time already: the action [mark_solved] stores the
    instant of the request over it, [put] with [solved] true keeps it. *)
Theorem completion_time_overwritten_or_kept (t0 : datetime) :
  completed_at a = Some t0 ->
  (exists (body : ActionBody) (db' : Database),
     PuzzleAttemptActionView_post enforces_positive db now attempt_id "mark_solved"
     = (Data HTTP_200_OK body, db') /\
     data_solved (action_attempt body) = true /\
     data_completed_at (action_attempt body) = Some now /\
     get_attempt db' attempt_id = Some (set_completed_at (set_solved a true) (Some now))) /\
  (exists (body : AttemptData) (db' : Database),
     PuzzleAttemptView_put enforces_positive db now attempt_id
       (mkPutData None None (Some true))
     = (Data HTTP_200_OK body, db') /\
     data_solved body = true /\
     data_completed_at body = Some t0 /\
     get_attempt db' attempt_id = Some (set_solved a true)).
Proof.
  intros Hdone. split.
  - unfold PuzzleAttemptActionView_post.
    cbn [existsb String.eqb Ascii.eqb Bool.eqb orb negb].
    rewrite Hattempt. cbv zeta.
    destruct (@update_attempt_stores (set_completed_at (set_solved a true) (Some now)))
      as (db' & Hsave & Hget & Hdata & _); try reflexivity; try assumption.
    rewrite Hsave, Hdata. unfold attempt_data.
    cbn [set_completed_at set_solved attempt_puzzle attempt_player].
    rewrite Hpuzzle, Hplayer. cbn [bind].
    eexists. eexists. split; [reflexivity |]. repeat split. exact Hget.
  - unfold PuzzleAttemptView_put. rewrite Hattempt.
    cbn [put_tries_count put_hint_used put_solved]. cbv zeta.
    replace (completed_at (set_solved a true)) with (Some t0) by (symmetry; exact Hdone).
    cbn [models.solved set_solved andb].
    destruct (@update_attempt_stores (set_solved a true))
      as (db' & Hsave & Hget & Hdata & _); try reflexivity; try assumption.
    rewrite Hsave, Hdata. unfold attempt_data.
    cbn [set_solved attempt_puzzle attempt_player].
    rewrite Hpuzzle, Hplayer. cbn [bind].
    eexists. eexists. split; [reflexivity |]. cbn [data_solved data_completed_at].
    repeat split; assumption.
Qed.

End AttemptActions.

Lemma record_try_adds_one_witness :
  get_attempt due_db "a1" = Some attempt1 /\
  exists (body : ActionBody) (db' : Database),
    PuzzleAttemptActionView_post true due_db (day 2) "a1" "record_try"
    = (Data HTTP_200_OK body, db') /\
    data_tries_count (action_attempt body) = (tries_count attempt1 + 1)%Z.
Proof.
  assert (Hattempt : get_attempt due_db "a1" = Some attempt1) by reflexivity.
  split; [exact Hattempt |].
  destruct (@record_try_adds_one true due_db (day 2) "a1" attempt1 puzzle1 "alice"
              Hattempt) as (body & db' & Hpost & Htries & _).
  - cbn. lia.
  - cbn. lia.
  - reflexivity.
  - reflexivity.
  - exists body, db'. split; assumption.
Defined.

Lemma completion_time_overwritten_or_kept_witness :
  get_attempt due_db "a1" = Some attempt1 /\
  completed_at attempt1 = Some (day 0) /\
  exists (body : AttemptData) (db' : Database),
    PuzzleAttemptView_put true due_db (day 2) "a1" (mkPutData None None (Some true))
    = (Data HTTP_200_OK body, db') /\
    data_completed_at body = Some (day 0).
Proof.
  assert (Hattempt : get_attempt due_db "a1" = Some attempt1) by reflexivity.
  assert (Hdone : completed_at attempt1 = Some (day 0)) by reflexivity.
  split; [exact Hattempt |]. split; [exact Hdone |].
  destruct (@completion_time_overwritten_or_kept true due_db (day 2) "a1" attempt1
              puzzle1 "alice" Hattempt) with (t0 := day 0)
    as [_ (body & db' & Hput & _ & Hkept & _)].
  - cbn. lia.
  - cbn. lia.
  - reflexivity.
  - reflexivity.
  - exact Hdone.
  - exists body, db'. split; assumption.
Defined.

(** X23: a request that a view answers with status 400 or 404 writes
    nothing: the database that [FSRSPuzzleAttemptView.post],
    [PuzzleAttemptView.post], [PuzzleAttemptView.put],
    [PuzzleAttemptActionView.post] and [ResetDailyProgressView.post] leave is
    the one they were given. *)
Theorem client_errors_write_nothing (enforces_positive : bool) (db : Database)
    (now : datetime) :
  let refused (status : Z) :=
    status = HTTP_400_BAD_REQUEST \/ status = HTTP_404_NOT_FOUND in
  (forall attempt_uuid memory_uuid request,
     refused (status_code
                (fst (FSRSPuzzleAttemptView_post enforces_positive db now
                        attempt_uuid memory_uuid request))) ->
     snd (FSRSPuzzleAttemptView_post enforces_positive db now
            attempt_uuid memory_uuid request) = db) /\
  (forall attempt_uuid request,
     refused (status_code
                (fst (PuzzleAttemptView_post enforces_positive db now
                        attempt_uuid request))) ->
     snd (PuzzleAttemptView_post enforces_positive db now attempt_uuid request) = db) /\
  (forall attempt_id data,
     refused (status_code
                (fst (PuzzleAttemptView_put enforces_positive db now attempt_id data))) ->
     snd (PuzzleAttemptView_put enforces_positive db now attempt_id data) = db) /\
  (forall attempt_id action,
     refused (status_code
                (fst (PuzzleAttemptActionView_post enforces_positive db now
                        attempt_id action))) ->
     snd (PuzzleAttemptActionView_post enforces_positive db now attempt_id action) = db) /\
  (forall username,
     refused (status_code (fst (ResetDailyProgressView_post db now username))) ->
     snd (ResetDailyProgressView_post db now username) = db).
Proof.
  cbv zeta.
  unfold HTTP_400_BAD_REQUEST, HTTP_404_NOT_FOUND.
  assert (H201 : ~ (HTTP_201_CREATED = 400 \/ HTTP_201_CREATED = 404)%Z)
    by (unfold HTTP_201_CREATED; lia).
  assert (H200 : ~ (HTTP_200_OK = 400 \/ HTTP_200_OK = 404)%Z)
    by (unfold HTTP_200_OK; lia).
  assert (H500 : ~ (HTTP_500_INTERNAL_SERVER_ERROR = 400
                    \/ HTTP_500_INTERNAL_SERVER_ERROR = 404)%Z)
    by (unfold HTTP_500_INTERNAL_SERVER_ERROR; lia).
  repeat split.
  - intros attempt_uuid memory_uuid request. unfold FSRSPuzzleAttemptView_post.
    destruct (is_empty _ || is_empty _); [reflexivity |].
    destruct (req_puzzle_id request); [| reflexivity].
    destruct (req_player_username request); [| reflexivity].
    destruct (get_puzzle db _); [| reflexivity].
    destruct (get_player db _); [| reflexivity].
    destruct (save_attempt _ _ _); [| cbn [fst snd status_code]; tauto].
    destruct (get_or_create_progress _ _ _).
    destruct (find _ _);
      (destruct (FSRSMemoryService.update_memory _ _ _ _ _ _);
       [destruct (models.calculate_retrievability _ _) |]);
      cbn [fst snd status_code]; tauto.
  - intros attempt_uuid request. unfold PuzzleAttemptView_post.
    destruct (is_empty _ || is_empty _); [reflexivity |].
    destruct (start_puzzle_id request); [| reflexivity].
    destruct (start_player_username request); [| reflexivity].
    destruct (get_puzzle db _); [| reflexivity].
    destruct (get_player db _); [| reflexivity].
    destruct (save_attempt _ _ _); cbn [fst snd status_code]; tauto.
  - intros attempt_id data. unfold PuzzleAttemptView_put.
    destruct (get_attempt db attempt_id); [| reflexivity].
    destruct (update_attempt _ _ _); [| cbn [fst snd status_code]; tauto].
    destruct (attempt_data _ _); cbn [fst snd status_code]; tauto.
  - intros attempt_id action. unfold PuzzleAttemptActionView_post.
    destruct (negb _); [reflexivity |].
    destruct (get_attempt db attempt_id); [| reflexivity].
    destruct (update_attempt _ _ _); [| cbn [fst snd status_code]; tauto].
    destruct (attempt_data _ _); cbn [fst snd status_code]; tauto.
  - intros username. unfold ResetDailyProgressView_post.
    destruct (get_player db username); [| reflexivity].
    cbn [fst snd status_code]. tauto.
Qed.

Lemma client_errors_write_nothing_witness :
  snd (PuzzleAttemptActionView_post true due_db (day 2) "a1" "give_up") = due_db /\
  snd (PuzzleAttemptView_put true due_db (day 2) "a9" (mkPutData (Some 3%Z) None None))
  = due_db.
Proof.
  destruct (@client_errors_write_nothing true due_db (day 2)) as (_ & _ & Hput & Haction & _).
  split.
  - apply Haction. left. reflexivity.
  - apply Hput. right. reflexivity.
Defined.

(** X24: more tries or a hint never give an attempt a higher rating: for
    two attempts that are both solved or both not, the one with at least as
    many tries and at least the hint of the other is rated at most as high. *)
Theorem determine_rating_antitone (a1 a2 : PuzzleAttempt) :
  solved a1 = solved a2 ->
  (tries_count a1 <= tries_count a2)%Z ->
  (hint_used a1 = true -> hint_used a2 = true) ->
  (determine_rating a2 <= determine_rating a1)%Z.
Proof.
  intros Hs Ht Hh. unfold determine_rating. rewrite Hs.
  destruct (solved a2); cbn [negb]; [| lia].
  destruct (hint_used a1), (hint_used a2);
    try (specialize (Hh eq_refl); discriminate);
    destruct (Z.gtb_spec (tries_count a1) 2), (Z.gtb_spec (tries_count a2) 2);
    destruct (Z.gtb_spec (tries_count a1) 0), (Z.gtb_spec (tries_count a2) 0);
    cbn [orb]; lia.
Qed.

Lemma determine_rating_antitone_witness :
  solved attempt1 = solved (set_hint_used attempt1 true) /\
  (tries_count attempt1 <= tries_count (set_hint_used attempt1 true))%Z /\
  (determine_rating (set_hint_used attempt1 true) <= determine_rating attempt1)%Z.
Proof.
  assert (Hs : solved attempt1 = solved (set_hint_used attempt1 true)) by reflexivity.
  assert (Ht : (tries_count attempt1 <= tries_count (set_hint_used attempt1 true))%Z)
    by (cbn; lia).
  split; [exact Hs |]. split; [exact Ht |].
  apply (@determine_rating_antitone attempt1 (set_hint_used attempt1 true) Hs Ht).
  reflexivity.
Defined.

Lemma format_attempts_fields (db : Database) (l : list PuzzleAttempt)
    (ds : list AttemptData) :
  format_attempts db l = Ok ds ->
  map data_attempt_id ds = map attempt_pk l /\
  map data_created_at ds = map created_at l.
Proof.
  revert ds. induction l as [| a l IH]; intros ds.
  - intros [= <-]. split; reflexivity.
  - cbn [format_attempts]. unfold attempt_data.
    destruct (get_puzzle db (attempt_puzzle a)); [| discriminate]. cbn [bind].
    destruct (get_player db (attempt_player a)); [| discriminate]. cbn [bind].
    destruct (format_attempts db l) as [rest |]; [| discriminate]. cbn [bind].
    intros [= <-]. destruct (IH rest eq_refl) as [H1 H2].
    cbn [map data_attempt_id data_created_at]. now rewrite H1, H2.
Qed.

Lemma ascending_map {A B : Type} (k1 : A -> R) (k2 : B -> R) (l1 : list A) (l2 : list B) :
  map k1 l1 = map k2 l2 -> ascending k1 l1 -> ascending k2 l2.
Proof.
  intros Hmap Hasc. revert l2 Hmap.
  induction Hasc as [| x l Hx Hl IH]; intros l2 Hmap.
  - destruct l2; [constructor | discriminate].
  - destruct l2 as [| y l2]; [discriminate |]. cbn [map] in Hmap.
    injection Hmap as Hxy Hrest. constructor; [| apply IH; exact Hrest].
    apply Forall_forall. intros z Hz.
    assert (Hin : In (k2 z) (map k1 l)) by (rewrite Hrest; now apply in_map).
    apply in_map_iff in Hin. destruct Hin as (w & Hw & Hwl).
    rewrite Forall_forall in Hx. specialize (Hx w Hwl). lra.
Qed.

Lemma filter_andb {A : Type} (f g : A -> bool) (l : list A) :
  filter g (filter f l) = filter (fun x => f x && g x) l.
Proof.
  induction l as [| x l IH]; [reflexivity |]. cbn [filter].
  destruct (f x); cbn [filter andb]; [destruct (g x) |]; now rewrite IH.
Qed.

(** X25: when [PuzzleAttemptView.get] answers with data, its status is
    200, its attempts are the attempts of the log that the given player and
    puzzle select (a parameter that is absent or empty selects all), each
    once, from the latest creation time to the earliest, and the count is
    their number. *)
Theorem attempt_history_sorted (db : Database) (query_params : AttemptsQuery)
    (status : Z) (body : AttemptsBody) :
  PuzzleAttemptView_get db query_params = Data status body ->
  let selects (wanted : option string) (value : string) : bool :=
    match wanted with
    | Some s => if String.eqb s "" then true else String.eqb value s
    | None => true
    end in
  status = HTTP_200_OK /\
  count body = len (attempts body) /\
  ascending (fun d => - data_created_at d) (attempts body) /\
  Permutation (map data_attempt_id (attempts body))
    (map attempt_pk
       (filter (fun a => selects (q_player_username query_params) (attempt_player a)
                         && selects (q_puzzle_id query_params) (attempt_puzzle a))
          (PuzzleAttempt_objects db))).
Proof.
  unfold PuzzleAttemptView_get. cbv zeta.
  destruct (is_empty _ && is_empty _); [discriminate |].
  set (by_player := match q_player_username query_params with
                    | Some u => if String.eqb u "" then PuzzleAttempt_objects db
                                else filter (fun a => String.eqb (attempt_player a) u)
                                       (PuzzleAttempt_objects db)
                    | None => PuzzleAttempt_objects db
                    end).
  set (selected := match q_puzzle_id query_params with
                   | Some p => if String.eqb p "" then by_player
                               else filter (fun a => String.eqb (attempt_puzzle a) p)
                                      by_player
                   | None => by_player
                   end).
  destruct (format_attempts db (sort_by _ selected)) as [results |] eqn:Hformat;
    [| discriminate].
  intros [= <- <-]. cbn [count attempts].
  destruct (format_attempts_fields _ _ Hformat) as [Hids Hdates].
  split; [reflexivity |]. split; [reflexivity |]. split.
  - eapply (@ascending_map _ _ (fun a => - created_at a) (fun d => - data_created_at d)
              (sort_by (fun a => - created_at a) selected));
      [| apply sort_by_ascending].
    rewrite <- (map_map created_at Ropp), <- (map_map data_created_at Ropp).
    now rewrite Hdates.
  - rewrite Hids.
    assert (Hsel : selected
                   = filter (fun a =>
                               match q_player_username query_params with
                               | Some s => if String.eqb s "" then true
                                           else String.eqb (attempt_player a) s
                               | None => true
                               end
                               && match q_puzzle_id query_params with
                                  | Some s => if String.eqb s "" then true
                                              else String.eqb (attempt_puzzle a) s
                                  | None => true
                                  end)
                       (PuzzleAttempt_objects db)).
    { assert (Hall : forall (l : list PuzzleAttempt), filter (fun _ => true) l = l).
      { induction l as [| x l IH]; [reflexivity |]. cbn [filter]. now rewrite IH. }
      unfold selected, by_player.
      destruct (q_player_username query_params) as [u |],
               (q_puzzle_id query_params) as [p |];
        try destruct (String.eqb u ""); try destruct (String.eqb p "");
        rewrite ?filter_andb; try reflexivity;
        try (symmetry; apply Hall);
        try (apply filter_ext; intros x; now rewrite ?andb_true_r).
    }
    rewrite <- Hsel. apply Permutation_map, sort_by_perm.
Qed.

Lemma attempt_history_sorted_witness :
  exists body : AttemptsBody,
    PuzzleAttemptView_get due_db (mkAttemptsQuery (Some "alice"%string) None)
    = Data HTTP_200_OK body /\
    count body = 2%Z /\
    ascending (fun d => - data_created_at d) (attempts body).
Proof.
  assert (Hget : PuzzleAttemptView_get due_db (mkAttemptsQuery (Some "alice"%string) None)
                 = Data HTTP_200_OK
                     (mkAttemptsBody
                        [mkAttemptData "a2" "p2" "alice" 1 0 false true (day 0.5)
                           (Some (day 0.5));
                         mkAttemptData "a1" "p1" "alice" 1 0 false true (day 0)
                           (Some (day 0))] 2)).
  { unfold PuzzleAttemptView_get. cbv zeta.
    cbn [q_player_username q_puzzle_id is_empty String.eqb andb].
    change (filter _ (PuzzleAttempt_objects due_db)) with [attempt1; attempt2].
    cbn [sort_by fold_right insert_by created_at attempt1 attempt2].
    rewrite Rleb_false by (unfold day; lra). reflexivity. }
  eexists. split; [exact Hget |]. split; [reflexivity |].
  exact (proj1 (proj2 (proj2 (@attempt_history_sorted due_db _ _ _ Hget)))).
Defined.

(** ** Daily progress: accounting and reset *)

Section Accounting.

Variable enforces_positive : bool.
Variables (db : Database) (now : datetime) (attempt_uuid memory_uuid : string).
Variables (request : AttemptRequest) (pid uname : string) (puzzle : Puzzle) (player : string).

Hypothesis Hpid : req_puzzle_id request = Some pid.
Hypothesis Huname : req_player_username request = Some uname.
Hypothesis Hpid_nonempty : pid <> ""%string.
Hypothesis Huname_nonempty : uname <> ""%string.
Hypothesis Hpuzzle : get_puzzle db pid = Some puzzle.
Hypothesis Hplayer : get_player db uname = Some player.
Hypothesis Htries : (0 <= req_tries_count request)%Z.
Hypothesis Hnumbers :
  Forall (fun a => (1 <= attempt_number a)%Z) (PuzzleAttempt_objects db).

(** X26: a submission is counted once in the progress of the day: as a new
    puzzle when the log has no attempt of this player on this puzzle, as a
    review when it has one; the other counter stays.  (The attempts of the
    log are numbered from 1, as the views number them.) *)
Theorem submission_counts_new_or_review :
  let result :=
    FSRSPuzzleAttemptView_post enforces_positive db now attempt_uuid memory_uuid request in
  let before := fst (get_or_create_progress db player (date_of now)) in
  let attempted :=
    existsb (fun a => String.eqb (attempt_puzzle a) (puzzle_pk puzzle)
                      && String.eqb (attempt_player a) player)
      (PuzzleAttempt_objects db) in
  exists progress : UserDailyProgress,
    find (same_progress player (date_of now)) (UserDailyProgress_objects (snd result))
    = Some progress /\
    new_puzzles_seen progress
    = (new_puzzles_seen before + (if attempted then 0 else 1))%Z /\
    reviews_done progress
    = (reviews_done before + (if attempted then 1 else 0))%Z.
Proof.
  cbv zeta. unfold FSRSPuzzleAttemptView_post. rewrite Hpid, Huname. cbn [is_empty].
  apply String.eqb_neq in Hpid_nonempty, Huname_nonempty.
  rewrite Hpid_nonempty, Huname_nonempty. cbn [orb]. rewrite Hpuzzle, Hplayer.
  pose proof (max_attempt_number_spec db (puzzle_pk puzzle) player) as Hmax.
  cbv zeta in Hmax.
  set (mine := fun a => String.eqb (attempt_puzzle a) (puzzle_pk puzzle)
                        && String.eqb (attempt_player a) player) in *.
  set (next_attempt := match max_attempt_number db (puzzle_pk puzzle) player with
                       | Some n => (n + 1)%Z
                       | None => 1%Z
                       end).
  assert (Hnext : (next_attempt =? 1)%Z = negb (existsb mine (PuzzleAttempt_objects db))
                  /\ (0 <= next_attempt)%Z).
  { unfold next_attempt.
    destruct (max_attempt_number db (puzzle_pk puzzle) player) as [n |].
    - destruct Hmax as [(a & Ha & Hma & Hn) _].
      rewrite Forall_forall in Hnumbers. specialize (Hnumbers a Ha).
      assert (Hex : existsb mine (PuzzleAttempt_objects db) = true)
        by (apply existsb_exists; now exists a).
      rewrite Hex. cbn [negb]. split; [apply Z.eqb_neq |]; lia.
    - assert (Hex : existsb mine (PuzzleAttempt_objects db) = false).
      { destruct (existsb mine (PuzzleAttempt_objects db)) eqn:E; [| reflexivity].
        apply existsb_exists in E. destruct E as (a & Ha & Hma).
        rewrite (Hmax a Ha) in Hma. discriminate. }
      rewrite Hex. split; [reflexivity | lia]. }
  destruct Hnext as [Hfirst Hnext].
  unfold save_attempt. cbn [attempt_number models.tries_count].
  destruct (Z.ltb_spec next_attempt 0) as [Hneg |_]; [lia |].
  destruct (Z.ltb_spec (req_tries_count request) 0) as [Hneg |_]; [lia |].
  cbn [orb]. rewrite andb_false_r.
  rewrite get_or_create_progress_attempts.
  destruct (get_or_create_progress db player (date_of now)) as [progress db1] eqn:Hgc.
  destruct (get_or_create_progress_key _ _ _ Hgc) as (Hpp & Hpd & _ & Hmem).
  cbn [fst snd]. rewrite Hfirst.
  set (progress' := if negb (existsb mine (PuzzleAttempt_objects db)) then _ else _).
  assert (Hsame : same_progress (progress_player progress') (date progress') progress'
                  = true).
  { unfold progress'. destruct (negb _); apply same_progress_refl. }
  assert (Hkey : progress_player progress' = player /\ date progress' = date_of now).
  { unfold progress'. destruct (negb _); cbn [progress_player date]; auto. }
  assert (Hcounts : new_puzzles_seen progress'
                    = (new_puzzles_seen progress
                       + (if existsb mine (PuzzleAttempt_objects db) then 0 else 1))%Z
                    /\ reviews_done progress'
                       = (reviews_done progress
                          + (if existsb mine (PuzzleAttempt_objects db) then 1 else 0))%Z).
  { unfold progress'. destruct (existsb mine (PuzzleAttempt_objects db));
      cbn [negb new_puzzles_seen reviews_done]; split; lia. }
  assert (Hfound : forall dbx : Database,
             UserDailyProgress_objects dbx
             = UserDailyProgress_objects (save_progress
                 (set_PuzzleAttempt_objects db1 (PuzzleAttempt_objects dbx)) progress') ->
             exists p : UserDailyProgress,
               find (same_progress player (date_of now)) (UserDailyProgress_objects dbx)
               = Some p /\
               new_puzzles_seen p
               = (new_puzzles_seen progress
                  + (if existsb mine (PuzzleAttempt_objects db) then 0 else 1))%Z /\
               reviews_done p
               = (reviews_done progress
                  + (if existsb mine (PuzzleAttempt_objects db) then 1 else 0))%Z).
  { intros dbx ->. exists progress'. split; [| exact Hcounts].
    cbn [save_progress set_UserDailyProgress_objects UserDailyProgress_objects
         set_PuzzleAttempt_objects].
    destruct Hkey as [Hk1 Hk2]. rewrite <- Hk1 at 1. rewrite <- Hk2 at 1.
    apply find_save. exact Hsame. }
  change (FSRSMemory_objects (save_progress (set_PuzzleAttempt_objects db1 _) progress'))
    with (FSRSMemory_objects db1).
  destruct (find _ (FSRSMemory_objects db1)) as [memory |];
    (destruct (FSRSMemoryService.update_memory now _ _ _ _ _) as [m' | e];
     [destruct (models.calculate_retrievability now m') |]);
    cbn [fst snd]; apply Hfound; reflexivity.
Qed.

End Accounting.

Lemma submission_counts_new_or_review_witness :
  exists progress : UserDailyProgress,
    find (same_progress "alice" (date_of (day 2)))
      (UserDailyProgress_objects
         (snd (FSRSPuzzleAttemptView_post true due_db (day 2) "a3" "m3"
                 (mkAttemptRequest (Some "p1"%string) (Some "alice"%string)
                    1 false true None))))
    = Some progress /\
    new_puzzles_seen progress = 0%Z /\ reviews_done progress = 1%Z.
Proof.
  destruct (@submission_counts_new_or_review true due_db (day 2) "a3" "m3"
              (mkAttemptRequest (Some "p1"%string) (Some "alice"%string) 1 false true None)
              "p1" "alice" puzzle1 "alice")
    as (progress & Hfind & Hnew & Hreviews).
  - reflexivity.
  - reflexivity.
  - discriminate.
  - discriminate.
  - reflexivity.
  - reflexivity.
  - cbn. lia.
  - repeat constructor; cbn; lia.
  - exists progress. split; [exact Hfind |]. split; [exact Hnew | exact Hreviews].
Defined.

Lemma find_filter_none {A : Type} (f : A -> bool) (l : list A) :
  find f (filter (fun x => negb (f x)) l) = None.
Proof.
  induction l as [| x l IH]; [reflexivity |]. cbn [filter].
  destruct (f x) eqn:Hx; cbn [negb]; [exact IH |]. cbn [find]. now rewrite Hx.
Qed.

(** X27: [ResetDailyProgressView.post] for a known player removes the
    progress of that player on the day of the request and nothing else: the
    progress that the views read next is a new one with both counters zero,
    the rows of other players and other days stay, and so do the attempts,
    the memories, the puzzles and the players. *)
Theorem reset_clears_today_only (db : Database) (now : datetime)
    (username player : string) :
  get_player db username = Some player ->
  let db' := snd (ResetDailyProgressView_post db now username) in
  status_code (fst (ResetDailyProgressView_post db now username)) = HTTP_200_OK /\
  fst (get_or_create_progress db' player (date_of now))
  = mkUserDailyProgress player (date_of now) 0 0 /\
  (forall p : UserDailyProgress,
     In p (UserDailyProgress_objects db') <->
     In p (UserDailyProgress_objects db)
     /\ (progress_player p <> player \/ date p <> date_of now)) /\
  PuzzleAttempt_objects db' = PuzzleAttempt_objects db /\
  FSRSMemory_objects db' = FSRSMemory_objects db /\
  Puzzle_objects db' = Puzzle_objects db /\
  Player_objects db' = Player_objects db.
Proof.
  intros Hplayer. cbv zeta. unfold ResetDailyProgressView_post. rewrite Hplayer.
  cbn [fst snd status_code]. split; [reflexivity |]. split; [| split; [| repeat split]].
  - unfold get_or_create_progress, delete_progress.
    cbn [set_UserDailyProgress_objects UserDailyProgress_objects].
    now rewrite find_filter_none.
  - intros p. unfold delete_progress.
    cbn [set_UserDailyProgress_objects UserDailyProgress_objects].
    rewrite filter_In. unfold same_progress.
    split; intros [Hin Hc]; (split; [exact Hin |]).
    + apply negb_true_iff, andb_false_iff in Hc. destruct Hc as [Hc | Hc].
      * left. now apply String.eqb_neq.
      * right. now apply Z.eqb_neq.
    + apply negb_true_iff, andb_false_iff. destruct Hc as [Hc | Hc].
      * left. now apply String.eqb_neq.
      * right. now apply Z.eqb_neq.
Qed.

Lemma reset_clears_today_only_witness :
  get_player exhausted_db "alice" = Some "alice"%string /\
  fst (get_or_create_progress (snd (ResetDailyProgressView_post exhausted_db 0 "alice"))
         "alice" (date_of 0))
  = mkUserDailyProgress "alice" (date_of 0) 0 0.
Proof.
  assert (Hplayer : get_player exhausted_db "alice" = Some "alice"%string) by reflexivity.
  split; [exact Hplayer |].
  exact (proj1 (proj2 (@reset_clears_today_only exhausted_db 0 "alice" "alice" Hplayer))).
Defined.

(** X28: after a reset the daily mix of the same day starts from zero: with
    a positive total limit [DailyPuzzlesView.get] does not answer that the
    limit is reached, whatever the progress was before the reset, and
    reports no puzzle done. *)
Theorem reset_reopens_daily_mix (random_order : list Puzzle -> list Puzzle)
    (db : Database) (now : datetime) (username player : string)
    (query_params : DailyQuery) :
  get_player db username = Some player ->
  (0 < param (q_total_limit query_params) 50)%Z ->
  let db' := snd (ResetDailyProgressView_post db now username) in
  exists (body : DailyBody) (db'' : Database),
    DailyPuzzlesView_get random_order db' now username query_params
    = (Data HTTP_200_OK body, db'') /\
    message body = None /\
    progress_total_done body = 0%Z /\
    progress_remaining body
    = Some (Z.max 0 (param (q_new_limit query_params) 25),
            param (q_total_limit query_params) 50
            - Z.max 0 (param (q_new_limit query_params) 25),
            param (q_total_limit query_params) 50)%Z.
Proof.
  intros Hplayer Hlimit. cbv zeta.
  assert (Hreset : snd (ResetDailyProgressView_post db now username)
                   = delete_progress db player (date_of now)).
  { unfold ResetDailyProgressView_post. now rewrite Hplayer. }
  rewrite Hreset. clear Hreset.
  set (db' := delete_progress db player (date_of now)).
  assert (Hplayer' : get_player db' username = Some player) by exact Hplayer.
  assert (Hfresh : fst (get_or_create_progress db' player (date_of now))
                   = mkUserDailyProgress player (date_of now) 0 0).
  { unfold get_or_create_progress, db', delete_progress.
    cbn [set_UserDailyProgress_objects UserDailyProgress_objects].
    now rewrite find_filter_none. }
  unfold DailyPuzzlesView_get. rewrite Hplayer'.
  destruct (get_or_create_progress db' player (date_of now)) as [progress db''] eqn:Hgc.
  cbn [fst] in Hfresh. subst progress.
  cbn [total_puzzles_done new_puzzles_seen reviews_done].
  rewrite ?Z.add_0_r, ?Z.sub_0_r. rewrite (Z.max_r 0 (param (q_total_limit _) 50)) by lia.
  destruct (Z.leb_spec (param (q_total_limit query_params) 50) 0); [lia |].
  eexists. eexists. split; [reflexivity |].
  cbn [message progress_total_done progress_remaining]. repeat split.
Qed.

Lemma reset_reopens_daily_mix_witness :
  get_player exhausted_db "alice" = Some "alice"%string /\
  (0 < param (q_total_limit (mkDailyQuery None None None)) 50)%Z /\
  exists (body : DailyBody) (db'' : Database),
    DailyPuzzlesView_get (fun l => l)
      (snd (ResetDailyProgressView_post exhausted_db 0 "alice")) 0 "alice"
      (mkDailyQuery None None None)
    = (Data HTTP_200_OK body, db'') /\
    message body = None.
Proof.
  assert (Hplayer : get_player exhausted_db "alice" = Some "alice"%string) by reflexivity.
  assert (Hlimit : (0 < param (q_total_limit (mkDailyQuery None None None)) 50)%Z)
    by (cbn; lia).
  split; [exact Hplayer |]. split; [exact Hlimit |].
  destruct (@reset_reopens_daily_mix (fun l => l) exhausted_db 0 "alice" "alice"
              (mkDailyQuery None None None) Hplayer Hlimit)
    as (body & db'' & Hview & Hmessage & _).
  exists body, db''. split; assumption.
Defined.
